(** * The scope engine of darktable's histogram panel (src/libs/histogram.c)

    A shallow embedding of the scope state [dt_lib_histogram_t], of the three
    binners ([_lib_histogram_process_histogram], [_lib_histogram_process_waveform],
    [_lib_histogram_process_vectorscope]), of the entry point
    [dt_lib_histogram_process] and of the mode buttons, followed by the
    properties the specification states about them.

    C [float] is IEEE binary32: it is modelled by the Standard Library's
    [spec_float] at precision 24 and maximal exponent 128, every operation
    rounding to nearest even, as a C implementation does that evaluates
    [float] expressions in [float] and does not fuse a product with a sum.
    C [int], [uint32_t] and [size_t] values are integers of [Z]; conversions
    that wrap are written out, and the arithmetic of [int], whose overflow C
    leaves undefined, is that of [Z].

    What the file does not have the source of is a parameter or is modelled
    from the specification, and says so: the histogram helpers of
    common/histogram.c, [dt_iop_image_fill], the colour conversions, libm's
    [hypotf] and [powf], and the host's view, colour picker and profiles. *)

From Stdlib Require Import ZArith Lia Bool List.
From Stdlib Require Import Reals Lra.
From Stdlib Require Import Floats.SpecFloat.
From stdpp Require Import base list.
From stdpp Require Import strings.

Local Open Scope Z_scope.

(** ** binary32 arithmetic *)

Module F32.

Definition prec : Z := 24.
Definition emax : Z := 128.

Definition add : spec_float -> spec_float -> spec_float := SFadd prec emax.
Definition sub : spec_float -> spec_float -> spec_float := SFsub prec emax.
Definition mul : spec_float -> spec_float -> spec_float := SFmul prec emax.
Definition div : spec_float -> spec_float -> spec_float := SFdiv prec emax.

(** C comparison operators [<] and [>]: false as soon as one side is NaN. *)
Definition lt (x y : spec_float) : bool := SFltb x y.
Definition gt (x y : spec_float) : bool := SFltb y x.

Definition isnan (x : spec_float) : bool :=
  match x with S754_nan => true | _ => false end.

(** Conversion of an integer to [float], rounding to nearest even. *)
Definition of_Z (n : Z) : spec_float := binary_normalize prec emax n 0 false.

Definition NAN : spec_float := S754_nan.
Definition zero : spec_float := S754_zero false.
Definition one : spec_float := of_Z 1.
Definition half : spec_float := div (of_Z 1) (of_Z 2).

(** libm [fmaxf]: a NaN operand is ignored in favour of the other one. *)
Definition fmaxf (x y : spec_float) : spec_float :=
  if isnan x then y else if isnan y then x else if lt x y then y else x.

(** The integral part of a finite float, fraction discarded (toward zero). *)
Definition trunc (x : spec_float) : option Z :=
  match x with
  | S754_zero _ => Some 0
  | S754_finite s m e => Some (cond_Zopp s (Z.shiftl (Zpos m) e))
  | S754_infinity _ | S754_nan => None
  end.

(** libm [ceilf]: the least integral float not below [x]. *)
Definition ceilf (x : spec_float) : spec_float :=
  match x with
  | S754_finite s m e =>
      if 0 <=? e then x
      else
        let q := Z.shiftl (Zpos m) e in
        let n := if s then - q
                 else if Z.shiftl q (- e) =? Zpos m then q else q + 1 in
        binary_normalize prec emax n 0 s
  | _ => x
  end.

End F32.

Abbreviation float := spec_float.

(** Integer widths of the C types in play. *)
Definition SIZE_MAX1 : Z := 2 ^ 64.
Definition UINT32_MAX1 : Z := 2 ^ 32.
Definition INT_MIN : Z := - 2 ^ 31.
Definition INT_MAX1 : Z := 2 ^ 31.

(** Conversion of an integer to [size_t] and to [uint32_t]: reduction modulo
    the width. *)
Definition to_size_t (z : Z) : Z := z mod SIZE_MAX1.
Definition to_uint32 (z : Z) : Z := z mod UINT32_MAX1.

(** Conversion of an out-of-range integer to [int] (implementation defined;
    the two's complement wrap every supported compiler performs). *)
Definition to_int (z : Z) : Z := (z - INT_MIN) mod (2 ^ 32) + INT_MIN.

(** glib's [MAX], [MIN] and [CLAMP] macros, on integers. *)
Definition MAX (a b : Z) : Z := if b <? a then a else b.
Definition MIN (a b : Z) : Z := if a <? b then a else b.

(** The same macros on floats: [(a) > (b) ? (a) : (b)] and
    [(a) < (b) ? (a) : (b)]. *)
Definition MAXf (a b : float) : float := if F32.gt a b then a else b.
Definition MINf (a b : float) : float := if F32.lt a b then a else b.

(** ** Conversions from float to integer types

    C discards the fractional part; when the integral part does not fit the
    target type (and for infinities and NaN) the behaviour is undefined.  The
    value an implementation then produces is the parameter [undef] below,
    reduced to the target type: nothing is assumed about it. *)

Definition float_to_size_t (undef : float -> Z) (x : float) : Z :=
  match F32.trunc x with
  | Some z => if (0 <=? z) && (z <? SIZE_MAX1) then z else to_size_t (undef x)
  | None => to_size_t (undef x)
  end.

Definition float_to_int (undef : float -> Z) (x : float) : Z :=
  match F32.trunc x with
  | Some z => if (INT_MIN <=? z) && (z <? INT_MAX1) then z else to_int (undef x)
  | None => to_int (undef x)
  end.

(** ** The data model *)

Definition HISTOGRAM_BINS : Z := 256.

Inductive dt_lib_histogram_highlight_t :=
| DT_LIB_HISTOGRAM_HIGHLIGHT_NONE
| DT_LIB_HISTOGRAM_HIGHLIGHT_BLACK_POINT
| DT_LIB_HISTOGRAM_HIGHLIGHT_EXPOSURE.

Inductive dt_lib_histogram_scope_type_t :=
| DT_LIB_HISTOGRAM_SCOPE_HISTOGRAM
| DT_LIB_HISTOGRAM_SCOPE_WAVEFORM
| DT_LIB_HISTOGRAM_SCOPE_VECTORSCOPE
| DT_LIB_HISTOGRAM_SCOPE_N.

Inductive dt_lib_histogram_scale_t :=
| DT_LIB_HISTOGRAM_LOGARITHMIC
| DT_LIB_HISTOGRAM_LINEAR
| DT_LIB_HISTOGRAM_N.

Inductive dt_lib_histogram_waveform_type_t :=
| DT_LIB_HISTOGRAM_WAVEFORM_OVERLAID
| DT_LIB_HISTOGRAM_WAVEFORM_PARADE
| DT_LIB_HISTOGRAM_WAVEFORM_N.

Inductive dt_lib_histogram_vectorscope_type_t :=
| DT_LIB_HISTOGRAM_VECTORSCOPE_CIELUV
| DT_LIB_HISTOGRAM_VECTORSCOPE_JZAZBZ
| DT_LIB_HISTOGRAM_VECTORSCOPE_N.

(** The numeric value of each enumerator and the way back, used by the
    [(x + 1) % N] cycling of the buttons. *)
Definition scope_type_value (t : dt_lib_histogram_scope_type_t) : Z :=
  match t with
  | DT_LIB_HISTOGRAM_SCOPE_HISTOGRAM => 0
  | DT_LIB_HISTOGRAM_SCOPE_WAVEFORM => 1
  | DT_LIB_HISTOGRAM_SCOPE_VECTORSCOPE => 2
  | DT_LIB_HISTOGRAM_SCOPE_N => 3
  end.

Definition scope_type_of (z : Z) : dt_lib_histogram_scope_type_t :=
  match z with
  | 0 => DT_LIB_HISTOGRAM_SCOPE_HISTOGRAM
  | 1 => DT_LIB_HISTOGRAM_SCOPE_WAVEFORM
  | 2 => DT_LIB_HISTOGRAM_SCOPE_VECTORSCOPE
  | _ => DT_LIB_HISTOGRAM_SCOPE_N
  end.

Definition scale_value (t : dt_lib_histogram_scale_t) : Z :=
  match t with
  | DT_LIB_HISTOGRAM_LOGARITHMIC => 0
  | DT_LIB_HISTOGRAM_LINEAR => 1
  | DT_LIB_HISTOGRAM_N => 2
  end.

Definition scale_of (z : Z) : dt_lib_histogram_scale_t :=
  match z with
  | 0 => DT_LIB_HISTOGRAM_LOGARITHMIC
  | 1 => DT_LIB_HISTOGRAM_LINEAR
  | _ => DT_LIB_HISTOGRAM_N
  end.

Definition waveform_type_value (t : dt_lib_histogram_waveform_type_t) : Z :=
  match t with
  | DT_LIB_HISTOGRAM_WAVEFORM_OVERLAID => 0
  | DT_LIB_HISTOGRAM_WAVEFORM_PARADE => 1
  | DT_LIB_HISTOGRAM_WAVEFORM_N => 2
  end.

Definition waveform_type_of (z : Z) : dt_lib_histogram_waveform_type_t :=
  match z with
  | 0 => DT_LIB_HISTOGRAM_WAVEFORM_OVERLAID
  | 1 => DT_LIB_HISTOGRAM_WAVEFORM_PARADE
  | _ => DT_LIB_HISTOGRAM_WAVEFORM_N
  end.

Definition vectorscope_type_value (t : dt_lib_histogram_vectorscope_type_t) : Z :=
  match t with
  | DT_LIB_HISTOGRAM_VECTORSCOPE_CIELUV => 0
  | DT_LIB_HISTOGRAM_VECTORSCOPE_JZAZBZ => 1
  | DT_LIB_HISTOGRAM_VECTORSCOPE_N => 2
  end.

Definition vectorscope_type_of (z : Z) : dt_lib_histogram_vectorscope_type_t :=
  match z with
  | 0 => DT_LIB_HISTOGRAM_VECTORSCOPE_CIELUV
  | 1 => DT_LIB_HISTOGRAM_VECTORSCOPE_JZAZBZ
  | _ => DT_LIB_HISTOGRAM_VECTORSCOPE_N
  end.

(** [float vectorscope_graticule[6][2]]: an array inside the struct, read and
    written by index. *)
Definition graticule_of (F : Type) : Type := nat -> nat -> F.
Abbreviation graticule_t := (graticule_of float).

Definition graticule_set {F : Type} (g : graticule_of F) (k j : nat) (v : F)
  : graticule_of F :=
  fun k' j' => if (k' =? k)%nat && (j' =? j)%nat then v else g k' j'.

(** [dt_lib_histogram_t], without the widget handles, the mutex and the
    [button_down_*] bookkeeping of a pointer drag. Heap buffers are lists of
    their elements. *)
Record dt_lib_histogram_t := {
  histogram : list Z;
  histogram_max : Z;
  waveform_linear : list float;
  waveform_display : list float;
  waveform_8bit : list Z;
  waveform_width : Z;
  waveform_height : Z;
  waveform_max_width : Z;
  vectorscope_alpha : list Z;
  vectorscope_diameter : Z;
  vectorscope_alpha_stride : Z;
  vectorscope_graticule : graticule_t;
  dragging : bool;
  highlight : dt_lib_histogram_highlight_t;
  scope_type : dt_lib_histogram_scope_type_t;
  histogram_scale : dt_lib_histogram_scale_t;
  waveform_type : dt_lib_histogram_waveform_type_t;
  vectorscope_type : dt_lib_histogram_vectorscope_type_t;
  vectorscope_angle : float;
  red : bool;
  green : bool;
  blue : bool
}.

(** [dt_histogram_roi_t] (common/histogram.h), as the initializer in
    [dt_lib_histogram_process] fills it. *)
Record dt_histogram_roi_t := {
  width : Z;
  height : Z;
  crop_x : Z;
  crop_y : Z;
  crop_width : Z;
  crop_height : Z
}.

(** Field updates, one per assignment [d->field = v] of the source. *)
Definition set_histogram (v : list Z) (d : dt_lib_histogram_t) : dt_lib_histogram_t :=
  {| histogram := v; histogram_max := histogram_max d;
     waveform_linear := waveform_linear d; waveform_display := waveform_display d;
     waveform_8bit := waveform_8bit d; waveform_width := waveform_width d;
     waveform_height := waveform_height d; waveform_max_width := waveform_max_width d;
     vectorscope_alpha := vectorscope_alpha d;
     vectorscope_diameter := vectorscope_diameter d;
     vectorscope_alpha_stride := vectorscope_alpha_stride d;
     vectorscope_graticule := vectorscope_graticule d;
     dragging := dragging d; highlight := highlight d; scope_type := scope_type d;
     histogram_scale := histogram_scale d; waveform_type := waveform_type d;
     vectorscope_type := vectorscope_type d; vectorscope_angle := vectorscope_angle d;
     red := red d; green := green d; blue := blue d |}.

Definition set_histogram_max (v : Z) (d : dt_lib_histogram_t) : dt_lib_histogram_t :=
  {| histogram := histogram d; histogram_max := v;
     waveform_linear := waveform_linear d; waveform_display := waveform_display d;
     waveform_8bit := waveform_8bit d; waveform_width := waveform_width d;
     waveform_height := waveform_height d; waveform_max_width := waveform_max_width d;
     vectorscope_alpha := vectorscope_alpha d;
     vectorscope_diameter := vectorscope_diameter d;
     vectorscope_alpha_stride := vectorscope_alpha_stride d;
     vectorscope_graticule := vectorscope_graticule d;
     dragging := dragging d; highlight := highlight d; scope_type := scope_type d;
     histogram_scale := histogram_scale d; waveform_type := waveform_type d;
     vectorscope_type := vectorscope_type d; vectorscope_angle := vectorscope_angle d;
     red := red d; green := green d; blue := blue d |}.

Definition set_waveform_linear (v : list float) (d : dt_lib_histogram_t) : dt_lib_histogram_t :=
  {| histogram := histogram d; histogram_max := histogram_max d;
     waveform_linear := v; waveform_display := waveform_display d;
     waveform_8bit := waveform_8bit d; waveform_width := waveform_width d;
     waveform_height := waveform_height d; waveform_max_width := waveform_max_width d;
     vectorscope_alpha := vectorscope_alpha d;
     vectorscope_diameter := vectorscope_diameter d;
     vectorscope_alpha_stride := vectorscope_alpha_stride d;
     vectorscope_graticule := vectorscope_graticule d;
     dragging := dragging d; highlight := highlight d; scope_type := scope_type d;
     histogram_scale := histogram_scale d; waveform_type := waveform_type d;
     vectorscope_type := vectorscope_type d; vectorscope_angle := vectorscope_angle d;
     red := red d; green := green d; blue := blue d |}.

Definition set_waveform_width (v : Z) (d : dt_lib_histogram_t) : dt_lib_histogram_t :=
  {| histogram := histogram d; histogram_max := histogram_max d;
     waveform_linear := waveform_linear d; waveform_display := waveform_display d;
     waveform_8bit := waveform_8bit d; waveform_width := v;
     waveform_height := waveform_height d; waveform_max_width := waveform_max_width d;
     vectorscope_alpha := vectorscope_alpha d;
     vectorscope_diameter := vectorscope_diameter d;
     vectorscope_alpha_stride := vectorscope_alpha_stride d;
     vectorscope_graticule := vectorscope_graticule d;
     dragging := dragging d; highlight := highlight d; scope_type := scope_type d;
     histogram_scale := histogram_scale d; waveform_type := waveform_type d;
     vectorscope_type := vectorscope_type d; vectorscope_angle := vectorscope_angle d;
     red := red d; green := green d; blue := blue d |}.

Definition set_vectorscope_alpha (v : list Z) (d : dt_lib_histogram_t) : dt_lib_histogram_t :=
  {| histogram := histogram d; histogram_max := histogram_max d;
     waveform_linear := waveform_linear d; waveform_display := waveform_display d;
     waveform_8bit := waveform_8bit d; waveform_width := waveform_width d;
     waveform_height := waveform_height d; waveform_max_width := waveform_max_width d;
     vectorscope_alpha := v;
     vectorscope_diameter := vectorscope_diameter d;
     vectorscope_alpha_stride := vectorscope_alpha_stride d;
     vectorscope_graticule := vectorscope_graticule d;
     dragging := dragging d; highlight := highlight d; scope_type := scope_type d;
     histogram_scale := histogram_scale d; waveform_type := waveform_type d;
     vectorscope_type := vectorscope_type d; vectorscope_angle := vectorscope_angle d;
     red := red d; green := green d; blue := blue d |}.

Definition set_vectorscope_graticule (v : graticule_t) (d : dt_lib_histogram_t)
  : dt_lib_histogram_t :=
  {| histogram := histogram d; histogram_max := histogram_max d;
     waveform_linear := waveform_linear d; waveform_display := waveform_display d;
     waveform_8bit := waveform_8bit d; waveform_width := waveform_width d;
     waveform_height := waveform_height d; waveform_max_width := waveform_max_width d;
     vectorscope_alpha := vectorscope_alpha d;
     vectorscope_diameter := vectorscope_diameter d;
     vectorscope_alpha_stride := vectorscope_alpha_stride d;
     vectorscope_graticule := v;
     dragging := dragging d; highlight := highlight d; scope_type := scope_type d;
     histogram_scale := histogram_scale d; waveform_type := waveform_type d;
     vectorscope_type := vectorscope_type d; vectorscope_angle := vectorscope_angle d;
     red := red d; green := green d; blue := blue d |}.

Definition set_modes (dr : bool) (hl : dt_lib_histogram_highlight_t)
    (st : dt_lib_histogram_scope_type_t) (hs : dt_lib_histogram_scale_t)
    (wt : dt_lib_histogram_waveform_type_t) (vt : dt_lib_histogram_vectorscope_type_t)
    (d : dt_lib_histogram_t) : dt_lib_histogram_t :=
  {| histogram := histogram d; histogram_max := histogram_max d;
     waveform_linear := waveform_linear d; waveform_display := waveform_display d;
     waveform_8bit := waveform_8bit d; waveform_width := waveform_width d;
     waveform_height := waveform_height d; waveform_max_width := waveform_max_width d;
     vectorscope_alpha := vectorscope_alpha d;
     vectorscope_diameter := vectorscope_diameter d;
     vectorscope_alpha_stride := vectorscope_alpha_stride d;
     vectorscope_graticule := vectorscope_graticule d;
     dragging := dr; highlight := hl; scope_type := st;
     histogram_scale := hs; waveform_type := wt;
     vectorscope_type := vt; vectorscope_angle := vectorscope_angle d;
     red := red d; green := green d; blue := blue d |}.

Definition set_dragging (v : bool) (d : dt_lib_histogram_t) : dt_lib_histogram_t :=
  set_modes v (highlight d) (scope_type d) (histogram_scale d) (waveform_type d)
    (vectorscope_type d) d.
Definition set_highlight (v : dt_lib_histogram_highlight_t) (d : dt_lib_histogram_t)
  : dt_lib_histogram_t :=
  set_modes (dragging d) v (scope_type d) (histogram_scale d) (waveform_type d)
    (vectorscope_type d) d.
Definition set_scope_type (v : dt_lib_histogram_scope_type_t) (d : dt_lib_histogram_t)
  : dt_lib_histogram_t :=
  set_modes (dragging d) (highlight d) v (histogram_scale d) (waveform_type d)
    (vectorscope_type d) d.
Definition set_histogram_scale (v : dt_lib_histogram_scale_t) (d : dt_lib_histogram_t)
  : dt_lib_histogram_t :=
  set_modes (dragging d) (highlight d) (scope_type d) v (waveform_type d)
    (vectorscope_type d) d.
Definition set_waveform_type (v : dt_lib_histogram_waveform_type_t) (d : dt_lib_histogram_t)
  : dt_lib_histogram_t :=
  set_modes (dragging d) (highlight d) (scope_type d) (histogram_scale d) v
    (vectorscope_type d) d.
Definition set_vectorscope_type (v : dt_lib_histogram_vectorscope_type_t)
    (d : dt_lib_histogram_t) : dt_lib_histogram_t :=
  set_modes (dragging d) (highlight d) (scope_type d) (histogram_scale d)
    (waveform_type d) v d.

(** ** Buffers *)

(** Reading [buf[i]]. Reading outside the buffer is undefined in C; the model
    reads NaN there. *)
Definition buf_read (buf : list float) (i : Z) : float :=
  if i <? 0 then F32.NAN else default F32.NAN (buf !! Z.to_nat i).

(** [buf[i] += scale]. A write outside the buffer is undefined in C; the model
    leaves the buffer alone there. *)
Definition buf_add (buf : list float) (i : Z) (scale : float) : list float :=
  if i <? 0 then buf
  else match buf !! Z.to_nat i with
       | Some old => <[Z.to_nat i := F32.add old scale]> buf
       | None => buf
       end.

(** [hist[i]++] on [uint32_t] counters. *)
Definition hist_incr (hist : list Z) (i : Z) : list Z :=
  if i <? 0 then hist
  else match hist !! Z.to_nat i with
       | Some old => <[Z.to_nat i := to_uint32 (old + 1)]> hist
       | None => hist
       end.

Definition hist_read (hist : list Z) (i : Z) : Z :=
  if i <? 0 then 0 else default 0 (hist !! Z.to_nat i).

(** [memset(d->histogram, 0, sizeof(uint32_t) * 4 * HISTOGRAM_BINS)]. *)
Definition histogram_zeroed : list Z := replicate (Z.to_nat (4 * HISTOGRAM_BINS)) 0.

(** Modelled from the spec: [dt_iop_image_fill] (common/imagebuf.c) is not
    among the sources. "Zero-fill the linear accumulation buffer across
    [out_width x waveform_height x 4]": the first [w * h * ch] floats of the
    buffer receive the fill value, the rest of the buffer is left as it was. *)
Definition dt_iop_image_fill (buf : list float) (v : float) (w h ch : Z) : list float :=
  let n := Z.to_nat (to_size_t (w * h * ch)) in
  take (length buf) (replicate n v) ++ drop n buf.

(** ** The histogram binner *)

(** Modelled from the spec: [dt_histogram_helper] (common/histogram.c) is not
    among the sources. "For every pixel within the ROI's crop rectangle
    increments the bin [floor(value * 255)] (clamped to [0,255]) for each of
    the three color channels independently." [mul] is [histogram_params.mul].
    A product too large for binary32, which the multiplication returns as an
    infinity, is out of range like any other: it goes to the end of the clamp
    range its sign points to. The spec does not place NaN; it goes to bin 0. *)
Definition histogram_bin (mul : Z) (v : float) : Z :=
  let x := F32.mul v (F32.of_Z mul) in
  match F32.trunc x with
  | Some z => MIN mul (MAX 0 z)
  | None => match x with S754_infinity false => mul | _ => 0 end
  end.

(** Modelled from the spec: one pixel of [dt_histogram_helper]; counters are
    interleaved by channel, four per bin, pixels four floats each. *)
Definition histogram_count_pixel (input : list float) (roi : dt_histogram_roi_t)
    (mul : Z) (hist : list Z) (xy : Z * Z) : list Z :=
  foldl (fun h c =>
           let v := buf_read input (4 * (width roi * xy.2 + xy.1) + c) in
           hist_incr h (4 * histogram_bin mul v + c))
        hist [0; 1; 2].

(** Modelled from the spec: the pixels of the crop rectangle, row by row. *)
Definition roi_pixels (roi : dt_histogram_roi_t) : list (Z * Z) :=
  y ← seqZ (crop_y roi) (height roi - crop_height roi - crop_y roi);
  x ← seqZ (crop_x roi) (width roi - crop_width roi - crop_x roi);
  [(x, y)].

(** Modelled from the spec: [dt_histogram_helper]. *)
Definition dt_histogram_helper (roi : dt_histogram_roi_t) (mul : Z)
    (input : list float) (hist : list Z) : list Z :=
  foldl (histogram_count_pixel input roi mul) hist (roi_pixels roi).

(** Modelled from the spec: [dt_histogram_max_helper] (common/histogram.c) is
    not among the sources. It leaves in [histogram_max[ch]] "the max
    single-bin count" of channel [ch]: the largest of the [bins_count]
    counters of that channel, found by a running maximum from 0. *)
Definition dt_histogram_max_helper (bins_count : Z) (hist : list Z) (ch : Z) : Z :=
  foldl (fun m b => MAX m (hist_read hist (4 * b + ch))) 0 (seqZ 0 bins_count).

(** [_lib_histogram_process_histogram], lines 149-178. *)
Definition _lib_histogram_process_histogram (d : dt_lib_histogram_t)
    (input : list float) (roi : dt_histogram_roi_t) : dt_lib_histogram_t :=
  let d := set_histogram_max 0 d in
  let d := set_histogram histogram_zeroed d in
  let bins_count := HISTOGRAM_BINS in
  let mul := bins_count - 1 in
  let d := set_histogram (dt_histogram_helper roi mul input (histogram d)) d in
  let histogram_max := dt_histogram_max_helper bins_count (histogram d) in
  set_histogram_max (MAX (MAX (histogram_max 0) (histogram_max 1)) (histogram_max 2)) d.

(** ** The waveform binner *)

Section Waveform.

(** What a float-to-integer conversion yields where C leaves it undefined. *)
Variable undef : float -> Z.

(** The innermost statement pair of the loop nest, lines 240-242: the bucket
    of one channel value, then the accumulation into the cell. [x] is
    [in[4U * (roi->width * in_y + in_x) + (2U - k)]]. *)
Definition waveform_out_y (height_f : float) (height_i : Z) (x : float) : Z :=
  let v := F32.sub F32.one (F32.mul (F32.div (F32.of_Z 8) (F32.of_Z 9)) x) in
  if F32.isnan v then 0
  else MIN (float_to_size_t undef (F32.fmaxf (F32.mul v height_f) F32.zero)) height_i.

Definition waveform_cell (wf_width out_x out_y k : Z) : Z :=
  to_size_t (4 * to_size_t (to_size_t (wf_width * out_y) + out_x) + k).

Definition waveform_accumulate (wf_width : Z) (height_f : float) (height_i : Z)
    (scale : float) (out_x k : Z) (x : float) (wf_linear : list float) : list float :=
  let out_y := waveform_out_y height_f height_i x in
  buf_add wf_linear (waveform_cell wf_width out_x out_y k) scale.

(** The quantities computed ahead of the loop nest, lines 186-217. *)
Definition waveform_sample_width (roi : dt_histogram_roi_t) : Z :=
  MAX 1 (width roi - crop_width roi - crop_x roi).

Definition waveform_sample_height (roi : dt_histogram_roi_t) : Z :=
  MAX 1 (height roi - crop_height roi - crop_y roi).

Definition waveform_bin_width (d : dt_lib_histogram_t) (roi : dt_histogram_roi_t) : Z :=
  float_to_size_t undef
    (F32.ceilf (F32.div (F32.of_Z (waveform_sample_width roi))
                        (F32.of_Z (waveform_max_width d)))).

Definition waveform_wf_width (d : dt_lib_histogram_t) (roi : dt_histogram_roi_t) : Z :=
  float_to_size_t undef
    (F32.ceilf (F32.div (F32.of_Z (waveform_sample_width roi))
                        (F32.of_Z (waveform_bin_width d roi)))).

Definition waveform_scale (d : dt_lib_histogram_t) (roi : dt_histogram_roi_t) : float :=
  let brightness := F32.div (F32.of_Z (waveform_height d)) (F32.of_Z 40) in
  F32.div brightness
    (F32.of_Z (to_size_t (waveform_sample_height roi * waveform_bin_width d roi))).

(** [_lib_histogram_process_waveform], lines 180-254. The four nested [for]
    loops are folds over their index ranges, in the order of the source. *)
Definition _lib_histogram_process_waveform (d : dt_lib_histogram_t)
    (input : list float) (roi : dt_histogram_roi_t) : dt_lib_histogram_t :=
  let bin_width := waveform_bin_width d roi in
  let wf_width := waveform_wf_width d roi in
  let d' := set_waveform_width (to_int wf_width) d in
  let wf_linear :=
    dt_iop_image_fill (waveform_linear d) F32.zero wf_width
                      (to_size_t (waveform_height d)) 4 in
  let scale := waveform_scale d roi in
  let height_i := to_size_t (waveform_height d - 1) in
  let height_f := F32.of_Z height_i in
  let wf_linear :=
    foldl (fun wf out_x =>
      let x_from := to_size_t (out_x * bin_width + to_size_t (crop_x roi)) in
      let x_high := MIN (to_size_t (x_from + bin_width))
                        (to_size_t (width roi - crop_width roi)) in
      foldl (fun wf in_x =>
        foldl (fun wf in_y =>
          foldl (fun wf k =>
            let x := buf_read input
                       (to_size_t (4 * to_size_t (to_size_t (width roi) * in_y + in_x)
                                   + (2 - k))) in
            waveform_accumulate wf_width height_f height_i scale out_x k x wf)
            wf [0; 1; 2])
          wf (seqZ (to_size_t (crop_y roi))
                   (to_size_t (height roi - crop_height roi) - to_size_t (crop_y roi))))
        wf (seqZ x_from (x_high - x_from)))
      wf_linear (seqZ 0 wf_width) in
  set_waveform_linear wf_linear d'.

End Waveform.

(** ** The vectorscope *)

(** [float rgb[4]], [float chromaticity[4]]: a pixel of four scalars. *)
Record pixel4 (F : Type) := Pixel4 { px0 : F; px1 : F; px2 : F; px3 : F }.
Arguments Pixel4 {F} _ _ _ _.
Arguments px0 {F} _.
Arguments px1 {F} _.
Arguments px2 {F} _.
Arguments px3 {F} _.

(** The colour conversions [rgb_to_chromaticity] calls. They belong to the
    host's colour management (common/iop_profile.h, common/colorspaces_inline_conversions.h),
    which the engine consumes as an opaque capability: they are parameters. *)
Record color_math (F profile : Type) := {
  dt_ioppr_rgb_matrix_to_xyz : profile -> pixel4 F -> pixel4 F;
  dt_XYZ_to_xyY : pixel4 F -> pixel4 F;
  dt_xyY_to_Luv : pixel4 F -> pixel4 F;
  dt_XYZ_D50_2_XYZ_D65 : pixel4 F -> pixel4 F;
  dt_XYZ_2_JzAzBz : pixel4 F -> pixel4 F
}.
Arguments dt_ioppr_rgb_matrix_to_xyz {F profile} _ _ _.
Arguments dt_XYZ_to_xyY {F profile} _ _.
Arguments dt_xyY_to_Luv {F profile} _ _.
Arguments dt_XYZ_D50_2_XYZ_D65 {F profile} _ _.
Arguments dt_XYZ_2_JzAzBz {F profile} _ _.

(** [rgb_to_chromaticity], lines 259-300. It does no arithmetic of its own. *)
Definition rgb_to_chromaticity {F profile : Type} (cm : color_math F profile)
    (rgb : pixel4 F) (prof : profile) (cs : dt_lib_histogram_vectorscope_type_t)
  : pixel4 F :=
  let XYZ_D50 := dt_ioppr_rgb_matrix_to_xyz cm prof rgb in
  match cs with
  | DT_LIB_HISTOGRAM_VECTORSCOPE_CIELUV =>
      let xyY_D50 := dt_XYZ_to_xyY cm XYZ_D50 in
      dt_xyY_to_Luv cm xyY_D50
  | _ =>
      let XYZ_D65 := dt_XYZ_D50_2_XYZ_D65 cm XYZ_D50 in
      dt_XYZ_2_JzAzBz cm XYZ_D65
  end.

(** The scalar operations of the graticule computation, lines 323-341: the
    constants [0.0f] and [1.f], the comparison of the [MAX] macro, the division
    and libm's [hypotf]. The code is written over this interface and runs on
    binary32 ([f32_scalar] below). *)
Record scalar (F : Type) := {
  s_zero : F;
  s_one : F;
  s_gt : F -> F -> bool;
  s_div : F -> F -> F;
  s_hypot : F -> F -> F
}.
Arguments s_zero {F} _.
Arguments s_one {F} _.
Arguments s_gt {F} _ _ _.
Arguments s_div {F} _ _ _.
Arguments s_hypot {F} _ _ _.

Section Graticule.

Context {F profile : Type}.
Variable ops : scalar F.
Variable cm : color_math F profile.

(** [float in_rgb[6][4]]: red, green, blue, cyan, magenta, yellow. *)
Definition in_rgb : list (pixel4 F) :=
  let o := s_one ops in
  let z := s_zero ops in
  [ Pixel4 o z z o; Pixel4 z o z o; Pixel4 z z o o;
    Pixel4 z o o o; Pixel4 o z o o; Pixel4 o o z o ].

(** The [MAX] macro on scalars. *)
Definition MAXs (a b : F) : F := if s_gt ops a b then a else b.

(** First loop, lines 326-334: raw projections and their largest radius. *)
Definition graticule_project (prof : profile) (vs_type : dt_lib_histogram_vectorscope_type_t)
    (g : graticule_of F) : F * graticule_of F :=
  foldl (fun (acc : F * graticule_of F) (krgb : nat * pixel4 F) =>
           let '(max_diam, g) := acc in
           let '(k, rgb) := krgb in
           let chromaticity := rgb_to_chromaticity cm rgb prof vs_type in
           let max_diam := MAXs max_diam (s_hypot ops (px1 chromaticity) (px2 chromaticity)) in
           let g := graticule_set g k 0 (px1 chromaticity) in
           let g := graticule_set g k 1 (px2 chromaticity) in
           (max_diam, g))
        (s_zero ops, g) (imap (fun k rgb => (k, rgb)) in_rgb).

(** Second loop, lines 337-341: scale the graticule to the display. *)
Definition graticule_scale (max_diam : F) (g : graticule_of F) : graticule_of F :=
  foldl (fun g k =>
           let g := graticule_set g k 0 (s_div ops (g k 0%nat) max_diam) in
           graticule_set g k 1 (s_div ops (g k 1%nat) max_diam))
        g (seq 0 6).

Definition vectorscope_graticule_pass (prof : profile)
    (vs_type : dt_lib_histogram_vectorscope_type_t) (g : graticule_of F)
  : F * graticule_of F :=
  let '(max_diam, g) := graticule_project prof vs_type g in
  (max_diam, graticule_scale max_diam g).

End Graticule.

Section Vectorscope.

Variable undef : float -> Z.
Variable profile : Type.
Variable cm : color_math float profile.
(** libm's [hypotf] and [powf]. *)
Variable hypotf : float -> float -> float.
Variable powf : float -> float -> float.

Definition f32_scalar : scalar float :=
  {| s_zero := F32.zero; s_one := F32.one; s_gt := F32.gt;
     s_div := F32.div; s_hypot := hypotf |}.

(** Lines 373-374: the grid cell of one chromaticity coordinate. *)
Definition vectorscope_cell (vs_diameter : Z) (max_diam coordinate : float) : Z :=
  float_to_int undef
    (F32.mul (F32.of_Z vs_diameter) (F32.add (F32.div coordinate max_diam) F32.half)).

(** Line 378: the test guarding the accumulation. *)
Definition vectorscope_in_grid (vs_diameter out_x out_y : Z) : bool :=
  (0 <=? out_x) && (out_x <? vs_diameter - 1) && (0 <=? out_y) && (out_y <=? vs_diameter - 1).

(** Line 347. *)
Definition vectorscope_scale (vs_diameter width height : Z) : float :=
  F32.div (F32.mul (F32.of_Z 4) (F32.of_Z (vs_diameter * vs_diameter)))
          (F32.mul (F32.of_Z (width * height)) (F32.of_Z 255)).

(** The body of the counting loop, lines 370-383, for the pixel at float
    offset [k]. *)
Definition vectorscope_count_pixel (prof : profile)
    (vs_type : dt_lib_histogram_vectorscope_type_t) (vs_diameter : Z)
    (max_diam scale : float) (input : list float) (binned : list float) (k : Z)
  : list float :=
  let pix_in := Pixel4 (buf_read input k) (buf_read input (k + 1))
                       (buf_read input (k + 2)) (buf_read input (k + 3)) in
  let chromaticity := rgb_to_chromaticity cm pix_in prof vs_type in
  let out_x := vectorscope_cell vs_diameter max_diam (px1 chromaticity) in
  let out_y := vectorscope_cell vs_diameter max_diam (px2 chromaticity) in
  if vectorscope_in_grid vs_diameter out_x out_y
  then buf_add binned (out_y * vs_diameter + out_x) scale
  else binned.

(** Lines 349-384: the density of the whole [width x height] buffer. *)
Definition vectorscope_density (prof : profile)
    (vs_type : dt_lib_histogram_vectorscope_type_t) (vs_diameter : Z)
    (max_diam : float) (input : list float) (width height : Z) : list float :=
  let binned := replicate (Z.to_nat (vs_diameter * vs_diameter)) F32.zero in
  let scale := vectorscope_scale vs_diameter width height in
  let nfloats := to_size_t (4 * width * height) in
  foldl (vectorscope_count_pixel prof vs_type vs_diameter max_diam scale input)
        binned ((fun p => 4 * p) <$> seqZ 0 ((nfloats + 3) / 4)).

(** Conversion to [uint8_t] of the clamped, gamma-shaped density. *)
Definition float_to_uint8 (x : float) : Z :=
  match F32.trunc x with
  | Some z => if (0 <=? z) && (z <? 256) then z else undef x mod 256
  | None => undef x mod 256
  end.

(** The [CLAMP] macro of line 397, on floats. *)
Definition CLAMPf (x low high : float) : float :=
  if F32.gt x high then high else if F32.lt x low then low else x.

(** Lines 388-398. *)
Definition vectorscope_quantize (vs_diameter vs_alpha_stride : Z)
    (binned : list float) (vs_alpha : list Z) : list Z :=
  let gamma := F32.div F32.one (F32.div (F32.of_Z 3) (F32.of_Z 2)) in
  foldl (fun alpha out_y =>
    foldl (fun alpha out_x =>
      let bin_in := buf_read binned (to_size_t (out_y * vs_diameter + out_x)) in
      let v := float_to_uint8
                 (CLAMPf (F32.mul (powf bin_in gamma) (F32.of_Z 255))
                         (F32.of_Z 0) (F32.of_Z 255)) in
      <[Z.to_nat (to_size_t (out_y * vs_alpha_stride + out_x)) := v]> alpha)
      alpha (seqZ 0 vs_diameter))
    vs_alpha (seqZ 0 (to_size_t vs_diameter)).

(** [_lib_histogram_process_vectorscope], lines 302-408. [histogram_profile]
    is what [dt_ioppr_get_histogram_profile_info] returned, [None] for a null
    pointer. The working buffer [binned] is taken to be allocated. *)
Definition _lib_histogram_process_vectorscope (histogram_profile : option profile)
    (d : dt_lib_histogram_t) (input : list float) (width height : Z)
  : dt_lib_histogram_t :=
  let vs_diameter := vectorscope_diameter d in
  let vs_alpha_stride := vectorscope_alpha_stride d in
  let vs_type := vectorscope_type d in
  match histogram_profile with
  | None => d
  | Some prof =>
      let '(max_diam, g) :=
        vectorscope_graticule_pass f32_scalar cm prof vs_type (vectorscope_graticule d) in
      let d := set_vectorscope_graticule g d in
      let binned := vectorscope_density prof vs_type vs_diameter max_diam input width height in
      set_vectorscope_alpha
        (vectorscope_quantize vs_diameter vs_alpha_stride binned (vectorscope_alpha d)) d
  end.

End Vectorscope.

(** ** The entry point *)

(** What [dt_lib_histogram_process] reads from the host: the colour picker
    (lines 438-458), the histogram profile and the colour conversion of the
    image (lines 464-481), and the profile handed to the vectorscope. *)
Record host_t (profile : Type) := {
  (** the four-way condition of lines 439-442 *)
  colorpicker_restricts : bool;
  (** [darktable.lib->proxy.colorpicker.size == DT_COLORPICKER_SIZE_BOX] *)
  colorpicker_is_box : bool;
  color_picker_box : float * float * float * float;
  color_picker_point : float * float;
  (** [dt_ioppr_get_histogram_profile_type] gave [DT_COLORSPACE_NONE] *)
  out_profile_is_none : bool;
  (** [dt_alloc_align_float] returned a null pointer *)
  img_display_alloc_fails : bool;
  dt_ioppr_transform_image_colorspace_rgb : list float -> Z -> Z -> list float;
  (** [dt_ioppr_get_histogram_profile_info (darktable.develop)] *)
  dt_ioppr_get_histogram_profile_info : option profile
}.
Arguments colorpicker_restricts {profile} _.
Arguments colorpicker_is_box {profile} _.
Arguments color_picker_box {profile} _.
Arguments color_picker_point {profile} _.
Arguments out_profile_is_none {profile} _.
Arguments img_display_alloc_fails {profile} _.
Arguments dt_ioppr_transform_image_colorspace_rgb {profile} _ _ _ _.
Arguments dt_ioppr_get_histogram_profile_info {profile} _.

Section Process.

Variable undef : float -> Z.
Variable profile : Type.
Variable cm : color_math float profile.
Variable hypotf : float -> float -> float.
Variable powf : float -> float -> float.
Variable host : host_t profile.

(** [MIN(width, MAX(0, p * width))], an expression of type [float]. *)
Definition picker_clamp (p : float) (extent : Z) : float :=
  MINf (F32.of_Z extent) (MAXf (F32.of_Z 0) (F32.mul p (F32.of_Z extent))).

(** Lines 431-458: the region of interest. *)
Definition process_roi (width height : Z) : dt_histogram_roi_t :=
  let whole := {| width := width; height := height;
                  crop_x := 0; crop_y := 0; crop_width := 0; crop_height := 0 |} in
  if colorpicker_restricts host then
    if colorpicker_is_box host then
      let '(b0, b1, b2, b3) := color_picker_box host in
      {| width := width; height := height;
         crop_x := float_to_int undef (picker_clamp b0 width);
         crop_y := float_to_int undef (picker_clamp b1 height);
         crop_width :=
           float_to_int undef (F32.sub (F32.of_Z width) (picker_clamp b2 width));
         crop_height :=
           float_to_int undef (F32.sub (F32.of_Z height) (picker_clamp b3 height)) |}
    else
      let '(p0, p1) := color_picker_point host in
      {| width := width; height := height;
         crop_x := float_to_int undef (picker_clamp p0 width);
         crop_y := float_to_int undef (picker_clamp p1 height);
         crop_width :=
           float_to_int undef (F32.sub (F32.of_Z width) (picker_clamp p0 width));
         crop_height :=
           float_to_int undef (F32.sub (F32.of_Z height) (picker_clamp p1 height)) |}
  else whole.

(** Lines 419-427: the clear call. *)
Definition process_clear (d : dt_lib_histogram_t) : dt_lib_histogram_t :=
  let d := set_histogram histogram_zeroed d in
  let d := set_waveform_width 0 d in
  set_vectorscope_graticule (graticule_set (vectorscope_graticule d) 0 0 F32.NAN) d.

(** Lines 483-500: the dispatch on the scope type, under the lock.
    [g_assert_not_reached] aborts: [None]. *)
Definition process_dispatch (d : dt_lib_histogram_t) (buf : list float)
    (roi : dt_histogram_roi_t) (width height : Z) : option dt_lib_histogram_t :=
  match scope_type d with
  | DT_LIB_HISTOGRAM_SCOPE_HISTOGRAM =>
      Some (_lib_histogram_process_histogram d buf roi)
  | DT_LIB_HISTOGRAM_SCOPE_WAVEFORM =>
      Some (_lib_histogram_process_waveform undef d buf roi)
  | DT_LIB_HISTOGRAM_SCOPE_VECTORSCOPE =>
      Some (_lib_histogram_process_vectorscope undef profile cm hypotf powf
              (dt_ioppr_get_histogram_profile_info host) d buf width height)
  | DT_LIB_HISTOGRAM_SCOPE_N => None
  end.

(** [dt_lib_histogram_process], lines 410-504. [input] is [None] for a null
    pointer; [in_profile_is_none] is [in_profile_type == DT_COLORSPACE_NONE].
    The result is the state the call leaves behind, [None] when it aborts. *)
Definition dt_lib_histogram_process (d : dt_lib_histogram_t)
    (input : option (list float)) (width height : Z) (in_profile_is_none : bool)
  : option dt_lib_histogram_t :=
  match input with
  | None => Some (process_clear d)
  | Some input =>
      let roi := process_roi width height in
      if negb in_profile_is_none && negb (out_profile_is_none host) then
        if img_display_alloc_fails host then Some d
        else
          let img_display :=
            dt_ioppr_transform_image_colorspace_rgb host input width height in
          process_dispatch d img_display roi width height
      else process_dispatch d input roi width height
  end.

End Process.

(** The early return of lines 476-477: a conversion to the histogram profile
    is due (neither profile is [DT_COLORSPACE_NONE]) and the buffer for the
    converted image could not be allocated. *)
Definition process_allocation_fails {profile : Type} (host : host_t profile)
    (in_profile_is_none : bool) : bool :=
  negb in_profile_is_none && negb (out_profile_is_none host)
  && img_display_alloc_fails host.

(** ** The mode buttons

    The handlers also set tooltips and icons, store the choice in the
    configuration and queue redraws or a reprocessing of the preview; those
    requests go to the host and touch no field of the scope state. What they
    do to the state is below. [cv] is the current view as
    [dt_view_manager_get_current_view] returns it, [None] for a null pointer;
    a handler that dereferences a null view, or reaches
    [g_assert_not_reached], aborts: [None]. *)

Inductive dt_view_type_flags_t := DT_VIEW_DARKROOM | DT_VIEW_OTHER.

(** [_histogram_scale_update], lines 971-991. *)
Definition _histogram_scale_update (d : dt_lib_histogram_t) : option dt_lib_histogram_t :=
  match histogram_scale d with
  | DT_LIB_HISTOGRAM_LOGARITHMIC => Some d
  | DT_LIB_HISTOGRAM_LINEAR => Some d
  | DT_LIB_HISTOGRAM_N => None
  end.

(** [_waveform_view_update], lines 993-1018. *)
Definition _waveform_view_update (d : dt_lib_histogram_t) : option dt_lib_histogram_t :=
  match waveform_type d with
  | DT_LIB_HISTOGRAM_WAVEFORM_OVERLAID => Some d
  | DT_LIB_HISTOGRAM_WAVEFORM_PARADE => Some d
  | DT_LIB_HISTOGRAM_WAVEFORM_N => None
  end.

(** [_vectorscope_view_update], lines 1020-1052. *)
Definition _vectorscope_view_update (cv : option dt_view_type_flags_t)
    (d : dt_lib_histogram_t) : option dt_lib_histogram_t :=
  match vectorscope_type d with
  | DT_LIB_HISTOGRAM_VECTORSCOPE_N => None
  | _ =>
      match cv with
      | Some _ =>
          Some (set_vectorscope_graticule
                  (graticule_set (vectorscope_graticule d) 0 0 F32.NAN) d)
      | None => Some d
      end
  end.

(** [_scope_type_update], lines 1054-1086. *)
Definition _scope_type_update (cv : option dt_view_type_flags_t)
    (d : dt_lib_histogram_t) : option dt_lib_histogram_t :=
  match scope_type d with
  | DT_LIB_HISTOGRAM_SCOPE_HISTOGRAM => _histogram_scale_update d
  | DT_LIB_HISTOGRAM_SCOPE_WAVEFORM => _waveform_view_update d
  | DT_LIB_HISTOGRAM_SCOPE_VECTORSCOPE => _vectorscope_view_update cv d
  | DT_LIB_HISTOGRAM_SCOPE_N => None
  end.

(** [_scope_type_clicked], lines 1088-1106. *)
Definition _scope_type_clicked (cv : option dt_view_type_flags_t)
    (d : dt_lib_histogram_t) : option dt_lib_histogram_t :=
  let d := set_scope_type (scope_type_of ((scope_type_value (scope_type d) + 1)
                                mod scope_type_value DT_LIB_HISTOGRAM_SCOPE_N)) d in
  d ← _scope_type_update cv d;
  match cv with
  | Some _ => Some d
  | None => None
  end.

(** [_scope_view_clicked], lines 1108-1137. *)
Definition _scope_view_clicked (cv : option dt_view_type_flags_t)
    (d : dt_lib_histogram_t) : option dt_lib_histogram_t :=
  match scope_type d with
  | DT_LIB_HISTOGRAM_SCOPE_HISTOGRAM =>
      let d := set_histogram_scale
                 (scale_of ((scale_value (histogram_scale d) + 1)
                           mod scale_value DT_LIB_HISTOGRAM_N)) d in
      _histogram_scale_update d
  | DT_LIB_HISTOGRAM_SCOPE_WAVEFORM =>
      let d := set_waveform_type
                 (waveform_type_of ((waveform_type_value (waveform_type d) + 1)
                                   mod waveform_type_value DT_LIB_HISTOGRAM_WAVEFORM_N)) d in
      _waveform_view_update d
  | DT_LIB_HISTOGRAM_SCOPE_VECTORSCOPE =>
      let d := set_vectorscope_type
                 (vectorscope_type_of
                    ((vectorscope_type_value (vectorscope_type d) + 1)
                     mod vectorscope_type_value DT_LIB_HISTOGRAM_VECTORSCOPE_N)) d in
      _vectorscope_view_update cv d
  | DT_LIB_HISTOGRAM_SCOPE_N => None
  end.

(** [_lib_histogram_cycle_mode_callback], lines 1225-1289. *)
Definition _lib_histogram_cycle_mode_callback (cv : option dt_view_type_flags_t)
    (d : dt_lib_histogram_t) : option dt_lib_histogram_t :=
  match scope_type d with
  | DT_LIB_HISTOGRAM_SCOPE_HISTOGRAM =>
      match histogram_scale d with
      | DT_LIB_HISTOGRAM_LOGARITHMIC => _scope_view_clicked cv d
      | _ =>
          let d := set_dragging false d in
          let d := set_waveform_type DT_LIB_HISTOGRAM_WAVEFORM_OVERLAID d in
          d ← _scope_type_clicked cv d;
          Some (set_highlight DT_LIB_HISTOGRAM_HIGHLIGHT_NONE d)
      end
  | DT_LIB_HISTOGRAM_SCOPE_WAVEFORM =>
      match waveform_type d with
      | DT_LIB_HISTOGRAM_WAVEFORM_OVERLAID => _scope_view_clicked cv d
      | _ =>
          let d := set_dragging false d in
          let d := set_vectorscope_type DT_LIB_HISTOGRAM_VECTORSCOPE_CIELUV d in
          d ← _scope_type_clicked cv d;
          Some (set_highlight DT_LIB_HISTOGRAM_HIGHLIGHT_NONE d)
      end
  | DT_LIB_HISTOGRAM_SCOPE_VECTORSCOPE =>
      match vectorscope_type d with
      | DT_LIB_HISTOGRAM_VECTORSCOPE_CIELUV => _scope_view_clicked cv d
      | _ =>
          let d := set_histogram_scale DT_LIB_HISTOGRAM_LOGARITHMIC d in
          _scope_type_clicked cv d
      end
  | DT_LIB_HISTOGRAM_SCOPE_N => None
  end.

(** [_lib_histogram_change_mode_callback], lines 1291-1302. *)
Definition _lib_histogram_change_mode_callback (cv : option dt_view_type_flags_t)
    (d : dt_lib_histogram_t) : option dt_lib_histogram_t :=
  let d := set_dragging false d in
  let d := set_highlight DT_LIB_HISTOGRAM_HIGHLIGHT_NONE d in
  _scope_type_clicked cv d.

(** [_lib_histogram_change_type_callback], lines 1304-1312. *)
Definition _lib_histogram_change_type_callback (cv : option dt_view_type_flags_t)
    (d : dt_lib_histogram_t) : option dt_lib_histogram_t :=
  _scope_view_clicked cv d.

(** ** Example inputs *)

(** A colour capability that reads the chromaticity of a pixel off the pixel
    itself: the connection-space hops are identities, so the second and third
    component of the input come out as the two chromaticity coordinates. *)
Definition cm_identity : color_math float unit :=
  {| dt_ioppr_rgb_matrix_to_xyz := fun _ p => p;
     dt_XYZ_to_xyY := fun p => p;
     dt_xyY_to_Luv := fun p => p;
     dt_XYZ_D50_2_XYZ_D65 := fun p => p;
     dt_XYZ_2_JzAzBz := fun p => p |}.

(** A conversion that yields 0 wherever C leaves the result undefined. *)
Definition undef_zero : float -> Z := fun _ => 0.

(** A textbook [hypotf], [sqrt (x * x + y * y)], for the examples. *)
Definition hypotf_naive (x y : float) : float :=
  SFsqrt F32.prec F32.emax (F32.add (F32.mul x x) (F32.mul y y)).

(** The examples quantize the density with a [powf] that is the identity. *)
Definition powf_id (x y : float) : float := x.

(** A host without colour picker restriction and without conversion. *)
Definition host_plain (prof : option unit) : host_t unit :=
  {| colorpicker_restricts := false;
     colorpicker_is_box := false;
     color_picker_box := (F32.zero, F32.zero, F32.one, F32.one);
     color_picker_point := (F32.half, F32.half);
     out_profile_is_none := true;
     img_display_alloc_fails := false;
     dt_ioppr_transform_image_colorspace_rgb := fun input _ _ => input;
     dt_ioppr_get_histogram_profile_info := prof |}.

(** The state [gui_init] builds (lines 1386-1420), with a waveform of at most
    [max_width] columns and [wf_height] rows, and a vectorscope of side
    [diameter] whose rows are [diameter] bytes apart. *)
Definition state_init (max_width wf_height diameter : Z)
    (st : dt_lib_histogram_scope_type_t) : dt_lib_histogram_t :=
  {| histogram := histogram_zeroed;
     histogram_max := 0;
     waveform_linear := replicate (Z.to_nat (max_width * wf_height * 4)) F32.zero;
     waveform_display := replicate (Z.to_nat (max_width * wf_height * 4)) F32.zero;
     waveform_8bit := replicate (Z.to_nat (4 * wf_height * max_width)) 0;
     waveform_width := 0;
     waveform_height := wf_height;
     waveform_max_width := max_width;
     vectorscope_alpha := replicate (Z.to_nat (diameter * diameter)) 0;
     vectorscope_diameter := diameter;
     vectorscope_alpha_stride := diameter;
     vectorscope_graticule := graticule_set (fun _ _ => F32.zero) 0 0 F32.NAN;
     dragging := false;
     highlight := DT_LIB_HISTOGRAM_HIGHLIGHT_NONE;
     scope_type := st;
     histogram_scale := DT_LIB_HISTOGRAM_LOGARITHMIC;
     waveform_type := DT_LIB_HISTOGRAM_WAVEFORM_OVERLAID;
     vectorscope_type := DT_LIB_HISTOGRAM_VECTORSCOPE_CIELUV;
     vectorscope_angle := F32.zero;
     red := true; green := true; blue := true |}.

(** The state after [gui_init]: 175 waveform rows and a vectorscope of side
    256 as lines 1410 and 1416 set them, and the 360 waveform columns the
    comment at line 189 gives for the current constants. *)
Definition state_gui_init (st : dt_lib_histogram_scope_type_t) : dt_lib_histogram_t :=
  state_init 360 175 256 st.

(** A [w x h] image of one colour. *)
Definition image_const (w h : Z) (r g b : float) : list float :=
  mjoin (replicate (Z.to_nat (w * h)) [r; g; b; F32.one]).

(** The 4x4 pure red image of the spec's end-to-end example. *)
Definition image_red_4x4 : list float := image_const 4 4 F32.one F32.zero F32.zero.

(** The state after the histogram of the red image has been computed. *)
Definition state_after_red : dt_lib_histogram_t :=
  _lib_histogram_process_histogram
    (state_gui_init DT_LIB_HISTOGRAM_SCOPE_HISTOGRAM) image_red_4x4
    {| width := 4; height := 4; crop_x := 0; crop_y := 0;
       crop_width := 0; crop_height := 0 |}.

(** ** What a mode switch may touch *)

(** The buffer groups of the scope state: the histogram counters and their
    maximum, the three waveform buffers and the waveform dimensions, the
    vectorscope density and its dimensions. *)
Definition scope_buffers_kept (d d' : dt_lib_histogram_t) : Prop :=
  histogram d' = histogram d
  /\ histogram_max d' = histogram_max d
  /\ waveform_linear d' = waveform_linear d
  /\ waveform_display d' = waveform_display d
  /\ waveform_8bit d' = waveform_8bit d
  /\ waveform_width d' = waveform_width d
  /\ waveform_height d' = waveform_height d
  /\ waveform_max_width d' = waveform_max_width d
  /\ vectorscope_alpha d' = vectorscope_alpha d
  /\ vectorscope_diameter d' = vectorscope_diameter d
  /\ vectorscope_alpha_stride d' = vectorscope_alpha_stride d.

(** The graticule is the same array, entry by entry. *)
Definition graticule_kept (d d' : dt_lib_histogram_t) : Prop :=
  forall k j : nat, vectorscope_graticule d' k j = vectorscope_graticule d k j.

(** The graticule is the same array but for entry [0][0], which is either
    what it was or the NaN sentinel. *)
Definition graticule_kept_but_sentinel (d d' : dt_lib_histogram_t) : Prop :=
  (forall k j : nat, (k, j) <> (0%nat, 0%nat) ->
                     vectorscope_graticule d' k j = vectorscope_graticule d k j)
  /\ (vectorscope_graticule d' 0%nat 0%nat = vectorscope_graticule d 0%nat 0%nat
      \/ vectorscope_graticule d' 0%nat 0%nat = F32.NAN).

(** The mode switches: the scope type button, the view button, and the three
    keyboard shortcuts that press them. *)
Inductive mode_switch :=
| SwitchScopeType
| SwitchScopeView
| ShortcutCycleMode
| ShortcutChangeMode
| ShortcutChangeType.

Definition run_mode_switch (s : mode_switch) (cv : option dt_view_type_flags_t)
    (d : dt_lib_histogram_t) : option dt_lib_histogram_t :=
  match s with
  | SwitchScopeType => _scope_type_clicked cv d
  | SwitchScopeView => _scope_view_clicked cv d
  | ShortcutCycleMode => _lib_histogram_cycle_mode_callback cv d
  | ShortcutChangeMode => _lib_histogram_change_mode_callback cv d
  | ShortcutChangeType => _lib_histogram_change_type_callback cv d
  end.

(** A state showing the vectorscope, with a graticule computed. *)
Definition state_vectorscope_shown : dt_lib_histogram_t :=
  set_vectorscope_graticule (fun _ _ => F32.one)
    (state_gui_init DT_LIB_HISTOGRAM_SCOPE_VECTORSCOPE).

(** ** The waveform bucket as the specification words it *)

(** The integer nearest to a finite float, halves away from zero (C's
    [roundf]). *)
Definition float_round (x : float) : option Z :=
  match x with
  | S754_zero _ => Some 0
  | S754_finite s m e =>
      if 0 <=? e then Some (cond_Zopp s (Z.shiftl (Zpos m) e))
      else Some (cond_Zopp s (Z.shiftl (Zpos m) e
                              + (if Z.testbit (Zpos m) (- e - 1) then 1 else 0)))
  | S754_infinity _ | S754_nan => None
  end.

(** "[out_y = clamp(round((1 - (8/9)*value) * (height-1)), 0, height-1)]",
    NaN to bucket 0; an infinite product clamps to the end its sign points to. *)
Definition spec_waveform_out_y (waveform_height : Z) (x : float) : Z :=
  let v := F32.sub F32.one (F32.mul (F32.div (F32.of_Z 8) (F32.of_Z 9)) x) in
  if F32.isnan v then 0
  else match float_round (F32.mul v (F32.of_Z (waveform_height - 1))) with
       | Some z => Z.max 0 (Z.min z (waveform_height - 1))
       | None => match F32.mul v (F32.of_Z (waveform_height - 1)) with
                 | S754_infinity false => waveform_height - 1
                 | _ => 0
                 end
       end.

(** ** Example inputs of the vectorscope *)

(** Under [cm_identity] the chromaticity of a pixel is its green and blue
    component, and the six graticule colours give [max_diam = sqrt 2]. With
    [45/64] as one coordinate and 0 as the other, these two pixels mirror each
    other across the diagonal of the 256x256 grid: the first maps to column
    255, row 128, the second to column 128, row 255. *)
Definition pixel_right : list float :=
  [F32.zero; F32.div (F32.of_Z 45) (F32.of_Z 64); F32.zero; F32.one].
Definition pixel_top : list float :=
  [F32.zero; F32.zero; F32.div (F32.of_Z 45) (F32.of_Z 64); F32.one].
(** A neutral pixel, at the centre of the grid. *)
Definition pixel_centre : list float := [F32.zero; F32.zero; F32.zero; F32.one].

(** [max_diam] of the examples. *)
Definition max_diam_identity : float :=
  (vectorscope_graticule_pass (f32_scalar hypotf_naive) cm_identity tt
     DT_LIB_HISTOGRAM_VECTORSCOPE_CIELUV (fun _ _ => F32.zero)).1.

(** A host whose colour picker box restricts the analysis to the right half
    of the image. *)
Definition host_right_half (prof : option unit) : host_t unit :=
  {| colorpicker_restricts := true;
     colorpicker_is_box := true;
     color_picker_box := (F32.half, F32.zero, F32.one, F32.one);
     color_picker_point := (F32.half, F32.half);
     out_profile_is_none := true;
     img_display_alloc_fails := false;
     dt_ioppr_transform_image_colorspace_rgb := fun input _ _ => input;
     dt_ioppr_get_histogram_profile_info := prof |}.

(** ** The graticule as points of the plane *)

(** The raw projections of the six graticule colours, in the order of
    [in_rgb]: the pairs [(chromaticity[1], chromaticity[2])] of lines 330-333. *)
Definition graticule_raw {F profile : Type} (ops : scalar F) (cm : color_math F profile)
    (prof : profile) (vs_type : dt_lib_histogram_vectorscope_type_t) : list (F * F) :=
  (fun rgb => let c := rgb_to_chromaticity cm rgb prof vs_type in (px1 c, px2 c))
    <$> in_rgb ops.







(** A colour capability for a profile whose matrix is zero: every colour
    goes to the origin. *)
Definition cm_zero_matrix : color_math float unit :=
  {| dt_ioppr_rgb_matrix_to_xyz := fun _ _ => Pixel4 F32.zero F32.zero F32.zero F32.zero;
     dt_XYZ_to_xyY := fun p => p;
     dt_xyY_to_Luv := fun p => p;
     dt_XYZ_D50_2_XYZ_D65 := fun p => p;
     dt_XYZ_2_JzAzBz := fun p => p |}.

(** ** Rounding locations, and the ceiling of a quotient *)

(** What a rounding location of [SpecFloat] says about the exact quotient
    [N / D] that the integer [m] truncates: [m] is its floor, and the location
    tells whether the quotient is [m] exactly or how its fraction compares
    with one half. *)
Definition loc_ok (l : location) (N D m : Z) : Prop :=
  m * D <= N < m * D + D
  /\ match l with
     | loc_Exact => N = m * D
     | loc_Inexact c => N <> m * D /\ (2 * (N - m * D) ?= D) = c
     end.


(** "[ceil(a / b)]" on positive integers. *)
Definition ceil_div (a b : Z) : Z := (a + b - 1) / b.

(** ** The mode names of the configuration *)

(** The name tables of lines 82-85. A handler stores
    [names[d->mode]] in the configuration, [gui_init] reads it back. *)
Definition dt_lib_histogram_scope_type_names : list string :=
  ["histogram"%string; "waveform"%string; "vectorscope"%string].
Definition dt_lib_histogram_histogram_scale_names : list string :=
  ["logarithmic"%string; "linear"%string].
Definition dt_lib_histogram_waveform_type_names : list string :=
  ["overlaid"%string; "parade"%string].
Definition dt_lib_histogram_vectorscope_type_names : list string :=
  ["u*v*"%string; "AzBz"%string].

Definition mode_name_tables : list (list string) :=
  [ dt_lib_histogram_scope_type_names; dt_lib_histogram_histogram_scale_names;
    dt_lib_histogram_waveform_type_names; dt_lib_histogram_vectorscope_type_names ].

(** The loops of [gui_init], lines 1359-1381: every table entry equal to the
    stored string assigns its index; the field starts at 0, as [g_malloc0]
    leaves it. *)
Definition gui_init_mode (names : list string) (str : string) : Z :=
  foldl (fun mode (iname : nat * string) =>
           if String.eqb str iname.2 then Z.of_nat iname.1 else mode)
        0 (imap (fun i name => (i, name)) names).

(** [names[mode]], as the handlers index the tables (lines 1092, 1115, 1122,
    1129); outside the table C reads past the array, [None] here. *)
Definition mode_name (names : list string) (mode : Z) : option string :=
  if mode <? 0 then None else names !! Z.to_nat mode.

(** ** The pointer on the scope *)

(** GDK hands event coordinates over as [double]: binary64. The float
    literals of the handlers ([.1f], [0.15f], [0.2f], [0.001f]) are written as
    the binary32 quotients that round to the same number. *)
Module F64.
Definition prec : Z := 53.
Definition emax : Z := 1024.
Definition sub : spec_float -> spec_float -> spec_float := SFsub prec emax.
Definition mul : spec_float -> spec_float -> spec_float := SFmul prec emax.
Definition div : spec_float -> spec_float -> spec_float := SFdiv prec emax.
Definition of_Z (n : Z) : spec_float := binary_normalize prec emax n 0 false.
End F64.

Abbreviation double := spec_float.

(** Conversion of a [double] to [float], rounding to nearest even. *)
Definition double_to_float (x : double) : float :=
  match x with
  | S754_finite s m e => binary_round F32.prec F32.emax s m e
  | _ => x
  end.

(** The bookkeeping of a drag, the [button_down_*] fields of
    [dt_lib_histogram_t]. *)
Record pointer_t := {
  button_down_x : Z;
  button_down_y : Z;
  button_down_value : float
}.

(** The calls into the exposure module the pointer handlers make. *)
Inductive dev_call :=
| dt_dev_exposure_set_exposure (exposure : float)
| dt_dev_exposure_set_black (black : float)
| dt_dev_exposure_reset_defaults.

Section Pointer.

Variable undef : float -> Z.

(** [_drawable_motion_notify_callback], lines 812-880. [hooks] is
    [dt_dev_exposure_hooks_available (dev)]; the allocation is that of the
    widget. Redraw requests, tooltips and the cursor go to the toolkit. *)
Definition _drawable_motion_notify_callback (cv : option dt_view_type_flags_t)
    (hooks : bool) (alloc_width alloc_height : Z) (event_x event_y : double)
    (d : dt_lib_histogram_t) (p : pointer_t)
  : option (dt_lib_histogram_t * list dev_call) :=
  if dragging d then
    let diff :=
      double_to_float
        match scope_type d with
        | DT_LIB_HISTOGRAM_SCOPE_WAVEFORM => F64.sub (F64.of_Z (button_down_y p)) event_y
        | _ => F64.sub event_x (F64.of_Z (button_down_x p))
        end in
    let range :=
      match scope_type d with
      | DT_LIB_HISTOGRAM_SCOPE_WAVEFORM => alloc_height
      | _ => alloc_width
      end in
    match highlight d with
    | DT_LIB_HISTOGRAM_HIGHLIGHT_EXPOSURE =>
        let exposure :=
          F32.add (button_down_value p)
                  (F32.div (F32.mul diff (F32.of_Z 4)) (F32.of_Z range)) in
        Some (d, [dt_dev_exposure_set_exposure exposure])
    | DT_LIB_HISTOGRAM_HIGHLIGHT_BLACK_POINT =>
        let black :=
          F32.sub (button_down_value p)
                  (F32.div (F32.mul diff (F32.div (F32.of_Z 1) (F32.of_Z 10)))
                           (F32.of_Z range)) in
        Some (d, [dt_dev_exposure_set_black black])
    | DT_LIB_HISTOGRAM_HIGHLIGHT_NONE => Some (d, [])
    end
  else
    let x := double_to_float event_x in
    let y := double_to_float event_y in
    let posx := F32.div x (F32.of_Z alloc_width) in
    let posy := F32.div y (F32.of_Z alloc_height) in
    match cv with
    | None => None
    | Some view =>
        let hooks_available :=
          match view with DT_VIEW_DARKROOM => hooks | _ => false end in
        let is_histogram :=
          match scope_type d with DT_LIB_HISTOGRAM_SCOPE_HISTOGRAM => true | _ => false end in
        let is_waveform :=
          match scope_type d with DT_LIB_HISTOGRAM_SCOPE_WAVEFORM => true | _ => false end in
        let is_vectorscope :=
          match scope_type d with DT_LIB_HISTOGRAM_SCOPE_VECTORSCOPE => true | _ => false end in
        let hl :=
          if negb hooks_available || is_vectorscope
          then DT_LIB_HISTOGRAM_HIGHLIGHT_NONE
          else if (F32.lt posx (F32.div (F32.of_Z 1) (F32.of_Z 5)) && is_histogram)
                  || (F32.gt posy (F32.div (F32.of_Z 7) (F32.of_Z 9)) && is_waveform)
          then DT_LIB_HISTOGRAM_HIGHLIGHT_BLACK_POINT
          else DT_LIB_HISTOGRAM_HIGHLIGHT_EXPOSURE in
        Some (set_highlight hl d, [])
    end.

(** [_drawable_button_press_callback], lines 882-907. [is_2button] is
    [event->type == GDK_2BUTTON_PRESS]; [exposure] and [black] are what
    [dt_dev_exposure_get_exposure] and [dt_dev_exposure_get_black] return. *)
Definition _drawable_button_press_callback (is_2button : bool)
    (event_x event_y : double) (exposure black : float)
    (d : dt_lib_histogram_t) (p : pointer_t)
  : dt_lib_histogram_t * pointer_t * list dev_call :=
  match highlight d with
  | DT_LIB_HISTOGRAM_HIGHLIGHT_NONE => (d, p, [])
  | hl =>
      if is_2button then (d, p, [dt_dev_exposure_reset_defaults])
      else
        let d := set_dragging true d in
        let value :=
          match hl with
          | DT_LIB_HISTOGRAM_HIGHLIGHT_EXPOSURE => exposure
          | DT_LIB_HISTOGRAM_HIGHLIGHT_BLACK_POINT => black
          | DT_LIB_HISTOGRAM_HIGHLIGHT_NONE => button_down_value p
          end in
        (d, {| button_down_x := float_to_int undef event_x;
               button_down_y := float_to_int undef event_y;
               button_down_value := value |}, [])
  end.

(** [_drawable_scroll_callback], lines 909-941. [ctrl] is the control
    modifier; [delta_y] is what [dt_gui_get_scroll_unit_deltas] yields, [None]
    when it returns false. The state is not written. *)
Definition _drawable_scroll_callback (ctrl : bool) (delta_y : option Z)
    (exposure black : float) (d : dt_lib_histogram_t) : list dev_call :=
  if ctrl then []
  else match delta_y with
       | None => []
       | Some delta_y =>
           match highlight d with
           | DT_LIB_HISTOGRAM_HIGHLIGHT_EXPOSURE =>
               [dt_dev_exposure_set_exposure
                  (F32.sub exposure
                     (F32.mul (F32.div (F32.of_Z 15) (F32.of_Z 100)) (F32.of_Z delta_y)))]
           | DT_LIB_HISTOGRAM_HIGHLIGHT_BLACK_POINT =>
               [dt_dev_exposure_set_black
                  (F32.add black
                     (F32.mul (F32.div (F32.of_Z 1) (F32.of_Z 1000)) (F32.of_Z delta_y)))]
           | DT_LIB_HISTOGRAM_HIGHLIGHT_NONE => []
           end
       end.

(** [_drawable_button_release_callback], lines 943-952. *)
Definition _drawable_button_release_callback (cv : option dt_view_type_flags_t)
    (hooks : bool) (alloc_width alloc_height : Z) (event_x event_y : double)
    (d : dt_lib_histogram_t) (p : pointer_t)
  : option (dt_lib_histogram_t * list dev_call) :=
  let d := set_dragging false d in
  _drawable_motion_notify_callback cv hooks alloc_width alloc_height event_x event_y d p.

(** [_drawable_leave_notify_callback], lines 954-969. *)
Definition _drawable_leave_notify_callback (d : dt_lib_histogram_t) : dt_lib_histogram_t :=
  if negb (dragging d)
     && match highlight d with DT_LIB_HISTOGRAM_HIGHLIGHT_NONE => false | _ => true end
  then set_highlight DT_LIB_HISTOGRAM_HIGHLIGHT_NONE d
  else d.

(** [_eventbox_motion_notify_callback], lines 1172-1182: a motion over the
    panel refreshes the tooltips of the channel buttons and runs
    [_scope_type_update]. *)
Definition _eventbox_motion_notify_callback (cv : option dt_view_type_flags_t)
    (d : dt_lib_histogram_t) : option dt_lib_histogram_t :=
  _scope_type_update cv d.

(** The events the panel handles, each with what the toolkit and the host
    hand to its handler. *)
Inductive gui_event :=
| EvMotion (cv : option dt_view_type_flags_t) (hooks : bool)
           (alloc_width alloc_height : Z) (event_x event_y : double)
| EvButtonPress (is_2button : bool) (event_x event_y : double) (exposure black : float)
| EvButtonRelease (cv : option dt_view_type_flags_t) (hooks : bool)
                  (alloc_width alloc_height : Z) (event_x event_y : double)
| EvLeave
| EvScroll (ctrl : bool) (delta_y : option Z) (exposure black : float)
| EvEventboxMotion (cv : option dt_view_type_flags_t)
| EvModeSwitch (s : mode_switch) (cv : option dt_view_type_flags_t).

(** One event: the state it leaves and the exposure calls it makes, [None]
    when the handler aborts. *)
Definition handle_event (ev : gui_event) (dp : dt_lib_histogram_t * pointer_t)
  : option (dt_lib_histogram_t * pointer_t * list dev_call) :=
  let '(d, p) := dp in
  match ev with
  | EvMotion cv hooks w h x y =>
      r ← _drawable_motion_notify_callback cv hooks w h x y d p;
      Some (r.1, p, r.2)
  | EvButtonPress is_2button x y exposure black =>
      Some (_drawable_button_press_callback is_2button x y exposure black d p)
  | EvButtonRelease cv hooks w h x y =>
      r ← _drawable_button_release_callback cv hooks w h x y d p;
      Some (r.1, p, r.2)
  | EvLeave => Some (_drawable_leave_notify_callback d, p, [])
  | EvScroll ctrl delta_y exposure black =>
      Some (d, p, _drawable_scroll_callback ctrl delta_y exposure black d)
  | EvEventboxMotion cv =>
      d' ← _eventbox_motion_notify_callback cv d;
      Some (d', p, [])
  | EvModeSwitch s cv =>
      d' ← run_mode_switch s cv d;
      Some (d', p, [])
  end.

(** A sequence of events, the calls in the order they are made. *)
Fixpoint handle_events (evs : list gui_event) (dp : dt_lib_histogram_t * pointer_t)
  : option (dt_lib_histogram_t * pointer_t * list dev_call) :=
  match evs with
  | [] => Some (dp, [])
  | ev :: evs =>
      r ← handle_event ev dp;
      r' ← handle_events evs r.1;
      Some (r'.1, r.2 ++ r'.2)
  end.

End Pointer.

(** Whether an event finds the exposure hooks available: lines 846-847. *)
Definition event_hooks_available (ev : gui_event) : bool :=
  match ev with
  | EvMotion (Some DT_VIEW_DARKROOM) hooks _ _ _ _ => hooks
  | EvButtonRelease (Some DT_VIEW_DARKROOM) hooks _ _ _ _ => hooks
  | _ => false
  end.

(** ** Drawing *)

(** What [_drawable_draw_callback] paints of the scope, over the frame, the
    highlighted region and the grid: the histogram with its channel mask and
    scale, the waveform channels of the linear buffer in the order they are
    drawn, or the vectorscope. *)
Inductive scope_painted :=
| PaintNothing
| PaintHistogram (mask : list bool) (linear : bool)
| PaintWaveformChannels (channels : list Z)
| PaintVectorscope.

(** [_lib_histogram_draw_histogram], lines 507-531. *)
Definition _lib_histogram_draw_histogram (d : dt_lib_histogram_t) (mask : list bool)
  : scope_painted :=
  if histogram_max d =? 0 then PaintNothing
  else PaintHistogram mask
         match histogram_scale d with DT_LIB_HISTOGRAM_LINEAR => true | _ => false end.

(** [_lib_histogram_draw_waveform], lines 595-608: channel [ch] of the
    buffer is drawn when [mask[2-ch]] is set. *)
Definition _lib_histogram_draw_waveform (mask : list bool) : scope_painted :=
  PaintWaveformChannels
    (filter (fun ch => default false (mask !! Z.to_nat (2 - ch)) = true) [0; 1; 2]).

(** [_lib_histogram_draw_rgb_parade], lines 610-622. *)
Definition _lib_histogram_draw_rgb_parade : scope_painted :=
  PaintWaveformChannels [2; 1; 0].

(** [_drawable_draw_callback], lines 701-810. [cv_tethering] tells whether the
    current view is the tethering view, [None] for a null view;
    [image_is_preview] is
    [dev->image_storage.id == dev->preview_pipe->output_imgid]. *)
Definition _drawable_draw_callback (cv_tethering : option bool) (image_is_preview : bool)
    (d : dt_lib_histogram_t) : option scope_painted :=
  match scope_type d with
  | DT_LIB_HISTOGRAM_SCOPE_N => None
  | _ =>
      match cv_tethering with
      | None => None
      | Some tethering =>
          if tethering || image_is_preview then
            let mask := [red d; green d; blue d] in
            match scope_type d with
            | DT_LIB_HISTOGRAM_SCOPE_HISTOGRAM =>
                Some (_lib_histogram_draw_histogram d mask)
            | DT_LIB_HISTOGRAM_SCOPE_WAVEFORM =>
                if waveform_width d =? 0 then Some PaintNothing
                else match waveform_type d with
                     | DT_LIB_HISTOGRAM_WAVEFORM_OVERLAID =>
                         Some (_lib_histogram_draw_waveform mask)
                     | _ => Some _lib_histogram_draw_rgb_parade
                     end
            | DT_LIB_HISTOGRAM_SCOPE_VECTORSCOPE =>
                if negb (F32.isnan (vectorscope_graticule d 0%nat 0%nat))
                then Some PaintVectorscope
                else Some PaintNothing
            | DT_LIB_HISTOGRAM_SCOPE_N => None
            end
          else Some PaintNothing
      end
  end.

(** ** Proper modes *)

(** The four mode fields hold enumerators of their scopes, none the [_N]
    count that closes each enumeration. *)
Definition modes_proper (d : dt_lib_histogram_t) : Prop :=
  scope_type d <> DT_LIB_HISTOGRAM_SCOPE_N
  /\ histogram_scale d <> DT_LIB_HISTOGRAM_N
  /\ waveform_type d <> DT_LIB_HISTOGRAM_WAVEFORM_N
  /\ vectorscope_type d <> DT_LIB_HISTOGRAM_VECTORSCOPE_N.

(** The scope on display and its view: the scope type with the numeric value
    of the sub-mode that belongs to it. *)
Definition shown_mode (d : dt_lib_histogram_t) : dt_lib_histogram_scope_type_t * Z :=
  (scope_type d,
   match scope_type d with
   | DT_LIB_HISTOGRAM_SCOPE_HISTOGRAM => scale_value (histogram_scale d)
   | DT_LIB_HISTOGRAM_SCOPE_WAVEFORM => waveform_type_value (waveform_type d)
   | DT_LIB_HISTOGRAM_SCOPE_VECTORSCOPE => vectorscope_type_value (vectorscope_type d)
   | DT_LIB_HISTOGRAM_SCOPE_N => 0
   end).

(** "Hist log -> lin -> waveform -> parade -> vectorscope", the comment of
    line 1232, continued over the two vectorscope views and closed. *)
Definition cycle_order : list (dt_lib_histogram_scope_type_t * Z) :=
  [ (DT_LIB_HISTOGRAM_SCOPE_HISTOGRAM, 0); (DT_LIB_HISTOGRAM_SCOPE_HISTOGRAM, 1);
    (DT_LIB_HISTOGRAM_SCOPE_WAVEFORM, 0); (DT_LIB_HISTOGRAM_SCOPE_WAVEFORM, 1);
    (DT_LIB_HISTOGRAM_SCOPE_VECTORSCOPE, 0); (DT_LIB_HISTOGRAM_SCOPE_VECTORSCOPE, 1) ].

(** The pointer is idle: no drag, no highlighted region. *)
Definition pointer_idle (d : dt_lib_histogram_t) : Prop :=
  dragging d = false /\ highlight d = DT_LIB_HISTOGRAM_HIGHLIGHT_NONE.

(** The three sub-modes, of which the scope type selects one. *)
Definition sub_modes (d : dt_lib_histogram_t)
  : dt_lib_histogram_scale_t * dt_lib_histogram_waveform_type_t
    * dt_lib_histogram_vectorscope_type_t :=
  (histogram_scale d, waveform_type d, vectorscope_type d).

(** Dragging and highlight, the two fields the pointer handlers write. *)
Definition pointer_state (d : dt_lib_histogram_t) : bool * dt_lib_histogram_highlight_t :=
  (dragging d, highlight d).

(** A drag has a target: while dragging, a region is highlighted. *)
Definition drag_has_target (d : dt_lib_histogram_t) : Prop :=
  dragging d = true -> highlight d <> DT_LIB_HISTOGRAM_HIGHLIGHT_NONE.

(** The channel toggles and the vectorscope angle: the fields of the state
    that are neither buffers, nor modes, nor pointer state. *)
Definition toggles_kept (d d' : dt_lib_histogram_t) : Prop :=
  red d' = red d /\ green d' = green d /\ blue d' = blue d
  /\ vectorscope_angle d' = vectorscope_angle d.

(** Where the cycle shortcut moves on to the next scope from one that can be
    dragged: from the histogram when its scale is not logarithmic, or from the
    waveform when it is not overlaid (the [else] branches of lines 1242-1251
    and 1258-1267). *)
Definition cycle_cancels_drag (d : dt_lib_histogram_t) : bool :=
  match scope_type d with
  | DT_LIB_HISTOGRAM_SCOPE_HISTOGRAM =>
      match histogram_scale d with
      | DT_LIB_HISTOGRAM_LOGARITHMIC => false
      | _ => true
      end
  | DT_LIB_HISTOGRAM_SCOPE_WAVEFORM =>
      match waveform_type d with
      | DT_LIB_HISTOGRAM_WAVEFORM_OVERLAID => false
      | _ => true
      end
  | _ => false
  end.

(** What a mode switch does to [dragging] and [highlight]: the buttons, and
    the shortcut that presses the view button, leave them; the change-mode
    shortcut cancels a drag (lines 1297-1298), and so does the cycle shortcut
    where it changes the scope type away from the histogram or the waveform
    (lines 1244, 1249, 1260, 1265). *)
Definition pointer_after_switch (s : mode_switch) (d d' : dt_lib_histogram_t) : Prop :=
  match s with
  | SwitchScopeType | SwitchScopeView | ShortcutChangeType =>
      pointer_state d' = pointer_state d
  | ShortcutChangeMode =>
      pointer_state d' = (false, DT_LIB_HISTOGRAM_HIGHLIGHT_NONE)
  | ShortcutCycleMode =>
      pointer_state d' = if cycle_cancels_drag d
                         then (false, DT_LIB_HISTOGRAM_HIGHLIGHT_NONE)
                         else pointer_state d
  end.

(** What every handler relies on and every handler keeps. *)
Definition scope_invariant (d : dt_lib_histogram_t) : Prop :=
  modes_proper d /\ drag_has_target d.

(** The views of the two scopes that are not on display. *)
Definition hidden_modes (d : dt_lib_histogram_t) : Z * Z :=
  match scope_type d with
  | DT_LIB_HISTOGRAM_SCOPE_HISTOGRAM =>
      (waveform_type_value (waveform_type d), vectorscope_type_value (vectorscope_type d))
  | DT_LIB_HISTOGRAM_SCOPE_WAVEFORM =>
      (scale_value (histogram_scale d), vectorscope_type_value (vectorscope_type d))
  | _ => (scale_value (histogram_scale d), waveform_type_value (waveform_type d))
  end.

(** ** Initialisation *)

(** [M_PI], the binary64 number nearest to pi: [0x1.921fb54442d18p+1]. *)
Definition M_PI : double := S754_finite false 7074237752028440 (-51).

(** What [gui_init] reads from the configuration. *)
Record gui_conf := {
  conf_show_red : bool;
  conf_show_green : bool;
  conf_show_blue : bool;
  conf_mode : string;
  conf_histogram : string;
  conf_waveform : string;
  conf_vectorscope : string;
  conf_vectorscope_angle : Z
}.

(** [gui_init], lines 1346-1552, for the fields of the scope state; the
    widgets it builds and connects are the toolkit's. The struct comes zeroed
    from [g_malloc0]; the four buffers come from the allocator with whatever
    they hold. [mipmap_max_width] is
    [darktable.mipmap_cache->max_width[DT_MIPMAP_F]], [alpha_stride] what
    [cairo_format_stride_for_width] answers, [cv] the current view, null when
    the module is initialised ahead of any view. *)
Definition gui_init (conf : gui_conf) (cv : option dt_view_type_flags_t)
    (mipmap_max_width alpha_stride : Z) (wf_linear wf_display : list float)
    (wf_8bit vs_alpha : list Z) : option dt_lib_histogram_t :=
  let d :=
    {| histogram := histogram_zeroed;
       histogram_max := 0;
       waveform_linear := wf_linear;
       waveform_display := wf_display;
       waveform_8bit := wf_8bit;
       waveform_width := 0;
       waveform_height := 175;
       waveform_max_width := to_int (Z.quot mipmap_max_width 2);
       vectorscope_alpha := vs_alpha;
       vectorscope_diameter := 256;
       vectorscope_alpha_stride := alpha_stride;
       vectorscope_graticule := graticule_set (fun _ _ => F32.zero) 0 0 F32.NAN;
       dragging := false;
       highlight := DT_LIB_HISTOGRAM_HIGHLIGHT_NONE;
       scope_type :=
         scope_type_of (gui_init_mode dt_lib_histogram_scope_type_names (conf_mode conf));
       histogram_scale :=
         scale_of (gui_init_mode dt_lib_histogram_histogram_scale_names
                                 (conf_histogram conf));
       waveform_type :=
         waveform_type_of (gui_init_mode dt_lib_histogram_waveform_type_names
                                         (conf_waveform conf));
       vectorscope_type :=
         vectorscope_type_of (gui_init_mode dt_lib_histogram_vectorscope_type_names
                                            (conf_vectorscope conf));
       vectorscope_angle :=
         F64.div (F64.mul (F64.of_Z (conf_vectorscope_angle conf)) M_PI)
                 (F64.of_Z 180);
       red := conf_show_red conf;
       green := conf_show_green conf;
       blue := conf_show_blue conf |} in
  _scope_type_update cv d.

(** ** Example gestures *)

(** The drag bookkeeping as [g_malloc0] leaves it. *)
Definition pointer_init : pointer_t :=
  {| button_down_x := 0; button_down_y := 0; button_down_value := F32.zero |}.

(** Over a histogram 300 pixels wide: move to the middle, press, switch to
    the waveform with the button held, move on. *)
Definition gesture_drag : list gui_event :=
  [ EvMotion (Some DT_VIEW_DARKROOM) true 300 175 (F64.of_Z 150) (F64.of_Z 50);
    EvButtonPress false (F64.of_Z 150) (F64.of_Z 50) F32.zero F32.zero;
    EvModeSwitch SwitchScopeType (Some DT_VIEW_DARKROOM);
    EvEventboxMotion (Some DT_VIEW_DARKROOM);
    EvMotion (Some DT_VIEW_DARKROOM) true 300 175 (F64.of_Z 160) (F64.of_Z 40) ].

(** The same pointer moves in a view without exposure hooks, with a scroll
    and a release. *)
Definition gesture_no_hooks : list gui_event :=
  [ EvMotion (Some DT_VIEW_OTHER) true 300 175 (F64.of_Z 150) (F64.of_Z 50);
    EvButtonPress false (F64.of_Z 150) (F64.of_Z 50) F32.zero F32.zero;
    EvScroll false (Some 1) F32.zero F32.zero;
    EvMotion (Some DT_VIEW_OTHER) true 300 175 (F64.of_Z 160) (F64.of_Z 40);
    EvButtonRelease (Some DT_VIEW_OTHER) true 300 175 (F64.of_Z 160) (F64.of_Z 40);
    EvModeSwitch ShortcutCycleMode (Some DT_VIEW_OTHER);
    EvLeave ].

(** ** What a process call leaves alone *)

(** Everything the handlers and [gui_init] set and a process call only
    reads: pointer state, modes, channel toggles and the buffer geometry. *)
Definition settings_kept (d d' : dt_lib_histogram_t) : Prop :=
  pointer_state d' = pointer_state d
  /\ scope_type d' = scope_type d
  /\ sub_modes d' = sub_modes d
  /\ (red d', green d', blue d') = (red d, green d, blue d)
  /\ vectorscope_angle d' = vectorscope_angle d
  /\ waveform_height d' = waveform_height d
  /\ waveform_max_width d' = waveform_max_width d
  /\ vectorscope_diameter d' = vectorscope_diameter d
  /\ vectorscope_alpha_stride d' = vectorscope_alpha_stride d
  /\ waveform_display d' = waveform_display d
  /\ waveform_8bit d' = waveform_8bit d.

(** The data of the histogram, of the waveform and of the vectorscope. *)
Definition histogram_data (d : dt_lib_histogram_t) : list Z * Z :=
  (histogram d, histogram_max d).
Definition waveform_data (d : dt_lib_histogram_t) : list float * Z :=
  (waveform_linear d, waveform_width d).
Definition vectorscope_data (d : dt_lib_histogram_t) : list Z * graticule_t :=
  (vectorscope_alpha d, vectorscope_graticule d).

(** A host whose colour picker restricts the scope to a point in the middle
    of the image. *)
Definition host_point_centre (prof : option unit) : host_t unit :=
  {| colorpicker_restricts := true;
     colorpicker_is_box := false;
     color_picker_box := (F32.zero, F32.zero, F32.one, F32.one);
     color_picker_point := (F32.half, F32.half);
     out_profile_is_none := true;
     img_display_alloc_fails := false;
     dt_ioppr_transform_image_colorspace_rgb := fun buf _ _ => buf;
     dt_ioppr_get_histogram_profile_info := prof |}.

(** A host that converts to a display profile and finds no memory for the
    converted image. *)
Definition host_alloc_fails : host_t unit :=
  {| colorpicker_restricts := false;
     colorpicker_is_box := false;
     color_picker_box := (F32.zero, F32.zero, F32.one, F32.one);
     color_picker_point := (F32.half, F32.half);
     out_profile_is_none := false;
     img_display_alloc_fails := true;
     dt_ioppr_transform_image_colorspace_rgb := fun buf _ _ => buf;
     dt_ioppr_get_histogram_profile_info := Some tt |}.

(** The picker coordinates that place the left upper corner of the region:
    [color_picker_box[0..1]] or [color_picker_point[0..1]]. *)
Definition picker_origin {profile : Type} (host : host_t profile) : float * float :=
  if colorpicker_is_box host
  then let '(b0, b1, _, _) := color_picker_box host in (b0, b1)
  else color_picker_point host.

(** A float that is a binary32 number and not NaN. *)
Definition is_number (x : float) : Prop :=
  valid_binary F32.prec F32.emax x = true /\ F32.isnan x = false.

(** * Properties *)

(** ** Integer conversions and macros *)

Lemma MAX_spec (a b : Z) : MAX a b = Z.max a b.
Proof. unfold MAX. destruct (Z.ltb_spec b a); lia. Qed.

Lemma MIN_min (a b : Z) : MIN a b = Z.min a b.
Proof. unfold MIN. destruct (Z.ltb_spec a b); lia. Qed.

Lemma MIN_le_r (a b : Z) : MIN a b <= b.
Proof. unfold MIN. destruct (Z.ltb_spec a b); lia. Qed.


Lemma to_size_t_range (z : Z) : 0 <= to_size_t z < SIZE_MAX1.
Proof. unfold to_size_t. apply Z.mod_pos_bound. reflexivity. Qed.

Lemma to_size_t_small (z : Z) : 0 <= z < SIZE_MAX1 -> to_size_t z = z.
Proof. unfold to_size_t. apply Z.mod_small. Qed.


Lemma to_int_small (z : Z) : INT_MIN <= z < INT_MAX1 -> to_int z = z.
Proof.
  unfold to_int, INT_MIN, INT_MAX1. intros H.
  rewrite Z.mod_small by lia. lia.
Qed.

(** ** The clear call *)

Lemma process_clear_histogram (d : dt_lib_histogram_t) :
  histogram (process_clear d) = histogram_zeroed.
Proof. reflexivity. Qed.

Lemma process_clear_waveform_width (d : dt_lib_histogram_t) :
  waveform_width (process_clear d) = 0.
Proof. reflexivity. Qed.

Lemma process_clear_graticule (d : dt_lib_histogram_t) :
  vectorscope_graticule (process_clear d) 0%nat 0%nat = F32.NAN.
Proof. reflexivity. Qed.

Lemma process_clear_histogram_max (d : dt_lib_histogram_t) :
  histogram_max (process_clear d) = histogram_max d.
Proof. reflexivity. Qed.

Lemma histogram_zeroed_read (i : Z) : hist_read histogram_zeroed i = 0.
Proof.
  unfold hist_read. destruct (i <? 0); [reflexivity|].
  destruct (histogram_zeroed !! Z.to_nat i) as [x|] eqn:E; [|reflexivity].
  unfold histogram_zeroed in E. apply lookup_replicate in E as [-> _]. reflexivity.
Qed.

Example state_after_red_max : histogram_max state_after_red = 16.
Proof. vm_compute. reflexivity. Qed.

(** C1. The clear call, from every prior state: all 4x256 bins read zero,
    [waveform_width] is 0 and graticule point 0's first coordinate is NaN; but
    [histogram_max] is not reset, it keeps the value of the prior state. After
    the histogram of the 4x4 red image, whose maximum is 16, the clear call
    leaves [histogram_max] at 16 over bins that are all zero. *)
Theorem C1_clear_keeps_histogram_max :
  (forall (undef : float -> Z) (profile : Type) (cm : color_math float profile)
          (hypotf powf : float -> float -> float) (host : host_t profile)
          (d : dt_lib_histogram_t) (w h : Z) (b : bool),
      exists d',
        dt_lib_histogram_process undef profile cm hypotf powf host d None w h b = Some d'
        /\ (forall i, hist_read (histogram d') i = 0)
        /\ waveform_width d' = 0
        /\ F32.isnan (vectorscope_graticule d' 0%nat 0%nat) = true
        /\ histogram_max d' = histogram_max d)
  /\ (exists d',
        dt_lib_histogram_process undef_zero unit cm_identity hypotf_naive powf_id
          (host_plain None) state_after_red None 4 4 true = Some d'
        /\ (forall i, hist_read (histogram d') i = 0)
        /\ histogram_max d' = 16).
Proof.
  split.
  - intros. exists (process_clear d). cbn [dt_lib_histogram_process].
    repeat split; auto using histogram_zeroed_read.
  - exists (process_clear state_after_red). cbn [dt_lib_histogram_process].
    repeat split; auto using histogram_zeroed_read.
Qed.

(** ** The histogram maximum *)

Lemma running_max_spec (f : Z -> Z) (l : list Z) (m0 : Z) :
  let m := foldl (fun m b => MAX m (f b)) m0 l in
  m0 <= m
  /\ (forall b, b ∈ l -> f b <= m)
  /\ (m = m0 \/ exists b, b ∈ l /\ m = f b).
Proof.
  revert m0. induction l as [|a l IH]; intros m0; cbn.
  - split; [lia|]. split; [|auto]. intros b Hb. inversion Hb.
  - destruct (IH (MAX m0 (f a))) as (H1 & H2 & H3).
    rewrite MAX_spec in *. split; [lia|]. split.
    + intros b Hb. apply elem_of_cons in Hb as [->|Hb]; [lia | auto].
    + destruct H3 as [H3|(b & Hb & H3)].
      * rewrite H3.
        destruct (Z.max_spec m0 (f a)) as [[_ E]|[_ E]]; rewrite E.
        -- right. exists a. split; [left | reflexivity].
        -- left. reflexivity.
      * right. exists b. split; [right; exact Hb | exact H3].
Qed.

Lemma max_helper_spec (hist : list Z) (ch : Z) :
  let m := dt_histogram_max_helper HISTOGRAM_BINS hist ch in
  0 <= m
  /\ (forall b, 0 <= b < 256 -> hist_read hist (4 * b + ch) <= m)
  /\ (m = 0 \/ exists b, 0 <= b < 256 /\ m = hist_read hist (4 * b + ch)).
Proof.
  unfold dt_histogram_max_helper.
  destruct (running_max_spec (fun b => hist_read hist (4 * b + ch))
              (seqZ 0 HISTOGRAM_BINS) 0) as (H1 & H2 & H3).
  split; [exact H1|]. split.
  - intros b Hb. apply H2. apply elem_of_seqZ. unfold HISTOGRAM_BINS. lia.
  - destruct H3 as [H3|(b & Hb & H3)]; [left; exact H3|].
    right. exists b. apply elem_of_seqZ in Hb. unfold HISTOGRAM_BINS in Hb.
    split; [lia | exact H3].
Qed.

Lemma hist_incr_nonneg (hist : list Z) (i : Z) :
  Forall (fun c => 0 <= c) hist -> Forall (fun c => 0 <= c) (hist_incr hist i).
Proof.
  intros H. unfold hist_incr. destruct (i <? 0); [exact H|].
  destruct (hist !! Z.to_nat i) as [old|]; [|exact H].
  apply Forall_insert; [exact H|].
  unfold to_uint32. apply Z.mod_pos_bound. reflexivity.
Qed.

Lemma histogram_helper_nonneg (roi : dt_histogram_roi_t) (mul : Z)
    (input : list float) (hist : list Z) :
  Forall (fun c => 0 <= c) hist ->
  Forall (fun c => 0 <= c) (dt_histogram_helper roi mul input hist).
Proof.
  unfold dt_histogram_helper. revert hist.
  induction (roi_pixels roi) as [|xy l IH]; intros hist H; cbn; [exact H|].
  apply IH. unfold histogram_count_pixel. cbn.
  auto using hist_incr_nonneg.
Qed.

Lemma hist_read_nonneg (hist : list Z) (i : Z) :
  Forall (fun c => 0 <= c) hist -> 0 <= hist_read hist i.
Proof.
  intros H. unfold hist_read. destruct (i <? 0); [lia|].
  destruct (hist !! Z.to_nat i) as [c|] eqn:E; cbn; [|lia].
  eapply Forall_lookup_1 in H; eauto.
Qed.

Lemma histogram_zeroed_nonneg : Forall (fun c => 0 <= c) histogram_zeroed.
Proof. apply Forall_replicate. lia. Qed.

(** The histogram binner: the bins and the maximum it leaves. *)
Lemma process_histogram_max (d : dt_lib_histogram_t) (input : list float)
    (roi : dt_histogram_roi_t) :
  let d' := _lib_histogram_process_histogram d input roi in
  (forall ch b, 0 <= ch < 3 -> 0 <= b < 256 ->
                hist_read (histogram d') (4 * b + ch) <= histogram_max d')
  /\ (exists ch b, 0 <= ch < 3 /\ 0 <= b < 256
                   /\ hist_read (histogram d') (4 * b + ch) = histogram_max d').
Proof.
  cbn.
  set (hist := dt_histogram_helper roi (HISTOGRAM_BINS - 1) input histogram_zeroed).
  assert (Hnn : Forall (fun c => 0 <= c) hist)
    by apply histogram_helper_nonneg, histogram_zeroed_nonneg.
  destruct (max_helper_spec hist 0) as (A0 & B0 & X0).
  destruct (max_helper_spec hist 1) as (A1 & B1 & X1).
  destruct (max_helper_spec hist 2) as (A2 & B2 & X2).
  cbn in *. rewrite !MAX_spec.
  set (m0 := dt_histogram_max_helper HISTOGRAM_BINS hist 0) in *.
  set (m1 := dt_histogram_max_helper HISTOGRAM_BINS hist 1) in *.
  set (m2 := dt_histogram_max_helper HISTOGRAM_BINS hist 2) in *.
  split.
  - intros ch b Hch Hb.
    assert (ch = 0 \/ ch = 1 \/ ch = 2) as [-> | [-> | ->]] by lia;
      [specialize (B0 b Hb) | specialize (B1 b Hb) | specialize (B2 b Hb)]; lia.
  - assert (Hz : forall ch m, 0 <= ch < 3 ->
                 (forall b, 0 <= b < 256 -> hist_read hist (4 * b + ch) <= m) ->
                 (m = 0 \/ exists b, 0 <= b < 256 /\ m = hist_read hist (4 * b + ch)) ->
                 exists b, 0 <= b < 256 /\ hist_read hist (4 * b + ch) = m).
    { intros ch m Hch Hle [Hm|(b & Hb & Hm)]; subst m.
      - exists 0. split; [lia|].
        pose proof (Hle 0 ltac:(lia)). pose proof (hist_read_nonneg hist (4 * 0 + ch) Hnn).
        lia.
      - exists b. auto. }
    destruct (Z.max_spec (Z.max m0 m1) m2) as [[_ E]|[_ E]]; rewrite E.
    + destruct (Hz 2 m2 ltac:(lia) B2 X2) as (b & Hb & Hb'). exists 2, b. auto with lia.
    + destruct (Z.max_spec m0 m1) as [[_ E']|[_ E']]; rewrite E'.
      * destruct (Hz 1 m1 ltac:(lia) B1 X1) as (b & Hb & Hb'). exists 1, b. auto with lia.
      * destruct (Hz 0 m0 ltac:(lia) B0 X0) as (b & Hb & Hb'). exists 0, b. auto with lia.
Qed.

(** The histogram binner starts from scratch: neither the bins nor the
    maximum of the prior state enter the result. *)
Lemma process_histogram_from_scratch (d : dt_lib_histogram_t) (hist0 : list Z)
    (max0 : Z) (input : list float) (roi : dt_histogram_roi_t) :
  _lib_histogram_process_histogram (set_histogram hist0 (set_histogram_max max0 d))
    input roi
  = _lib_histogram_process_histogram d input roi.
Proof. reflexivity. Qed.

(** C2, as stated, fails: not every histogram-mode call on a non-null input
    leaves [histogram_max] equal to the largest bin. When the buffer for the
    converted image cannot be allocated the call returns before the binner;
    after a clear call that leaves the maximum 16 of the red image over bins
    that are all zero. *)
Lemma C2_alloc_failure_counterexample :
  ~ (forall (undef : float -> Z) (profile : Type) (cm : color_math float profile)
            (hypotf powf : float -> float -> float) (host : host_t profile)
            (d : dt_lib_histogram_t) (input : list float) (w h : Z) (b : bool),
        scope_type d = DT_LIB_HISTOGRAM_SCOPE_HISTOGRAM ->
        exists d',
          dt_lib_histogram_process undef profile cm hypotf powf host d (Some input) w h b
          = Some d'
          /\ exists ch bin, 0 <= ch < 3 /\ 0 <= bin < 256
                            /\ hist_read (histogram d') (4 * bin + ch) = histogram_max d').
Proof.
  intros H.
  destruct (H undef_zero unit cm_identity hypotf_naive powf_id host_alloc_fails
              (process_clear state_after_red) image_red_4x4 4 4 false eq_refl)
    as (d' & E & ch & bin & _ & _ & Hmax).
  cbn in E. injection E as <-.
  rewrite process_clear_histogram, histogram_zeroed_read in Hmax.
  rewrite process_clear_histogram_max, state_after_red_max in Hmax.
  discriminate Hmax.
Qed.

(** C2, amended. A [process] call in histogram mode on a non-null input
    returns. If it reaches the binner (no conversion is due, or the buffer for
    the converted image was allocated) it leaves [histogram_max] equal to the
    largest single-bin count over channels 0, 1 and 2 of the 256-bin counters
    it leaves: no such bin exceeds it and one of them attains it; both were
    recomputed on that call, a prior state with other counters and another
    maximum gives the same result. If the allocation fails the call leaves
    the state, counters and maximum included, as it was. *)
Theorem C2_histogram_max_is_max_bin :
  forall (undef : float -> Z) (profile : Type) (cm : color_math float profile)
         (hypotf powf : float -> float -> float) (host : host_t profile)
         (d : dt_lib_histogram_t) (input : list float) (w h : Z) (b : bool),
    scope_type d = DT_LIB_HISTOGRAM_SCOPE_HISTOGRAM ->
    exists d',
      dt_lib_histogram_process undef profile cm hypotf powf host d (Some input) w h b
      = Some d'
      /\ (process_allocation_fails host b = true -> d' = d)
      /\ (process_allocation_fails host b = false ->
          (forall ch bin, 0 <= ch < 3 -> 0 <= bin < 256 ->
                          hist_read (histogram d') (4 * bin + ch) <= histogram_max d')
          /\ (exists ch bin, 0 <= ch < 3 /\ 0 <= bin < 256
                             /\ hist_read (histogram d') (4 * bin + ch) = histogram_max d')
          /\ (forall (hist0 : list Z) (max0 : Z),
                 dt_lib_histogram_process undef profile cm hypotf powf host
                   (set_histogram hist0 (set_histogram_max max0 d)) (Some input) w h b
                 = Some d')).
Proof.
  intros undef profile cm hypotf powf host d input w h b Hscope.
  unfold dt_lib_histogram_process, process_dispatch, process_allocation_fails.
  cbn [scope_type set_histogram set_histogram_max]. rewrite Hscope.
  assert (Hbinned :
    let d' := _lib_histogram_process_histogram d
                (if negb b && negb (out_profile_is_none host)
                 then dt_ioppr_transform_image_colorspace_rgb host input w h else input)
                (process_roi undef profile host w h) in
    (forall ch bin, 0 <= ch < 3 -> 0 <= bin < 256 ->
                    hist_read (histogram d') (4 * bin + ch) <= histogram_max d')
    /\ (exists ch bin, 0 <= ch < 3 /\ 0 <= bin < 256
                       /\ hist_read (histogram d') (4 * bin + ch) = histogram_max d')).
  { cbn zeta. split; apply process_histogram_max. }
  destruct (negb b && negb (out_profile_is_none host));
    [destruct (img_display_alloc_fails host)|]; cbn [andb].
  - exists d. split; [reflexivity|].
    split; [reflexivity | intros Hf; discriminate Hf].
  - eexists. split; [reflexivity|]. split; [intros Hf; discriminate Hf|].
    intros _. destruct Hbinned as [H1 H2].
    split; [exact H1|]. split; [exact H2|]. intros; reflexivity.
  - eexists. split; [reflexivity|]. split; [intros Hf; discriminate Hf|].
    intros _. destruct Hbinned as [H1 H2].
    split; [exact H1|]. split; [exact H2|]. intros; reflexivity.
Qed.

Lemma C2_histogram_max_is_max_bin_witness :
  exists d',
    dt_lib_histogram_process undef_zero unit cm_identity hypotf_naive powf_id
      (host_plain None) (state_gui_init DT_LIB_HISTOGRAM_SCOPE_HISTOGRAM)
      (Some image_red_4x4) 4 4 true = Some d'
    /\ (process_allocation_fails (host_plain None) true = true ->
        d' = state_gui_init DT_LIB_HISTOGRAM_SCOPE_HISTOGRAM)
    /\ (process_allocation_fails (host_plain None) true = false ->
        (forall ch bin, 0 <= ch < 3 -> 0 <= bin < 256 ->
                        hist_read (histogram d') (4 * bin + ch) <= histogram_max d')
        /\ (exists ch bin, 0 <= ch < 3 /\ 0 <= bin < 256
                           /\ hist_read (histogram d') (4 * bin + ch) = histogram_max d')
        /\ (forall (hist0 : list Z) (max0 : Z),
               dt_lib_histogram_process undef_zero unit cm_identity hypotf_naive powf_id
                 (host_plain None)
                 (set_histogram hist0
                    (set_histogram_max max0
                       (state_gui_init DT_LIB_HISTOGRAM_SCOPE_HISTOGRAM)))
                 (Some image_red_4x4) 4 4 true = Some d')).
Proof.
  apply C2_histogram_max_is_max_bin; reflexivity.
Defined.

(** The spec's end-to-end example: bin 255 of the red channel counts the 16
    pixels, green and blue count them in their bin 0, and the maximum is 16. *)
Example red_4x4_histogram :
  hist_read (histogram state_after_red) (4 * 255 + 0) = 16
  /\ hist_read (histogram state_after_red) (4 * 0 + 1) = 16
  /\ hist_read (histogram state_after_red) (4 * 0 + 2) = 16
  /\ histogram_max state_after_red = 16.
Proof. vm_compute. repeat split. Qed.

(** Out-of-range values end in the last bin, also where the product with 255
    exceeds binary32 (here the largest finite float); negative ones in bin 0. *)
Example histogram_bin_out_of_range :
  histogram_bin 255 (F32.of_Z 2) = 255
  /\ histogram_bin 255 (S754_finite false 16777215 104) = 255
  /\ histogram_bin 255 (S754_infinity false) = 255
  /\ histogram_bin 255 (S754_finite true 16777215 104) = 0
  /\ histogram_bin 255 (S754_infinity true) = 0.
Proof. vm_compute. repeat split. Qed.

(** ** The waveform width

    [ceilf (a / (float) b)] is computed in binary32. For integers below
    [2 ^ 24], which convert to float exactly, the rounded quotient never
    crosses an integer, so the result is the integer ceiling of [a / b]. *)

(** The number of binary digits of a positive number. *)
Lemma digits2_pos_bounds (p : positive) :
  2 ^ (Zpos (digits2_pos p) - 1) <= Zpos p < 2 ^ Zpos (digits2_pos p).
Proof.
  induction p as [p IH|p IH|]; cbn [digits2_pos].
  - rewrite Pos2Z.inj_succ.
    replace (Z.succ (Zpos (digits2_pos p)) - 1) with (Z.succ (Zpos (digits2_pos p) - 1)) by lia.
    rewrite !Z.pow_succ_r by lia. lia.
  - rewrite Pos2Z.inj_succ.
    replace (Z.succ (Zpos (digits2_pos p)) - 1) with (Z.succ (Zpos (digits2_pos p) - 1)) by lia.
    rewrite !Z.pow_succ_r by lia. lia.
  - cbn. lia.
Qed.

Lemma digits2_pos_unique (p : positive) (d : Z) :
  2 ^ (d - 1) <= Zpos p < 2 ^ d -> Zpos (digits2_pos p) = d.
Proof.
  intros [H1 H2]. pose proof (digits2_pos_bounds p) as [B1 B2].
  set (dp := Zpos (digits2_pos p)) in *.
  assert (0 < d).
  { destruct (Z.ltb_spec 0 d) as [|Hd]; [lia|]. exfalso.
    destruct (Z.eq_dec d 0) as [->|Hne]; [cbn in H2; lia|].
    rewrite Z.pow_neg_r in H2 by lia. lia. }
  destruct (Z.lt_trichotomy dp d) as [Hlt|[Heq|Hgt]]; [|exact Heq|].
  - assert (2 ^ dp <= 2 ^ (d - 1)) by (apply Z.pow_le_mono_r; lia). lia.
  - assert (2 ^ d <= 2 ^ (dp - 1)) by (apply Z.pow_le_mono_r; lia). lia.
Qed.

Lemma Zdigits2_unique (z d : Z) :
  0 < z -> 2 ^ (d - 1) <= z < 2 ^ d -> Zdigits2 z = d.
Proof.
  intros Hz H. destruct z as [|p|p]; try lia. cbn. apply digits2_pos_unique, H.
Qed.

Lemma Pos_iter_xO (p d : positive) :
  Zpos (Pos.iter xO p d) = Zpos p * 2 ^ Zpos d.
Proof.
  induction d as [|d IH] using Pos.peano_ind.
  - cbn. lia.
  - rewrite Pos.iter_succ, Pos2Z.inj_succ, Z.pow_succ_r by lia.
    rewrite Pos2Z.inj_xO, IH. ring.
Qed.

(** Aligning a mantissa to a smaller exponent multiplies it by the power of
    two in between. *)
Lemma shl_align_spec (mx : positive) (ex ex' : Z) :
  ex' <= ex ->
  (shl_align mx ex ex').2 = ex'
  /\ Zpos (shl_align mx ex ex').1 = Zpos mx * 2 ^ (ex - ex').
Proof.
  intros H. unfold shl_align.
  destruct (ex' - ex) as [|d|d] eqn:E; try lia; cbn [fst snd].
  - assert (ex' = ex) as -> by lia. rewrite Z.sub_diag. cbn. lia.
  - rewrite Pos_iter_xO. replace (ex - ex') with (Zpos d) by lia. auto.
Qed.

(** The exponent of the last place of a normal binary32 number. *)
Lemma fexp_normal (e : Z) : -125 <= e -> fexp F32.prec F32.emax e = e - 24.
Proof. intros H. unfold fexp, emin, F32.prec, F32.emax. lia. Qed.

(** Rounding a 24-digit mantissa with nothing behind it changes nothing. *)
Lemma binary_round_aux_canonical (s : bool) (m : positive) (e : Z) :
  Zpos (digits2_pos m) = 24 -> -149 <= e <= 104 ->
  binary_round_aux F32.prec F32.emax s (Zpos m) e loc_Exact = S754_finite s m e.
Proof.
  intros Hd He. unfold binary_round_aux, shr_fexp.
  cbn [Zdigits2]. rewrite Hd, fexp_normal by lia.
  replace (24 + e - 24 - e) with 0 by lia. cbn [shr shr_record_of_loc shr_m loc_of_shr_record round_nearest_even Zdigits2].
  rewrite Hd, fexp_normal by lia.
  replace (24 + e - 24 - e) with 0 by lia. cbn [shr shr_record_of_loc shr_m].
  unfold F32.emax, F32.prec.
  destruct (Z.leb_spec e (128 - 24)); [reflexivity | lia].
Qed.

(** An integer in [1, 2^24) converts to the float of the same value: a
    24-digit mantissa [a * 2^(-e)] at an exponent [e] in [-23, 0]. *)
Lemma of_Z_normal (a : Z) :
  1 <= a < 2 ^ 24 ->
  exists (m : positive) (e : Z),
    F32.of_Z a = S754_finite false m e
    /\ -23 <= e <= 0
    /\ Zpos m = a * 2 ^ (- e)
    /\ 2 ^ 23 <= Zpos m < 2 ^ 24.
Proof.
  intros Ha. destruct a as [|p|p]; try lia.
  pose proof (digits2_pos_bounds p) as [B1 B2].
  set (dp := Zpos (digits2_pos p)) in *.
  assert (Hdp : 1 <= dp <= 24).
  { split; [subst dp; lia|].
    destruct (Z.leb_spec dp 24); [lia|].
    assert (2 ^ 24 <= 2 ^ (dp - 1)) by (apply Z.pow_le_mono_r; lia). lia. }
  unfold F32.of_Z, binary_normalize, binary_round.
  fold dp. rewrite Z.add_0_r, fexp_normal by lia.
  destruct (shl_align_spec p 0 (dp - 24) ltac:(lia)) as [E1 E2].
  destruct (shl_align p 0 (dp - 24)) as [mz ez]. cbn [fst snd] in E1, E2. subst ez.
  replace (0 - (dp - 24)) with (24 - dp) in E2 by lia.
  assert (Hm : 2 ^ 23 <= Zpos mz < 2 ^ 24).
  { rewrite E2.
    replace (2 ^ 23) with (2 ^ (dp - 1) * 2 ^ (24 - dp))
      by (rewrite <- Z.pow_add_r by lia; f_equal; lia).
    replace (2 ^ 24) with (2 ^ dp * 2 ^ (24 - dp))
      by (rewrite <- Z.pow_add_r by lia; f_equal; lia).
    assert (0 < 2 ^ (24 - dp)) by (apply Z.pow_pos_nonneg; lia). nia. }
  exists mz, (dp - 24).
  rewrite binary_round_aux_canonical; [|apply digits2_pos_unique; exact Hm|lia].
  split; [reflexivity|]. split; [lia|]. split; [|exact Hm].
  rewrite E2. f_equal. f_equal. lia.
Qed.

(** The location the division computes from the remainder. *)
Lemma new_location_ok (N D q r : Z) :
  0 < D -> N = D * q + r -> 0 <= r < D -> loc_ok (new_location D r) N D q.
Proof.
  intros HD HN Hr. unfold loc_ok.
  replace (q * D) with (D * q) by ring. split; [lia|].
  replace (N - D * q) with r by lia.
  unfold new_location, new_location_even, new_location_odd.
  destruct (Z.even D) eqn:Ev; destruct (Z.eqb_spec r 0) as [Hr0|Hr0]; try lia.
  - split; [lia | reflexivity].
  - split; [lia|].
    assert (Hodd : Z.odd D = true) by (rewrite <- Z.negb_even, Ev; reflexivity).
    apply Z.odd_spec in Hodd as [k Hk].
    destruct (Z.compare_spec (2 * r + 1) D), (Z.compare_spec (2 * r) D);
      try reflexivity; lia.
Qed.

(** Rounding to nearest even picks [m] or [m + 1], at most half a unit away
    from the exact quotient. *)
Lemma rne_ok (l : location) (N D m : Z) :
  0 < D -> loc_ok l N D m ->
  (round_nearest_even m l = m \/ round_nearest_even m l = m + 1)
  /\ - D <= 2 * (N - round_nearest_even m l * D) <= D.
Proof.
  intros HD [Hb Hl]. unfold round_nearest_even.
  destruct l as [|[| |]].
  - split; [auto | lia].
  - destruct Hl as [_ Hc]. destruct (Z.compare_spec (2 * (N - m * D)) D); try discriminate.
    destruct (Z.even m); (split; [auto|]); lia.
  - destruct Hl as [_ Hc]. destruct (Z.compare_spec (2 * (N - m * D)) D); try discriminate.
    split; [auto | lia].
  - destruct Hl as [_ Hc]. destruct (Z.compare_spec (2 * (N - m * D)) D); try discriminate.
    split; [auto | lia].
Qed.

Lemma loc_record_roundtrip (m : Z) (l : location) :
  loc_of_shr_record (shr_record_of_loc m l) = l
  /\ shr_m (shr_record_of_loc m l) = m.
Proof. destruct l as [|[| |]]; split; reflexivity. Qed.

(** One step to the right: the mantissa is halved, the bit shifted out is
    the round bit, and what was behind it becomes sticky. *)
Lemma shr_1_spec (m : Z) (r s : bool) :
  0 <= m ->
  shr_1 {| shr_m := m; shr_r := r; shr_s := s |}
  = {| shr_m := m / 2; shr_r := Z.odd m; shr_s := r || s |}.
Proof.
  intros Hm. destruct m as [|[p|p|]|p]; [| | | |lia]; cbn [shr_1].
  - reflexivity.
  - f_equal. rewrite Pos2Z.inj_xI. apply Z.div_unique with 1; lia.
  - f_equal. rewrite Pos2Z.inj_xO. apply Z.div_unique with 0; lia.
  - reflexivity.
Qed.

(** A step to the right keeps track of the quotient, now in units twice as
    large. *)
Lemma shr_1_ok (l : location) (N D m : Z) :
  0 <= m -> 0 < D -> loc_ok l N D m ->
  loc_ok (loc_of_shr_record (shr_1 (shr_record_of_loc m l))) N (D * 2)
         (shr_m (shr_1 (shr_record_of_loc m l)))
  /\ shr_m (shr_1 (shr_record_of_loc m l)) = m / 2.
Proof.
  intros Hm HD [Hb Hl].
  assert (Hdiv : m = 2 * (m / 2) + (if Z.odd m then 1 else 0)).
  { rewrite (Z.div_mod m 2) at 1 by lia. rewrite Zmod_odd. reflexivity. }
  set (h := m / 2) in *.
  assert (Hrec : forall r s, shr_1 {| shr_m := m; shr_r := r; shr_s := s |}
                 = {| shr_m := h; shr_r := Z.odd m; shr_s := r || s |})
    by (intros; apply shr_1_spec; exact Hm).
  assert (HmD : m * D = h * (D * 2) + (if Z.odd m then D else 0)).
  { rewrite Hdiv at 1. destruct (Z.odd m); ring. }
  unfold loc_ok.
  destruct l as [|c]; cbn [shr_record_of_loc].
  - rewrite Hrec. cbn [shr_m loc_of_shr_record orb]. split; [|reflexivity].
    destruct (Z.odd m); cbn [loc_of_shr_record]; (split; [lia|]); try lia.
    split; [lia|]. apply Z.compare_eq_iff. lia.
  - destruct Hl as [Hne Hc].
    destruct c; cbn [shr_record_of_loc]; rewrite Hrec;
      cbn [shr_m loc_of_shr_record orb]; (split; [|reflexivity]);
      (destruct (Z.compare_spec (2 * (N - m * D)) D); try discriminate);
      destruct (Z.odd m); cbn [loc_of_shr_record]; (split; [lia|]);
      (split; [lia|]);
      try (apply Z.compare_lt_iff; lia);
      try (apply Z.compare_gt_iff; lia);
      try (apply Z.compare_eq_iff; lia).
Qed.

(** The first alignment of the rounding: the 24 or 25 digit quotient is
    shifted by zero or one place to 24 digits. *)
Lemma shr_fexp_first (q e : Z) (l : location) (N D : Z) :
  0 < D -> loc_ok l N D q -> 2 ^ 23 <= q < 2 ^ 25 -> -125 <= e ->
  exists n : Z,
    (n = 0 \/ n = 1)
    /\ (shr_fexp F32.prec F32.emax q e l).2 = e + n
    /\ loc_ok (loc_of_shr_record (shr_fexp F32.prec F32.emax q e l).1) N (D * 2 ^ n)
              (shr_m (shr_fexp F32.prec F32.emax q e l).1)
    /\ 2 ^ 23 <= shr_m (shr_fexp F32.prec F32.emax q e l).1 < 2 ^ 24.
Proof.
  intros HD Hl Hq He. unfold shr_fexp.
  destruct (Z.ltb_spec q (2 ^ 24)) as [Hlt|Hge].
  - exists 0. rewrite (Zdigits2_unique q 24) by lia.
    rewrite fexp_normal by lia. replace (24 + e - 24 - e) with 0 by lia.
    cbn [shr fst snd].
    destruct (loc_record_roundtrip q l) as [-> ->].
    split; [auto|]. split; [lia|]. split; [|lia].
    replace (D * 2 ^ 0) with D by (cbn; lia). exact Hl.
  - exists 1. rewrite (Zdigits2_unique q 25) by lia.
    rewrite fexp_normal by lia. replace (25 + e - 24 - e) with 1 by lia.
    cbn [shr SpecFloat.iter_pos fst snd].
    destruct (shr_1_ok l N D q ltac:(lia) HD Hl) as [H1 H2].
    split; [auto|]. split; [lia|]. split.
    + replace (D * 2 ^ 1) with (D * 2) by (cbn; lia). exact H1.
    + rewrite H2. split.
      * apply Z.div_le_lower_bound; lia.
      * apply Z.div_lt_upper_bound; lia.
Qed.

(** The second alignment: a mantissa that rounding pushed to [2^24] is
    shifted once more. *)
Lemma shr_fexp_second (m1 e : Z) :
  2 ^ 23 <= m1 <= 2 ^ 24 -> -125 <= e ->
  exists M : positive,
    shr_m (shr_fexp F32.prec F32.emax m1 e loc_Exact).1 = Zpos M
    /\ (((shr_fexp F32.prec F32.emax m1 e loc_Exact).2 = e /\ Zpos M = m1)
        \/ ((shr_fexp F32.prec F32.emax m1 e loc_Exact).2 = e + 1 /\ m1 = 2 * Zpos M)).
Proof.
  intros Hm He. unfold shr_fexp.
  destruct (Z.ltb_spec m1 (2 ^ 24)) as [Hlt|Hge].
  - rewrite (Zdigits2_unique m1 24) by lia.
    rewrite fexp_normal by lia. replace (24 + e - 24 - e) with 0 by lia.
    cbn [shr shr_record_of_loc shr_m fst snd].
    destruct m1 as [|p|p]; try lia. exists p. auto.
  - assert (m1 = 2 ^ 24) as -> by lia.
    rewrite (Zdigits2_unique (2 ^ 24) 25) by lia.
    rewrite fexp_normal by lia. replace (25 + e - 24 - e) with 1 by lia.
    exists (2 ^ 23)%positive. split; [reflexivity|]. right. split; [reflexivity|].
    reflexivity.
Qed.

(** The rounding of a quotient with 24 or 25 digits: the result is finite,
    its mantissa within half a unit of the exact quotient. *)
Lemma binary_round_aux_normal (q e : Z) (l : location) (N D : Z) :
  0 < D -> loc_ok l N D q -> 2 ^ 23 <= q < 2 ^ 25 -> -125 <= e <= 0 ->
  exists (M : positive) (E m1 n : Z),
    binary_round_aux F32.prec F32.emax false q e l = S754_finite false M E
    /\ (n = 0 \/ n = 1)
    /\ - (D * 2 ^ n) <= 2 * (N - m1 * (D * 2 ^ n)) <= D * 2 ^ n
    /\ ((E = e + n /\ Zpos M = m1) \/ (E = e + n + 1 /\ m1 = 2 * Zpos M)).
Proof.
  intros HD Hl Hq He. unfold binary_round_aux.
  destruct (shr_fexp_first q e l N D HD Hl Hq ltac:(lia)) as (n & Hn & E1 & L1 & B1).
  destruct (shr_fexp F32.prec F32.emax q e l) as [mrs' e'].
  cbn [fst snd] in E1, L1, B1. subst e'.
  assert (HDn : 0 < D * 2 ^ n) by (destruct Hn; subst; cbn; lia).
  destruct (rne_ok _ _ _ _ HDn L1) as [Hm1 Hnear].
  set (m1 := round_nearest_even (shr_m mrs') (loc_of_shr_record mrs')) in *.
  destruct (shr_fexp_second m1 (e + n)) as (M & HM & HE); [lia | lia |].
  destruct (shr_fexp F32.prec F32.emax m1 (e + n) loc_Exact) as [mrs'' e''].
  cbn [fst snd] in HM, HE. rewrite HM.
  exists M, e'', m1, n.
  assert (e'' <= 2) by (destruct Hn, HE as [[? ?]|[? ?]]; lia).
  unfold F32.emax, F32.prec.
  destruct (Z.leb_spec e'' (128 - 24)); [|lia].
  split; [reflexivity|]. split; [exact Hn|]. split; [exact Hnear|].
  destruct HE as [[-> ?]|[-> ?]]; auto.
Qed.

(** The division of two normal floats with exponents in [-23, 0]. *)
Lemma div_normal (mx my : positive) (ex ey : Z) :
  2 ^ 23 <= Zpos mx < 2 ^ 24 -> 2 ^ 23 <= Zpos my < 2 ^ 24 ->
  -23 <= ex <= 0 -> -23 <= ey <= 0 ->
  exists (M : positive) (E m1 n : Z),
    F32.div (S754_finite false mx ex) (S754_finite false my ey) = S754_finite false M E
    /\ (n = 0 \/ n = 1)
    /\ - (Zpos my * 2 ^ n) <= 2 * (Zpos mx * 2 ^ 24 - m1 * (Zpos my * 2 ^ n))
       <= Zpos my * 2 ^ n
    /\ ((E = ex - ey - 24 + n /\ Zpos M = m1)
        \/ (E = ex - ey - 24 + n + 1 /\ m1 = 2 * Zpos M)).
Proof.
  intros Hx Hy Hex Hey.
  unfold F32.div, SFdiv, SFdiv_core_binary. cbn [Zdigits2 xorb].
  rewrite (digits2_pos_unique mx 24), (digits2_pos_unique my 24) by lia.
  rewrite fexp_normal by lia.
  replace (Z.min (24 + ex - (24 + ey) - 24) (ex - ey)) with (ex - ey - 24) by lia.
  replace (ex - ey - (ex - ey - 24)) with 24 by lia.
  rewrite (Z.shiftl_mul_pow2 (Zpos mx) 24) by lia.
  pose proof (Z_div_mod (Zpos mx * 2 ^ 24) (Zpos my) ltac:(lia)) as Hdm.
  destruct (Z.div_eucl (Zpos mx * 2 ^ 24) (Zpos my)) as [q r].
  destruct Hdm as [Hq Hr].
  apply binary_round_aux_normal.
  - lia.
  - apply new_location_ok; [lia | exact Hq | exact Hr].
  - nia.
  - lia.
Qed.

(** If [a / b = (N / Dn) / K] lies in [(c - 1, c]], the integer [m1]
    nearest to [N / Dn] lies in [((c - 1) K, c K]], as long as [b < 2 K]: the
    quotient stays at least [1 / b] above [c - 1], more than half a unit. *)
Lemma ceil_sandwich (a b N Dn m1 K c : Z) :
  0 < b -> 0 < Dn -> 0 < K ->
  - Dn <= 2 * (N - m1 * Dn) <= Dn ->
  a * Dn * K = b * N ->
  b < 2 * K ->
  (c - 1) * b < a <= c * b ->
  (c - 1) * K < m1 <= c * K.
Proof.
  intros Hb HD HK Hnear Hval HbK Hc.
  assert (HDK : 0 < Dn * K) by (apply Z.mul_pos_pos; assumption).
  split.
  - destruct (Z.ltb_spec ((c - 1) * K) m1) as [|Hle]; [assumption|]. exfalso.
    assert (H0 : m1 * Dn <= (c - 1) * K * Dn)
      by (apply Z.mul_le_mono_nonneg_r; lia).
    assert (H1 : 2 * N <= 2 * ((c - 1) * K * Dn) + Dn) by lia.
    assert (H2 : ((c - 1) * b + 1) * (Dn * K) <= a * (Dn * K))
      by (apply Z.mul_le_mono_nonneg_r; lia).
    assert (H3 : b * (2 * N) <= b * (2 * ((c - 1) * K * Dn) + Dn))
      by (apply Z.mul_le_mono_nonneg_l; lia).
    assert (H4 : b * Dn < 2 * K * Dn)
      by (apply Z.mul_lt_mono_pos_r; lia).
    replace (a * (Dn * K)) with (b * N) in H2 by (rewrite <- Hval; ring).
    ring_simplify in H2. ring_simplify in H3. ring_simplify in H4. lia.
  - destruct (Z.leb_spec m1 (c * K)) as [|Hgt]; [assumption|]. exfalso.
    assert (H0 : (c * K + 1) * Dn <= m1 * Dn)
      by (apply Z.mul_le_mono_nonneg_r; lia).
    assert (H1 : 2 * ((c * K + 1) * Dn) - Dn <= 2 * N) by lia.
    assert (H2 : a * (Dn * K) <= c * b * (Dn * K))
      by (apply Z.mul_le_mono_nonneg_r; lia).
    assert (H3 : b * (2 * ((c * K + 1) * Dn) - Dn) <= b * (2 * N))
      by (apply Z.mul_le_mono_nonneg_l; lia).
    assert (H4 : 0 < b * Dn) by (apply Z.mul_pos_pos; assumption).
    replace (a * (Dn * K)) with (b * N) in H2 by (rewrite <- Hval; ring).
    ring_simplify in H2. ring_simplify in H3. ring_simplify in H4. lia.
Qed.

(** An integer below [2^24] survives the way to float and back. *)
Lemma float_to_size_t_of_Z (undef : float -> Z) (c : Z) :
  0 <= c < 2 ^ 24 -> float_to_size_t undef (F32.of_Z c) = c.
Proof.
  intros Hc. destruct (Z.eq_dec c 0) as [->|Hne]; [reflexivity|].
  destruct (of_Z_normal c ltac:(lia)) as (m & e & -> & He & Hm & Hb).
  unfold float_to_size_t, F32.trunc. cbn [cond_Zopp].
  rewrite Z.shiftl_div_pow2 by lia. rewrite Hm.
  rewrite Z.div_mul by (apply Z.pow_nonzero; lia).
  unfold SIZE_MAX1.
  destruct (Z.leb_spec 0 c), (Z.ltb_spec c (2 ^ 64)); cbn; lia.
Qed.

(** [ceilf] and the cast to [size_t], on a positive finite float whose value
    lies in [(c - 1, c]]. *)
Lemma ceilf_to_size_t (undef : float -> Z) (M : positive) (E c : Z) :
  0 < c < 2 ^ 24 ->
  (0 <= E -> Zpos M * 2 ^ E = c) ->
  (E < 0 -> (c - 1) * 2 ^ (- E) < Zpos M <= c * 2 ^ (- E)) ->
  float_to_size_t undef (F32.ceilf (S754_finite false M E)) = c.
Proof.
  intros Hc Hnn Hneg. unfold F32.ceilf.
  destruct (Z.leb_spec 0 E) as [HE|HE].
  - specialize (Hnn HE). unfold float_to_size_t, F32.trunc. cbn [cond_Zopp].
    rewrite Z.shiftl_mul_pow2, Hnn by lia. unfold SIZE_MAX1.
    destruct (Z.leb_spec 0 c), (Z.ltb_spec c (2 ^ 64)); cbn; lia.
  - specialize (Hneg HE).
    rewrite (Z.shiftl_div_pow2 (Zpos M) E) by lia.
    set (P := 2 ^ (- E)) in *.
    assert (HP : 0 < P) by (apply Z.pow_pos_nonneg; lia).
    rewrite Z.shiftl_mul_pow2 by lia. fold P.
    assert (Hn : (if Zpos M / P * P =? Zpos M then Zpos M / P else Zpos M / P + 1) = c).
    { destruct (Z.eq_dec (Zpos M) (c * P)) as [Heq|Hne].
      - rewrite Heq, Z.div_mul by lia. rewrite Z.eqb_refl. reflexivity.
      - assert (Hq : Zpos M / P = c - 1).
        { symmetry. apply Z.div_unique with (Zpos M - (c - 1) * P); lia. }
        rewrite Hq. destruct (Z.eqb_spec ((c - 1) * P) (Zpos M)); lia. }
    rewrite Hn. apply float_to_size_t_of_Z. lia.
Qed.

Lemma ceil_div_bounds (a b : Z) :
  0 < b -> ((a + b - 1) / b - 1) * b < a <= (a + b - 1) / b * b.
Proof.
  intros Hb.
  pose proof (Z.div_mod (a + b - 1) b ltac:(lia)).
  pose proof (Z.mod_pos_bound (a + b - 1) b Hb). nia.
Qed.

(** [(size_t) ceilf (a / (float) b)] is the integer ceiling of [a / b]. *)
Lemma ceilf_div_exact (undef : float -> Z) (a b : Z) :
  1 <= a < 2 ^ 24 -> 1 <= b < 2 ^ 24 ->
  float_to_size_t undef (F32.ceilf (F32.div (F32.of_Z a) (F32.of_Z b)))
  = (a + b - 1) / b.
Proof.
  intros Ha Hb.
  pose proof (ceil_div_bounds a b ltac:(lia)) as Hc.
  set (c := (a + b - 1) / b) in *.
  assert (Hc0 : 0 < c <= a) by nia.
  destruct (of_Z_normal a Ha) as (ma & ea & -> & Hea & Hma & Bma).
  destruct (of_Z_normal b Hb) as (mb & eb & -> & Heb & Hmb & Bmb).
  destruct (div_normal ma mb ea eb Bma Bmb Hea Heb) as (M & E & m1 & n & -> & Hn & Hnear & HE).
  set (k := 24 + eb - ea - n).
  assert (Hk : 0 <= k) by (destruct Hn; subst; lia).
  assert (HPa : 0 < 2 ^ (- ea)) by (apply Z.pow_pos_nonneg; lia).
  assert (HPb : 0 < 2 ^ (- eb)) by (apply Z.pow_pos_nonneg; lia).
  assert (HPn : 0 < 2 ^ n) by (apply Z.pow_pos_nonneg; destruct Hn; lia).
  assert (HK : 0 < 2 ^ k) by (apply Z.pow_pos_nonneg; lia).
  assert (HKB : 2 ^ n * (2 ^ k * 2 ^ (- eb)) = 2 ^ 24 * 2 ^ (- ea)).
  { rewrite <- !Z.pow_add_r by (destruct Hn; lia). f_equal. subst k. lia. }
  assert (Hval : a * (Zpos mb * 2 ^ n) * 2 ^ k = b * (Zpos ma * 2 ^ 24)).
  { rewrite Hma, Hmb.
    transitivity (a * b * (2 ^ n * (2 ^ k * 2 ^ (- eb)))); [ring|].
    rewrite HKB. ring. }
  assert (HbK : b < 2 * 2 ^ k).
  { assert (b * 2 ^ (- eb) < 2 ^ 24) by lia.
    assert (2 ^ 24 <= 2 * 2 ^ k * 2 ^ (- eb)).
    { replace (2 * 2 ^ k * 2 ^ (- eb)) with (2 ^ (1 + k + - eb))
        by (rewrite !Z.pow_add_r by lia; reflexivity).
      apply Z.pow_le_mono_r; [lia|]. subst k. destruct Hn; lia. }
    nia. }
  pose proof (ceil_sandwich a b (Zpos ma * 2 ^ 24) (Zpos mb * 2 ^ n) m1 (2 ^ k) c
                ltac:(lia) ltac:(lia) HK Hnear Hval HbK Hc) as Hs.
  apply ceilf_to_size_t; [lia| |].
  - intros HE0. destruct HE as [[HEq HM]|[HEq HM]].
    + assert (k = 0) by (subst k; lia).
      replace E with 0 by lia. rewrite H in Hs. cbn in Hs. cbn. lia.
    + assert (Hk1 : k = 0 \/ k = 1) by (subst k; lia).
      destruct Hk1 as [Hk0|Hk1].
      * replace E with 1 by lia. rewrite Hk0 in Hs. cbn in Hs. cbn. lia.
      * replace E with 0 by lia. rewrite Hk1 in Hs. cbn in Hs. cbn. lia.
  - intros HE0. destruct HE as [[HEq HM]|[HEq HM]].
    + replace (- E) with k by (subst k; lia). rewrite HM. exact Hs.
    + replace k with (1 + - E) in Hs by (subst k; lia).
      rewrite Z.pow_add_r in Hs by lia. change (2 ^ 1) with 2 in Hs. lia.
Qed.

Lemma ceil_div_pos (a b : Z) : 1 <= a -> 1 <= b -> 1 <= ceil_div a b <= a.
Proof.
  intros Ha Hb. unfold ceil_div.
  pose proof (ceil_div_bounds a b ltac:(lia)). nia.
Qed.

(** Binning by [ceil (a / b)] leaves at most [b] bins. *)
Lemma ceil_div_ceil_div_le (a b : Z) :
  1 <= a -> 1 <= b -> ceil_div a (ceil_div a b) <= b.
Proof.
  intros Ha Hb.
  pose proof (ceil_div_pos a b Ha Hb) as Hp.
  pose proof (ceil_div_bounds a b ltac:(lia)) as Hc. fold (ceil_div a b) in Hc.
  set (bw := ceil_div a b) in *. unfold ceil_div.
  assert ((a + bw - 1) / bw < b + 1); [|lia].
  apply Z.div_lt_upper_bound; nia.
Qed.

(** C3, as stated, fails: not for every region of interest. A width of
    1570780150 and the 360 columns of [gui_init]: the conversions to float
    round, [bin_width] comes out as 4363278, one below the ceiling 4363279 of
    the quotient, and the waveform gets 361 columns, one more than
    [waveform_max_width]. *)
Lemma C3_wide_region_counterexample :
  ~ (forall (undef : float -> Z) (d : dt_lib_histogram_t) (input : list float)
            (roi : dt_histogram_roi_t),
        let sample_width := waveform_sample_width roi in
        let bin_width := waveform_bin_width undef d roi in
        let d' := _lib_histogram_process_waveform undef d input roi in
        bin_width = ceil_div sample_width (waveform_max_width d)
        /\ waveform_width d' <= waveform_max_width d).
Proof.
  intros H.
  destruct (H undef_zero (state_gui_init DT_LIB_HISTOGRAM_SCOPE_WAVEFORM) []
              {| width := 1570780150; height := 900; crop_x := 0; crop_y := 0;
                 crop_width := 0; crop_height := 0 |}) as [Hb Hw].
  clear Hw. vm_compute in Hb. discriminate Hb.
Qed.

(** C3, amended. For every region of interest whose sample width is below [2 ^ 24],
    with [1 <= waveform_max_width < 2 ^ 24] (the integers binary32 represents
    exactly): [sample_width = max(1, width - crop_width - crop_x)],
    [bin_width = ceil(sample_width / waveform_max_width)], and the waveform
    binner leaves [waveform_width = ceil(sample_width / bin_width)], which is
    at least 1 and at most [waveform_max_width]. *)
Theorem C3_waveform_width :
  forall (undef : float -> Z) (d : dt_lib_histogram_t) (input : list float)
         (roi : dt_histogram_roi_t),
    1 <= waveform_max_width d < 2 ^ 24 ->
    width roi - crop_width roi - crop_x roi < 2 ^ 24 ->
    let sample_width := waveform_sample_width roi in
    let bin_width := waveform_bin_width undef d roi in
    let d' := _lib_histogram_process_waveform undef d input roi in
    sample_width = Z.max 1 (width roi - crop_width roi - crop_x roi)
    /\ bin_width = ceil_div sample_width (waveform_max_width d)
    /\ waveform_width d' = ceil_div sample_width bin_width
    /\ 1 <= waveform_width d' <= waveform_max_width d.
Proof.
  intros undef d input roi Hmw Hsw sample_width bin_width d'.
  assert (Hs : sample_width = Z.max 1 (width roi - crop_width roi - crop_x roi))
    by (apply MAX_spec).
  assert (Hs1 : 1 <= sample_width < 2 ^ 24) by lia.
  assert (Hb : bin_width = ceil_div sample_width (waveform_max_width d)).
  { apply ceilf_div_exact; assumption. }
  pose proof (ceil_div_pos sample_width (waveform_max_width d) ltac:(lia) ltac:(lia))
    as Hb1. rewrite <- Hb in Hb1.
  assert (Hw : waveform_wf_width undef d roi = ceil_div sample_width bin_width).
  { apply ceilf_div_exact; [assumption | lia]. }
  pose proof (ceil_div_pos sample_width bin_width ltac:(lia) ltac:(lia)) as Hw1.
  assert (Hd : waveform_width d' = ceil_div sample_width bin_width).
  { change (waveform_width d') with (to_int (waveform_wf_width undef d roi)).
    rewrite Hw. apply to_int_small. unfold INT_MIN, INT_MAX1. lia. }
  split; [exact Hs|]. split; [exact Hb|]. split; [exact Hd|].
  rewrite Hd. split; [lia|].
  rewrite Hb. apply ceil_div_ceil_div_le; lia.
Qed.

Lemma C3_waveform_width_witness :
  let d := state_gui_init DT_LIB_HISTOGRAM_SCOPE_WAVEFORM in
  let roi := {| width := 1440; height := 900; crop_x := 0; crop_y := 0;
                crop_width := 0; crop_height := 0 |} in
  let sample_width := waveform_sample_width roi in
  let bin_width := waveform_bin_width undef_zero d roi in
  let d' := _lib_histogram_process_waveform undef_zero d [] roi in
  sample_width = Z.max 1 (width roi - crop_width roi - crop_x roi)
  /\ bin_width = ceil_div sample_width (waveform_max_width d)
  /\ waveform_width d' = ceil_div sample_width bin_width
  /\ 1 <= waveform_width d' <= waveform_max_width d.
Proof.
  apply C3_waveform_width; cbn; lia.
Defined.

(** The preview of the source's comment, 1440 columns into at most 360: four
    source columns per waveform column, 360 waveform columns. With 1441
    columns the bins are five wide and there are 289 of them. *)
Example waveform_width_1440 :
  let d := state_gui_init DT_LIB_HISTOGRAM_SCOPE_WAVEFORM in
  let roi := fun w => {| width := w; height := 900; crop_x := 0; crop_y := 0;
                         crop_width := 0; crop_height := 0 |} in
  waveform_bin_width undef_zero d (roi 1440) = 4
  /\ waveform_wf_width undef_zero d (roi 1440) = 360
  /\ waveform_bin_width undef_zero d (roi 1441) = 5
  /\ waveform_wf_width undef_zero d (roi 1441) = 289.
Proof. vm_compute. repeat split. Qed.

(** A region 1570780150 columns wide, into the 360 columns of [gui_init]: the
    bins come out one narrower than the ceiling of the quotient, and there are
    361 of them. *)
Example waveform_width_wide_region :
  let d := state_gui_init DT_LIB_HISTOGRAM_SCOPE_WAVEFORM in
  let roi := {| width := 1570780150; height := 900; crop_x := 0; crop_y := 0;
                crop_width := 0; crop_height := 0 |} in
  waveform_bin_width undef_zero d roi = 4363278
  /\ ceil_div (waveform_sample_width roi) (waveform_max_width d) = 4363279
  /\ waveform_wf_width undef_zero d roi = 361
  /\ waveform_max_width d = 360.
Proof. vm_compute. repeat split. Qed.

(** Beyond [2 ^ 24] the conversions to float round: a sample width of
    [2 ^ 24 + 1] with a bin width of 1 yields a waveform width of [2 ^ 24]. *)
Example waveform_width_beyond_exact_range :
  float_to_size_t undef_zero
    (F32.ceilf (F32.div (F32.of_Z (2 ^ 24 + 1)) (F32.of_Z 1))) = 2 ^ 24.
Proof. vm_compute. reflexivity. Qed.

(** ** The waveform bucket and its accumulation *)

Lemma waveform_nan_propagates (x : float) :
  F32.isnan x = true ->
  F32.sub F32.one (F32.mul (F32.div (F32.of_Z 8) (F32.of_Z 9)) x) = F32.NAN.
Proof. destruct x; try discriminate. reflexivity. Qed.

Lemma trunc_fmaxf_zero_nonneg (y : float) (z : Z) :
  F32.trunc (F32.fmaxf y F32.zero) = Some z -> 0 <= z.
Proof.
  unfold F32.fmaxf. destruct y as [s|s| |s m e]; cbn.
  - destruct s; cbn; intros H; inversion H; lia.
  - destruct s; cbn; intros H; inversion H; lia.
  - intros H; inversion H; lia.
  - destruct s; cbn; intros H; inversion H; subst; [lia|].
    apply Z.shiftl_nonneg. lia.
Qed.

Lemma buf_add_lookup (buf : list float) (i : Z) (scale old : float) :
  0 <= i -> buf !! Z.to_nat i = Some old ->
  buf_add buf i scale !! Z.to_nat i = Some (F32.add old scale)
  /\ (forall j : nat, j <> Z.to_nat i -> buf_add buf i scale !! j = buf !! j).
Proof.
  intros Hi Hold. unfold buf_add.
  destruct (Z.ltb_spec i 0); [lia|]. rewrite Hold. split.
  - apply list_lookup_insert_eq. eapply lookup_lt_Some; eassumption.
  - intros j Hj. apply list_lookup_insert_ne. congruence.
Qed.

Lemma waveform_cell_nonneg (wf_width out_x out_y k : Z) :
  0 <= waveform_cell wf_width out_x out_y k.
Proof. apply to_size_t_range. Qed.

(** C4, as stated, fails: the code does not round. With 175 rows the value
    0.5 scales to 96.67; the code puts it into bucket 96, the rounding formula
    into bucket 97. *)
Lemma C4_round_counterexample :
  waveform_out_y undef_zero (F32.of_Z 174) 174 F32.half
  <> spec_waveform_out_y 175 F32.half.
Proof. vm_compute. discriminate. Qed.

(** C4, amended. For a channel value [x], with [v = 1 - (8/9) x] computed in
    binary32 and [height_i = waveform_height - 1]: the bucket is the integral
    part of [max(v * height_i, 0)] with the fraction discarded (not rounded),
    capped at [height_i], whenever that integral part fits [size_t]; a NaN
    value goes to bucket 0; and the accumulation adds
    [scale = (waveform_height / 40) / (sample_height * bin_width)] to the cell
    [4 * (wf_width * out_y + out_x) + k] of the linear buffer and changes no
    other cell. *)
Theorem C4_waveform_bucket_truncates :
  forall (undef : float -> Z) (d : dt_lib_histogram_t) (roi : dt_histogram_roi_t)
         (x : float) (wf_width out_x k : Z) (wf : list float) (old : float),
    let height_i := to_size_t (waveform_height d - 1) in
    let height_f := F32.of_Z height_i in
    let v := F32.sub F32.one (F32.mul (F32.div (F32.of_Z 8) (F32.of_Z 9)) x) in
    let out_y := waveform_out_y undef height_f height_i x in
    let cell := waveform_cell wf_width out_x out_y k in
    let scale := waveform_scale undef d roi in
    let wf' := waveform_accumulate undef wf_width height_f height_i scale out_x k x wf in
    wf !! Z.to_nat cell = Some old ->
    (F32.isnan x = true -> out_y = 0)
    /\ (forall z, F32.trunc (F32.fmaxf (F32.mul v height_f) F32.zero) = Some z ->
                  z < SIZE_MAX1 -> out_y = Z.min z height_i)
    /\ scale = F32.div (F32.div (F32.of_Z (waveform_height d)) (F32.of_Z 40))
                       (F32.of_Z (to_size_t (waveform_sample_height roi
                                             * waveform_bin_width undef d roi)))
    /\ wf' !! Z.to_nat cell = Some (F32.add old scale)
    /\ (forall j : nat, j <> Z.to_nat cell -> wf' !! j = wf !! j).
Proof.
  intros undef d roi x wf_width out_x k wf old height_i height_f v out_y cell
         scale wf' Hold.
  split; [|split; [|split]].
  - intros Hnan. subst out_y. unfold waveform_out_y.
    rewrite waveform_nan_propagates by assumption. reflexivity.
  - intros z Hz Hlt. subst out_y. unfold waveform_out_y. fold v.
    destruct (F32.isnan v) eqn:Hv.
    + destruct v; try discriminate. cbn in Hz. inversion Hz; subst.
      pose proof (to_size_t_range (waveform_height d - 1)). fold height_i in H. lia.
    + rewrite MIN_min. unfold float_to_size_t. rewrite Hz.
      pose proof (trunc_fmaxf_zero_nonneg _ _ Hz).
      destruct (Z.leb_spec 0 z), (Z.ltb_spec z SIZE_MAX1); cbn; lia.
  - reflexivity.
  - apply buf_add_lookup; [apply waveform_cell_nonneg | exact Hold].
Qed.

Lemma C4_waveform_bucket_truncates_witness :
  let d := state_gui_init DT_LIB_HISTOGRAM_SCOPE_WAVEFORM in
  let roi := {| width := 2; height := 1; crop_x := 0; crop_y := 0;
                crop_width := 0; crop_height := 0 |} in
  let wf := waveform_linear d in
  let scale := waveform_scale undef_zero d roi in
  let wf' := waveform_accumulate undef_zero 2 (F32.of_Z 174) 174 scale 0 0 F32.half wf in
  waveform_out_y undef_zero (F32.of_Z 174) 174 F32.half = 96
  /\ wf' !! 768%nat = Some (F32.add F32.zero scale)
  /\ (forall j : nat, j <> 768%nat -> wf' !! j = wf !! j).
Proof.
  intros d roi wf scale wf'.
  destruct (C4_waveform_bucket_truncates undef_zero d roi F32.half 2 0 0 wf F32.zero)
    as (_ & Hy & _ & Hw & Ho).
  - vm_compute. reflexivity.
  - split; [|split].
    + apply (Hy 96); vm_compute; reflexivity.
    + exact Hw.
    + exact Ho.
Defined.

(** ** The vectorscope grid test *)

Lemma vectorscope_in_grid_spec (vs_diameter out_x out_y : Z) :
  vectorscope_in_grid vs_diameter out_x out_y = true
  <-> (0 <= out_x <= vs_diameter - 2 /\ 0 <= out_y <= vs_diameter - 1).
Proof.
  unfold vectorscope_in_grid.
  rewrite !andb_true_iff, !Z.leb_le, Z.ltb_lt. lia.
Qed.

(** What the vectorscope pass leaves in the density buffer: the quantized
    density of the whole [width x height] buffer. *)
Lemma process_vectorscope_alpha (undef : float -> Z) (profile : Type)
    (cm : color_math float profile) (hypotf powf : float -> float -> float)
    (prof : profile) (d : dt_lib_histogram_t) (input : list float) (w h : Z) :
  vectorscope_alpha
    (_lib_histogram_process_vectorscope undef profile cm hypotf powf (Some prof)
       d input w h)
  = vectorscope_quantize undef powf (vectorscope_diameter d) (vectorscope_alpha_stride d)
      (vectorscope_density undef profile cm prof (vectorscope_type d)
         (vectorscope_diameter d)
         (vectorscope_graticule_pass (f32_scalar hypotf) cm prof (vectorscope_type d)
            (vectorscope_graticule d)).1
         input w h)
      (vectorscope_alpha d).
Proof.
  unfold _lib_histogram_process_vectorscope.
  destruct (vectorscope_graticule_pass _ _ _ _ _) as [max_diam g]. reflexivity.
Qed.

(** The density of a one-pixel image is the counting step of that pixel on
    the zeroed grid. *)
Lemma vectorscope_density_1x1 (undef : float -> Z) (profile : Type)
    (cm : color_math float profile) (prof : profile)
    (vs_type : dt_lib_histogram_vectorscope_type_t) (vs_diameter : Z)
    (max_diam : float) (input : list float) :
  vectorscope_density undef profile cm prof vs_type vs_diameter max_diam input 1 1
  = vectorscope_count_pixel undef profile cm prof vs_type vs_diameter max_diam
      (vectorscope_scale vs_diameter 1 1) input
      (replicate (Z.to_nat (vs_diameter * vs_diameter)) F32.zero) 0.
Proof. reflexivity. Qed.

Lemma pixel_right_dropped (scale : float) (rest binned : list float) :
  vectorscope_count_pixel undef_zero unit cm_identity tt
    DT_LIB_HISTOGRAM_VECTORSCOPE_CIELUV 256 max_diam_identity scale
    (pixel_right ++ rest) binned 0
  = binned.
Proof.
  unfold vectorscope_count_pixel.
  set (c := vectorscope_in_grid _ _ _). vm_compute in c. subst c. reflexivity.
Qed.

Lemma pixel_top_counted (scale : float) (rest binned : list float) :
  vectorscope_count_pixel undef_zero unit cm_identity tt
    DT_LIB_HISTOGRAM_VECTORSCOPE_CIELUV 256 max_diam_identity scale
    (pixel_top ++ rest) binned 0
  = buf_add binned (255 * 256 + 128) scale.
Proof.
  unfold vectorscope_count_pixel.
  set (c := vectorscope_in_grid _ _ _). vm_compute in c. subst c.
  set (x := vectorscope_cell _ _ _ _). vm_compute in x. subst x.
  set (x := vectorscope_cell _ _ _ _). vm_compute in x. subst x.
  reflexivity.
Qed.

(** C5. The guard of the density pass is not the same on both axes: a cell
    is counted when its column is at most [vs_diameter - 2] and its row at
    most [vs_diameter - 1]. On the 256x256 grid the pixel whose chromaticity
    maps to column 255, row 128 is dropped (the density of the image made of
    that pixel stays all zero), while the mirrored pixel, at column 128, row
    255, is counted: [scale] is added to cell [255 * 256 + 128]. *)
Theorem C5_vectorscope_last_column_dropped :
  let density := fun pixel =>
    vectorscope_density undef_zero unit cm_identity tt
      DT_LIB_HISTOGRAM_VECTORSCOPE_CIELUV 256 max_diam_identity pixel 1 1 in
  let zeroed := replicate (Z.to_nat (256 * 256)) F32.zero in
  (forall vs_diameter out_x out_y,
      vectorscope_in_grid vs_diameter out_x out_y
      = (0 <=? out_x) && (out_x <=? vs_diameter - 2)
        && (0 <=? out_y) && (out_y <=? vs_diameter - 1))
  /\ vectorscope_cell undef_zero 256 max_diam_identity
       (F32.div (F32.of_Z 45) (F32.of_Z 64)) = 255
  /\ vectorscope_cell undef_zero 256 max_diam_identity F32.zero = 128
  /\ vectorscope_in_grid 256 255 128 = false
  /\ vectorscope_in_grid 256 128 255 = true
  /\ density pixel_right = zeroed
  /\ density pixel_top = buf_add zeroed (255 * 256 + 128) (vectorscope_scale 256 1 1).
Proof.
  cbv zeta. split; [|split; [|split; [|split; [|split; [|split]]]]].
  - intros. unfold vectorscope_in_grid.
    destruct (Z.ltb_spec out_x (vs_diameter - 1)), (Z.leb_spec out_x (vs_diameter - 2));
      try lia; reflexivity.
  - vm_compute. reflexivity.
  - vm_compute. reflexivity.
  - reflexivity.
  - reflexivity.
  - rewrite vectorscope_density_1x1.
    apply (pixel_right_dropped (vectorscope_scale 256 1 1) []).
  - rewrite vectorscope_density_1x1.
    apply (pixel_top_counted (vectorscope_scale 256 1 1) []).
Qed.

(** ** The vectorscope and the crop rectangle *)

(** In vectorscope mode the colour picker does not enter the result. *)
Lemma process_vectorscope_ignores_picker (undef : float -> Z) (profile : Type)
    (cm : color_math float profile) (hypotf powf : float -> float -> float)
    (host host' : host_t profile) (d : dt_lib_histogram_t)
    (input : option (list float)) (w h : Z) (b : bool) :
  scope_type d = DT_LIB_HISTOGRAM_SCOPE_VECTORSCOPE ->
  out_profile_is_none host' = out_profile_is_none host ->
  img_display_alloc_fails host' = img_display_alloc_fails host ->
  dt_ioppr_transform_image_colorspace_rgb host'
  = dt_ioppr_transform_image_colorspace_rgb host ->
  dt_ioppr_get_histogram_profile_info host' = dt_ioppr_get_histogram_profile_info host ->
  dt_lib_histogram_process undef profile cm hypotf powf host' d input w h b
  = dt_lib_histogram_process undef profile cm hypotf powf host d input w h b.
Proof.
  intros Hs H1 H2 H3 H4.
  unfold dt_lib_histogram_process, process_dispatch.
  rewrite Hs, H1, H2, H3, H4. reflexivity.
Qed.

(** C6. In vectorscope mode the region of interest never reaches the binner:
    the dispatch gives the same state for every two regions. With the colour
    picker box restricting the analysis to the right half of a 2x1 image
    ([crop_x = 1]), the histogram counts the one pixel inside the crop (its
    maximum is 1, against 2 without the picker); the vectorscope call gives
    the state it gives without the picker, its density pass runs over both
    pixels, and the step at the left pixel, which lies outside the crop, adds
    [scale] to that pixel's cell. *)
Theorem C6_vectorscope_ignores_crop :
  let image := pixel_top ++ pixel_centre in
  let run := fun host st =>
    dt_lib_histogram_process undef_zero unit cm_identity hypotf_naive powf_id
      host (state_gui_init st) (Some image) 2 1 true in
  let count := fun scale =>
    vectorscope_count_pixel undef_zero unit cm_identity tt
      DT_LIB_HISTOGRAM_VECTORSCOPE_CIELUV 256 max_diam_identity scale image in
  (forall (undef : float -> Z) (profile : Type) (cm : color_math float profile)
          (hypotf powf : float -> float -> float) (host : host_t profile)
          (d : dt_lib_histogram_t) (buf : list float) (roi roi' : dt_histogram_roi_t)
          (w h : Z),
      process_dispatch undef profile cm hypotf powf host
        (set_scope_type DT_LIB_HISTOGRAM_SCOPE_VECTORSCOPE d) buf roi w h
      = process_dispatch undef profile cm hypotf powf host
          (set_scope_type DT_LIB_HISTOGRAM_SCOPE_VECTORSCOPE d) buf roi' w h)
  /\ process_roi undef_zero unit (host_right_half (Some tt)) 2 1
     = {| width := 2; height := 1; crop_x := 1; crop_y := 0;
          crop_width := 0; crop_height := 0 |}
  /\ histogram_max <$> run (host_right_half (Some tt)) DT_LIB_HISTOGRAM_SCOPE_HISTOGRAM
     = Some 1
  /\ histogram_max <$> run (host_plain (Some tt)) DT_LIB_HISTOGRAM_SCOPE_HISTOGRAM
     = Some 2
  /\ run (host_right_half (Some tt)) DT_LIB_HISTOGRAM_SCOPE_VECTORSCOPE
     = run (host_plain (Some tt)) DT_LIB_HISTOGRAM_SCOPE_VECTORSCOPE
  /\ (forall max_diam : float,
        vectorscope_density undef_zero unit cm_identity tt
          DT_LIB_HISTOGRAM_VECTORSCOPE_CIELUV 256 max_diam image 2 1
        = foldl (vectorscope_count_pixel undef_zero unit cm_identity tt
                   DT_LIB_HISTOGRAM_VECTORSCOPE_CIELUV 256 max_diam
                   (vectorscope_scale 256 2 1) image)
                (replicate (Z.to_nat (256 * 256)) F32.zero) [0; 4])
  /\ (forall (scale : float) (binned : list float),
        count scale binned 0 = buf_add binned (255 * 256 + 128) scale).
Proof.
  cbv zeta. split; [|split; [|split; [|split; [|split; [|split]]]]].
  - reflexivity.
  - vm_compute. reflexivity.
  - vm_compute. reflexivity.
  - vm_compute. reflexivity.
  - apply process_vectorscope_ignores_picker; reflexivity.
  - reflexivity.
  - intros. apply pixel_top_counted.
Qed.

(** ** The graticule *)

Arguments rgb_to_chromaticity : simpl never.


Lemma process_vectorscope_graticule (undef : float -> Z) (profile : Type)
    (cm : color_math float profile) (hypotf powf : float -> float -> float)
    (prof : profile) (d : dt_lib_histogram_t) (input : list float) (w h : Z) :
  vectorscope_graticule
    (_lib_histogram_process_vectorscope undef profile cm hypotf powf (Some prof)
       d input w h)
  = (vectorscope_graticule_pass (f32_scalar hypotf) cm prof (vectorscope_type d)
       (vectorscope_graticule d)).2.
Proof.
  unfold _lib_histogram_process_vectorscope.
  destruct (vectorscope_graticule_pass _ _ _ _ _) as [max_diam g]. reflexivity.
Qed.


Lemma graticule_raw_length {F profile : Type} (ops : scalar F)
    (cm : color_math F profile) (prof : profile)
    (vs_type : dt_lib_histogram_vectorscope_type_t) :
  length (graticule_raw ops cm prof vs_type) = 6%nat.
Proof. reflexivity. Qed.

(** *** Rounding in general *)









(** *** Powers of two as real numbers *)







(** *** The error of a division *)




(** *** Comparing distances *)





(** *** Distances in the plane *)











(** *** The normalised graticule *)














(** A profile whose matrix is zero projects every graticule colour to the
    origin: [max_diam] is 0 and all twelve stored coordinates are NaN. *)
Lemma graticule_zero_matrix_nan (k j : nat) :
  (k < 6)%nat -> (j < 2)%nat ->
  vectorscope_graticule
    (_lib_histogram_process_vectorscope undef_zero unit cm_zero_matrix hypotf_naive
       powf_id (Some tt) state_vectorscope_shown pixel_centre 1 1) k j
  = F32.NAN.
Proof.
  intros Hk Hj. rewrite process_vectorscope_graticule.
  destruct k as [|[|[|[|[|[|k]]]]]]; [..|lia];
    (destruct j as [|[|j]]; [..|lia]); reflexivity.
Qed.

(** ** The vectorscope without a profile *)

Lemma vectorscope_without_profile (undef : float -> Z) (profile : Type)
    (cm : color_math float profile) (hypotf powf : float -> float -> float)
    (d : dt_lib_histogram_t) (input : list float) (w h : Z) :
  _lib_histogram_process_vectorscope undef profile cm hypotf powf None d input w h = d.
Proof. reflexivity. Qed.

(** C8. Whatever the prior state, when the host has no histogram profile a
    [process] call in vectorscope mode on a non-null input returns normally
    and leaves the whole state, density buffer and graticule included, exactly
    as it was. *)
Theorem C8_vectorscope_no_profile_noop :
  forall (undef : float -> Z) (profile : Type) (cm : color_math float profile)
         (hypotf powf : float -> float -> float) (host : host_t profile)
         (d : dt_lib_histogram_t) (input : list float) (w h : Z) (b : bool),
    scope_type d = DT_LIB_HISTOGRAM_SCOPE_VECTORSCOPE ->
    dt_ioppr_get_histogram_profile_info host = None ->
    dt_lib_histogram_process undef profile cm hypotf powf host d (Some input) w h b
    = Some d.
Proof.
  intros undef profile cm hypotf powf host d input w h b Hscope Hprof.
  unfold dt_lib_histogram_process, process_dispatch.
  rewrite Hscope, Hprof.
  destruct (negb b && negb (out_profile_is_none host));
    [destruct (img_display_alloc_fails host)|]; reflexivity.
Qed.

Lemma C8_vectorscope_no_profile_noop_witness :
  dt_lib_histogram_process undef_zero unit cm_identity hypotf_naive powf_id
    (host_plain None) state_vectorscope_shown (Some image_red_4x4) 4 4 true
  = Some state_vectorscope_shown.
Proof.
  apply C8_vectorscope_no_profile_noop; reflexivity.
Defined.

(** ** Mode switches *)

Lemma kept_refl (d : dt_lib_histogram_t) : scope_buffers_kept d d.
Proof. repeat split. Qed.

Lemma kept_set_modes dr hl st hs wt vt (d : dt_lib_histogram_t) :
  scope_buffers_kept d (set_modes dr hl st hs wt vt d).
Proof. repeat split. Qed.

Lemma kept_trans (d1 d2 d3 : dt_lib_histogram_t) :
  scope_buffers_kept d1 d2 -> scope_buffers_kept d2 d3 -> scope_buffers_kept d1 d3.
Proof.
  unfold scope_buffers_kept. intros H1 H2.
  repeat match goal with H : _ /\ _ |- _ => destruct H end.
  repeat split; congruence.
Qed.

Lemma sentinel_refl (d : dt_lib_histogram_t) : graticule_kept_but_sentinel d d.
Proof. split; auto. Qed.

Lemma sentinel_trans (d1 d2 d3 : dt_lib_histogram_t) :
  graticule_kept_but_sentinel d1 d2 -> graticule_kept_but_sentinel d2 d3 ->
  graticule_kept_but_sentinel d1 d3.
Proof.
  intros [H1 [H1'|H1']] [H2 [H2'|H2']]; split;
    try (intros k j Hkj; rewrite H2, H1 by assumption; reflexivity);
    rewrite ?H2', ?H1'; auto.
Qed.

Lemma sentinel_set_modes dr hl st hs wt vt (d : dt_lib_histogram_t) :
  graticule_kept_but_sentinel d (set_modes dr hl st hs wt vt d).
Proof. split; auto. Qed.

Lemma graticule_set_other {F : Type} (g : graticule_of F) (k j : nat) (v : F) :
  (k, j) <> (0%nat, 0%nat) -> graticule_set g 0 0 v k j = g k j.
Proof.
  intros H. unfold graticule_set.
  destruct k, j; try reflexivity. congruence.
Qed.

Lemma histogram_scale_update_id (d d' : dt_lib_histogram_t) :
  _histogram_scale_update d = Some d' -> d' = d.
Proof. unfold _histogram_scale_update. destruct (histogram_scale d); congruence. Qed.

Lemma waveform_view_update_id (d d' : dt_lib_histogram_t) :
  _waveform_view_update d = Some d' -> d' = d.
Proof. unfold _waveform_view_update. destruct (waveform_type d); congruence. Qed.

Lemma vectorscope_view_update_kept cv (d d' : dt_lib_histogram_t) :
  _vectorscope_view_update cv d = Some d' ->
  scope_buffers_kept d d' /\ graticule_kept_but_sentinel d d'.
Proof.
  unfold _vectorscope_view_update.
  destruct (vectorscope_type d), cv; intros H; inversion H; subst;
    (split; [repeat split | split; [intros k j Hkj; cbn; auto using graticule_set_other
                                   | auto]]).
Qed.

Lemma scope_type_update_kept cv (d d' : dt_lib_histogram_t) :
  _scope_type_update cv d = Some d' ->
  scope_buffers_kept d d' /\ graticule_kept_but_sentinel d d'.
Proof.
  unfold _scope_type_update. destruct (scope_type d); intros H.
  - apply histogram_scale_update_id in H as ->. auto using kept_refl, sentinel_refl.
  - apply waveform_view_update_id in H as ->. auto using kept_refl, sentinel_refl.
  - eauto using vectorscope_view_update_kept.
  - discriminate.
Qed.

Lemma scope_type_clicked_kept cv (d d' : dt_lib_histogram_t) :
  _scope_type_clicked cv d = Some d' ->
  scope_buffers_kept d d' /\ graticule_kept_but_sentinel d d'.
Proof.
  unfold _scope_type_clicked. intros H.
  destruct (_scope_type_update cv _) as [d1|] eqn:E; [|discriminate].
  cbn in H. destruct cv; inversion H; subst.
  apply scope_type_update_kept in E as [E1 E2]. split.
  - eapply kept_trans; [apply kept_set_modes | exact E1].
  - eapply sentinel_trans; [apply sentinel_set_modes | exact E2].
Qed.

Lemma scope_view_clicked_kept cv (d d' : dt_lib_histogram_t) :
  _scope_view_clicked cv d = Some d' ->
  scope_buffers_kept d d' /\ graticule_kept_but_sentinel d d'.
Proof.
  unfold _scope_view_clicked. destruct (scope_type d); intros H.
  - apply histogram_scale_update_id in H as ->.
    split; [apply kept_set_modes | apply sentinel_set_modes].
  - apply waveform_view_update_id in H as ->.
    split; [apply kept_set_modes | apply sentinel_set_modes].
  - apply vectorscope_view_update_kept in H as [H1 H2]. split.
    + eapply kept_trans; [apply kept_set_modes | exact H1].
    + eapply sentinel_trans; [apply sentinel_set_modes | exact H2].
  - discriminate.
Qed.

Lemma run_mode_switch_kept s cv (d d' : dt_lib_histogram_t) :
  run_mode_switch s cv d = Some d' ->
  scope_buffers_kept d d' /\ graticule_kept_but_sentinel d d'.
Proof.
  destruct s; cbn [run_mode_switch].
  - apply scope_type_clicked_kept.
  - apply scope_view_clicked_kept.
  - unfold _lib_histogram_cycle_mode_callback.
    destruct (scope_type d); [destruct (histogram_scale d)
                             | destruct (waveform_type d)
                             | destruct (vectorscope_type d) | ];
      try apply scope_view_clicked_kept; try discriminate;
      intros H;
      try (destruct (_scope_type_clicked cv _) as [d1|] eqn:E; [|discriminate];
           cbn in H; inversion H; subst;
           apply scope_type_clicked_kept in E as [E1 E2]; split;
           [ eapply kept_trans; [|apply kept_set_modes];
             eapply kept_trans; [|exact E1];
             eapply kept_trans; apply kept_set_modes
           | eapply sentinel_trans; [|apply sentinel_set_modes];
             eapply sentinel_trans; [|exact E2];
             eapply sentinel_trans; apply sentinel_set_modes ]);
      try (apply scope_type_clicked_kept in H as [E1 E2]; split;
           [ eapply kept_trans; [apply kept_set_modes | exact E1]
           | eapply sentinel_trans; [apply sentinel_set_modes | exact E2] ]).
  - unfold _lib_histogram_change_mode_callback. intros H.
    apply scope_type_clicked_kept in H as [E1 E2]. split.
    + eapply kept_trans; [|exact E1]. eapply kept_trans; apply kept_set_modes.
    + eapply sentinel_trans; [|exact E2]. eapply sentinel_trans; apply sentinel_set_modes.
  - apply scope_view_clicked_kept.
Qed.

Lemma vectorscope_view_update_scope cv (d d' : dt_lib_histogram_t) :
  _vectorscope_view_update cv d = Some d' -> scope_type d' = scope_type d.
Proof.
  unfold _vectorscope_view_update.
  destruct (vectorscope_type d), cv; intros H; inversion H; reflexivity.
Qed.

Lemma scope_type_update_graticule cv (d d' : dt_lib_histogram_t) :
  _scope_type_update cv d = Some d' ->
  scope_type d' <> DT_LIB_HISTOGRAM_SCOPE_VECTORSCOPE ->
  vectorscope_graticule d' = vectorscope_graticule d.
Proof.
  unfold _scope_type_update. destruct (scope_type d) eqn:E; intros H Hne.
  - apply histogram_scale_update_id in H as ->. reflexivity.
  - apply waveform_view_update_id in H as ->. reflexivity.
  - apply vectorscope_view_update_scope in H. congruence.
  - discriminate.
Qed.

Lemma scope_type_clicked_graticule cv (d d' : dt_lib_histogram_t) :
  _scope_type_clicked cv d = Some d' ->
  scope_type d' <> DT_LIB_HISTOGRAM_SCOPE_VECTORSCOPE ->
  vectorscope_graticule d' = vectorscope_graticule d.
Proof.
  unfold _scope_type_clicked. intros H Hne.
  destruct (_scope_type_update cv _) as [d1|] eqn:E; [|discriminate].
  cbn in H. destruct cv; inversion H; subst.
  apply scope_type_update_graticule in E; assumption.
Qed.

Lemma scope_view_clicked_graticule cv (d d' : dt_lib_histogram_t) :
  _scope_view_clicked cv d = Some d' ->
  scope_type d' <> DT_LIB_HISTOGRAM_SCOPE_VECTORSCOPE ->
  vectorscope_graticule d' = vectorscope_graticule d.
Proof.
  unfold _scope_view_clicked. destruct (scope_type d) eqn:E; intros H Hne.
  - apply histogram_scale_update_id in H as ->. reflexivity.
  - apply waveform_view_update_id in H as ->. reflexivity.
  - apply vectorscope_view_update_scope in H. cbn in H. congruence.
  - discriminate.
Qed.

Lemma run_mode_switch_graticule s cv (d d' : dt_lib_histogram_t) :
  run_mode_switch s cv d = Some d' ->
  scope_type d' <> DT_LIB_HISTOGRAM_SCOPE_VECTORSCOPE ->
  vectorscope_graticule d' = vectorscope_graticule d.
Proof.
  destruct s; cbn [run_mode_switch].
  - apply scope_type_clicked_graticule.
  - apply scope_view_clicked_graticule.
  - unfold _lib_histogram_cycle_mode_callback.
    destruct (scope_type d); [destruct (histogram_scale d)
                             | destruct (waveform_type d)
                             | destruct (vectorscope_type d) | ];
      try apply scope_view_clicked_graticule; try discriminate;
      intros H Hne;
      try (destruct (_scope_type_clicked cv _) as [d1|] eqn:E; [|discriminate];
           cbn in H; inversion H; subst;
           apply scope_type_clicked_graticule in E; [exact E | exact Hne]);
      try (apply scope_type_clicked_graticule in H; [exact H | exact Hne]).
  - unfold _lib_histogram_change_mode_callback. intros H Hne.
    apply scope_type_clicked_graticule in H; [exact H | exact Hne].
  - apply scope_view_clicked_graticule.
Qed.

Lemma vectorscope_view_update_pointer cv (d d' : dt_lib_histogram_t) :
  _vectorscope_view_update cv d = Some d' -> pointer_state d' = pointer_state d.
Proof.
  unfold _vectorscope_view_update.
  destruct (vectorscope_type d), cv; intros H; inversion H; reflexivity.
Qed.

Lemma scope_type_update_pointer cv (d d' : dt_lib_histogram_t) :
  _scope_type_update cv d = Some d' -> pointer_state d' = pointer_state d.
Proof.
  unfold _scope_type_update. destruct (scope_type d); intros H.
  - apply histogram_scale_update_id in H as ->. reflexivity.
  - apply waveform_view_update_id in H as ->. reflexivity.
  - eauto using vectorscope_view_update_pointer.
  - discriminate.
Qed.

Lemma scope_type_clicked_pointer cv (d d' : dt_lib_histogram_t) :
  _scope_type_clicked cv d = Some d' -> pointer_state d' = pointer_state d.
Proof.
  unfold _scope_type_clicked. intros H.
  destruct (_scope_type_update cv _) as [d1|] eqn:E; [|discriminate].
  cbn in H. destruct cv; inversion H; subst.
  apply scope_type_update_pointer in E. rewrite E. reflexivity.
Qed.

Lemma scope_view_clicked_pointer cv (d d' : dt_lib_histogram_t) :
  _scope_view_clicked cv d = Some d' -> pointer_state d' = pointer_state d.
Proof.
  unfold _scope_view_clicked. destruct (scope_type d); intros H.
  - apply histogram_scale_update_id in H as ->. reflexivity.
  - apply waveform_view_update_id in H as ->. reflexivity.
  - apply vectorscope_view_update_pointer in H. rewrite H. reflexivity.
  - discriminate.
Qed.

(** A mode switch leaves the pointer state or resets it. *)
Lemma run_mode_switch_pointer s cv (d d' : dt_lib_histogram_t) :
  run_mode_switch s cv d = Some d' ->
  pointer_state d' = pointer_state d
  \/ pointer_state d' = (false, DT_LIB_HISTOGRAM_HIGHLIGHT_NONE).
Proof.
  destruct s; cbn [run_mode_switch].
  - left. eauto using scope_type_clicked_pointer.
  - left. eauto using scope_view_clicked_pointer.
  - unfold _lib_histogram_cycle_mode_callback.
    destruct (scope_type d); [destruct (histogram_scale d)
                             | destruct (waveform_type d)
                             | destruct (vectorscope_type d) | ];
      try discriminate; intros H;
      try (left; apply scope_view_clicked_pointer in H; exact H);
      try (destruct (_scope_type_clicked cv _) as [d1|] eqn:E; [|discriminate];
           cbn in H; inversion H; subst; right;
           apply scope_type_clicked_pointer in E; unfold pointer_state in *;
           injection E as E1 E2; cbn [dragging highlight set_highlight set_modes];
           rewrite E1; reflexivity);
      (left; apply scope_type_clicked_pointer in H; rewrite H; reflexivity).
  - unfold _lib_histogram_change_mode_callback. intros H. right.
    apply scope_type_clicked_pointer in H. rewrite H. reflexivity.
  - unfold _lib_histogram_change_type_callback. left.
    eauto using scope_view_clicked_pointer.
Qed.

Lemma isnan_NAN : F32.isnan F32.NAN = true.
Proof. reflexivity. Qed.

Lemma vectorscope_view_update_blanks (v : dt_view_type_flags_t)
    (d d' : dt_lib_histogram_t) :
  _vectorscope_view_update (Some v) d = Some d' ->
  scope_type d' = scope_type d
  /\ F32.isnan (vectorscope_graticule d' 0%nat 0%nat) = true.
Proof.
  unfold _vectorscope_view_update.
  destruct (vectorscope_type d); intros H; inversion H; subst; split; reflexivity.
Qed.

Lemma scope_type_update_blanks (v : dt_view_type_flags_t) (d d' : dt_lib_histogram_t) :
  _scope_type_update (Some v) d = Some d' ->
  scope_type d' = scope_type d
  /\ (scope_type d = DT_LIB_HISTOGRAM_SCOPE_VECTORSCOPE ->
      F32.isnan (vectorscope_graticule d' 0%nat 0%nat) = true).
Proof.
  unfold _scope_type_update. destruct (scope_type d) eqn:E; intros H.
  - apply histogram_scale_update_id in H as ->. split; [exact E | discriminate].
  - apply waveform_view_update_id in H as ->. split; [exact E | discriminate].
  - apply vectorscope_view_update_blanks in H as [H1 H2]. split; [congruence | auto].
  - discriminate.
Qed.

Lemma scope_type_clicked_blanks (v : dt_view_type_flags_t) (d d' : dt_lib_histogram_t) :
  _scope_type_clicked (Some v) d = Some d' ->
  scope_type d' = DT_LIB_HISTOGRAM_SCOPE_VECTORSCOPE ->
  F32.isnan (vectorscope_graticule d' 0%nat 0%nat) = true.
Proof.
  unfold _scope_type_clicked. intros H Hs.
  destruct (_scope_type_update (Some v) _) as [d1|] eqn:E; [|discriminate].
  cbn in H. inversion H; subst.
  apply scope_type_update_blanks in E as [E1 E2]. apply E2. congruence.
Qed.

Lemma scope_view_clicked_blanks (v : dt_view_type_flags_t) (d d' : dt_lib_histogram_t) :
  _scope_view_clicked (Some v) d = Some d' ->
  scope_type d' = DT_LIB_HISTOGRAM_SCOPE_VECTORSCOPE ->
  F32.isnan (vectorscope_graticule d' 0%nat 0%nat) = true.
Proof.
  unfold _scope_view_clicked. destruct (scope_type d) eqn:E; intros H Hs.
  - apply histogram_scale_update_id in H as ->. cbn in Hs. congruence.
  - apply waveform_view_update_id in H as ->. cbn in Hs. congruence.
  - apply vectorscope_view_update_blanks in H as [_ H]. exact H.
  - discriminate.
Qed.

Lemma run_mode_switch_blanks (s : mode_switch) (v : dt_view_type_flags_t)
    (d d' : dt_lib_histogram_t) :
  run_mode_switch s (Some v) d = Some d' ->
  scope_type d' = DT_LIB_HISTOGRAM_SCOPE_VECTORSCOPE ->
  F32.isnan (vectorscope_graticule d' 0%nat 0%nat) = true.
Proof.
  destruct s; cbn [run_mode_switch].
  - apply scope_type_clicked_blanks.
  - apply scope_view_clicked_blanks.
  - unfold _lib_histogram_cycle_mode_callback.
    destruct (scope_type d); [destruct (histogram_scale d)
                             | destruct (waveform_type d)
                             | destruct (vectorscope_type d) | ];
      try apply scope_view_clicked_blanks; try discriminate;
      intros H Hs;
      try (destruct (_scope_type_clicked (Some v) _) as [d1|] eqn:E; [|discriminate];
           cbn in H; inversion H; subst;
           apply scope_type_clicked_blanks in E; [exact E | exact Hs]);
      (apply scope_type_clicked_blanks in H; [exact H | exact Hs]).
  - unfold _lib_histogram_change_mode_callback. intros H Hs.
    apply scope_type_clicked_blanks in H; [exact H | exact Hs].
  - apply scope_view_clicked_blanks.
Qed.

Lemma run_mode_switch_pointer_after s cv (d d' : dt_lib_histogram_t) :
  run_mode_switch s cv d = Some d' -> pointer_after_switch s d d'.
Proof.
  destruct s; cbn [run_mode_switch pointer_after_switch].
  - apply scope_type_clicked_pointer.
  - apply scope_view_clicked_pointer.
  - unfold _lib_histogram_cycle_mode_callback, cycle_cancels_drag.
    destruct (scope_type d); [destruct (histogram_scale d)
                             | destruct (waveform_type d)
                             | destruct (vectorscope_type d) | ];
      try discriminate; intros H;
      try (apply scope_view_clicked_pointer in H; exact H);
      try (destruct (_scope_type_clicked cv _) as [d1|] eqn:E; [|discriminate];
           cbn in H; inversion H; subst;
           apply scope_type_clicked_pointer in E; unfold pointer_state in *;
           injection E as E1 E2; cbn [dragging highlight set_highlight set_modes];
           rewrite E1; reflexivity);
      (apply scope_type_clicked_pointer in H; rewrite H; reflexivity).
  - unfold _lib_histogram_change_mode_callback. intros H.
    apply scope_type_clicked_pointer in H. rewrite H. reflexivity.
  - apply scope_view_clicked_pointer.
Qed.

Lemma vectorscope_view_update_toggles cv (d d' : dt_lib_histogram_t) :
  _vectorscope_view_update cv d = Some d' -> toggles_kept d d'.
Proof.
  unfold _vectorscope_view_update.
  destruct (vectorscope_type d), cv; intros H; inversion H; repeat split.
Qed.

Lemma toggles_kept_set_modes dr hl st hs wt vt (d : dt_lib_histogram_t) :
  toggles_kept d (set_modes dr hl st hs wt vt d).
Proof. repeat split. Qed.

Lemma toggles_kept_trans (d1 d2 d3 : dt_lib_histogram_t) :
  toggles_kept d1 d2 -> toggles_kept d2 d3 -> toggles_kept d1 d3.
Proof.
  unfold toggles_kept. intros (A1 & A2 & A3 & A4) (B1 & B2 & B3 & B4).
  repeat split; congruence.
Qed.

Lemma scope_type_update_toggles cv (d d' : dt_lib_histogram_t) :
  _scope_type_update cv d = Some d' -> toggles_kept d d'.
Proof.
  unfold _scope_type_update. destruct (scope_type d); intros H.
  - apply histogram_scale_update_id in H as ->. repeat split.
  - apply waveform_view_update_id in H as ->. repeat split.
  - eauto using vectorscope_view_update_toggles.
  - discriminate.
Qed.

Lemma scope_type_clicked_toggles cv (d d' : dt_lib_histogram_t) :
  _scope_type_clicked cv d = Some d' -> toggles_kept d d'.
Proof.
  unfold _scope_type_clicked. intros H.
  destruct (_scope_type_update cv _) as [d1|] eqn:E; [|discriminate].
  cbn in H. destruct cv; inversion H; subst.
  apply scope_type_update_toggles in E.
  eapply toggles_kept_trans; [apply toggles_kept_set_modes | exact E].
Qed.

Lemma scope_view_clicked_toggles cv (d d' : dt_lib_histogram_t) :
  _scope_view_clicked cv d = Some d' -> toggles_kept d d'.
Proof.
  unfold _scope_view_clicked. destruct (scope_type d); intros H.
  - apply histogram_scale_update_id in H as ->. apply toggles_kept_set_modes.
  - apply waveform_view_update_id in H as ->. apply toggles_kept_set_modes.
  - apply vectorscope_view_update_toggles in H.
    eapply toggles_kept_trans; [apply toggles_kept_set_modes | exact H].
  - discriminate.
Qed.

Lemma run_mode_switch_toggles s cv (d d' : dt_lib_histogram_t) :
  run_mode_switch s cv d = Some d' -> toggles_kept d d'.
Proof.
  destruct s; cbn [run_mode_switch].
  - apply scope_type_clicked_toggles.
  - apply scope_view_clicked_toggles.
  - unfold _lib_histogram_cycle_mode_callback.
    destruct (scope_type d); [destruct (histogram_scale d)
                             | destruct (waveform_type d)
                             | destruct (vectorscope_type d) | ];
      try apply scope_view_clicked_toggles; try discriminate;
      intros H;
      try (destruct (_scope_type_clicked cv _) as [d1|] eqn:E; [|discriminate];
           cbn in H; inversion H; subst;
           apply scope_type_clicked_toggles in E;
           eapply toggles_kept_trans; [|apply toggles_kept_set_modes];
           eapply toggles_kept_trans; [|exact E];
           eapply toggles_kept_trans; apply toggles_kept_set_modes);
      (apply scope_type_clicked_toggles in H;
       eapply toggles_kept_trans; [apply toggles_kept_set_modes | exact H]).
  - unfold _lib_histogram_change_mode_callback. intros H.
    apply scope_type_clicked_toggles in H.
    eapply toggles_kept_trans; [|exact H].
    eapply toggles_kept_trans; apply toggles_kept_set_modes.
  - apply scope_view_clicked_toggles.
Qed.

(** Without a current view no handler that returns has written the
    graticule: the scope type button does not return, and the view update of
    the vectorscope skips the sentinel (line 1041). *)
Lemma run_mode_switch_no_view s (d d' : dt_lib_histogram_t) :
  run_mode_switch s None d = Some d' -> graticule_kept d d'.
Proof.
  assert (Hclick : forall d0 d1, _scope_type_clicked None d0 = Some d1 -> False).
  { intros d0 d1. unfold _scope_type_clicked.
    destruct (_scope_type_update None _); cbn; discriminate. }
  assert (Hview : forall d0 d1, _scope_view_clicked None d0 = Some d1 ->
                                graticule_kept d0 d1).
  { intros d0 d1. unfold _scope_view_clicked. destruct (scope_type d0); intros H.
    - apply histogram_scale_update_id in H as ->. intros k j. reflexivity.
    - apply waveform_view_update_id in H as ->. intros k j. reflexivity.
    - unfold _vectorscope_view_update in H.
      destruct (vectorscope_type _); inversion H; intros k j; reflexivity.
    - discriminate. }
  destruct s; cbn [run_mode_switch].
  - intros H. destruct (Hclick _ _ H).
  - apply Hview.
  - unfold _lib_histogram_cycle_mode_callback.
    destruct (scope_type d); [destruct (histogram_scale d)
                             | destruct (waveform_type d)
                             | destruct (vectorscope_type d) | ];
      try apply Hview; try discriminate; intros H;
      try (destruct (_scope_type_clicked None _) as [d1|] eqn:E; [|discriminate];
           destruct (Hclick _ _ E));
      destruct (Hclick _ _ H).
  - unfold _lib_histogram_change_mode_callback. intros H. destruct (Hclick _ _ H).
  - apply Hview.
Qed.

Lemma isnan_is_NAN (x : float) : F32.isnan x = true -> x = F32.NAN.
Proof. destruct x; cbn; intros H; try discriminate H; reflexivity. Qed.

Lemma C9_sentinel_example :
  _scope_view_clicked (Some DT_VIEW_DARKROOM) state_vectorscope_shown
  = Some (set_vectorscope_graticule
            (graticule_set (fun _ _ => F32.one) 0 0 F32.NAN)
            (set_vectorscope_type DT_LIB_HISTOGRAM_VECTORSCOPE_JZAZBZ
               state_vectorscope_shown)).
Proof. reflexivity. Qed.

(** C9, as stated, fails: it is not the case that every mode switch leaves
    the graticule unchanged. Toggling the vectorscope projection in the
    darkroom overwrites graticule point 0's first coordinate with NaN. *)
Lemma C9_graticule_counterexample :
  ~ (forall (s : mode_switch) (cv : option dt_view_type_flags_t)
            (d d' : dt_lib_histogram_t),
        run_mode_switch s cv d = Some d' ->
        scope_buffers_kept d d' /\ graticule_kept d d').
Proof.
  intros H.
  destruct (H SwitchScopeView (Some DT_VIEW_DARKROOM) state_vectorscope_shown _
              C9_sentinel_example) as [_ Hg].
  specialize (Hg 0%nat 0%nat). discriminate Hg.
Qed.

(** C9, amended. Every mode switch that returns (scope type button, view
    button, either through their keyboard shortcuts) leaves the histogram
    bins, [histogram_max], the three waveform buffers and the waveform
    dimensions, the vectorscope density buffer and its dimensions, the channel
    toggles and the vectorscope angle unchanged: beside the mode fields it
    writes two things. First the graticule: a switch that leaves the
    vectorscope selected, with a current view, sets entry [0][0] to the NaN
    sentinel and leaves the other entries; a switch that leaves another scope
    selected (the histogram scale toggle among them), or that finds no view,
    does not touch the graticule. Second the pointer state: the buttons and
    the change-type shortcut leave [dragging] and [highlight], the change-mode
    shortcut clears both, and the cycle shortcut clears both where it moves
    on to the next scope from the histogram (scale not logarithmic) or from
    the waveform (not overlaid), and leaves them everywhere else. *)
Theorem C9_mode_switch_keeps_buffers :
  forall (s : mode_switch) (cv : option dt_view_type_flags_t)
         (d d' : dt_lib_histogram_t),
    run_mode_switch s cv d = Some d' ->
    scope_buffers_kept d d'
    /\ toggles_kept d d'
    /\ pointer_after_switch s d d'
    /\ graticule_kept_but_sentinel d d'
    /\ (scope_type d' = DT_LIB_HISTOGRAM_SCOPE_VECTORSCOPE -> cv <> None ->
        vectorscope_graticule d' 0%nat 0%nat = F32.NAN)
    /\ (scope_type d' <> DT_LIB_HISTOGRAM_SCOPE_VECTORSCOPE \/ cv = None ->
        graticule_kept d d').
Proof.
  intros s cv d d' H.
  split; [eapply run_mode_switch_kept; eassumption|].
  split; [eapply run_mode_switch_toggles; eassumption|].
  split; [eapply run_mode_switch_pointer_after; eassumption|].
  split; [eapply run_mode_switch_kept; eassumption|].
  split.
  - intros Hs Hcv. destruct cv as [v|]; [|congruence].
    apply isnan_is_NAN. eapply run_mode_switch_blanks; eassumption.
  - intros [Hne | ->].
    + intros k j. erewrite run_mode_switch_graticule; eauto.
    + eapply run_mode_switch_no_view; eassumption.
Qed.

Lemma C9_mode_switch_keeps_buffers_witness :
  exists d',
    run_mode_switch SwitchScopeView (Some DT_VIEW_DARKROOM) state_vectorscope_shown
    = Some d'
    /\ scope_buffers_kept state_vectorscope_shown d'
    /\ toggles_kept state_vectorscope_shown d'
    /\ pointer_after_switch SwitchScopeView state_vectorscope_shown d'
    /\ graticule_kept_but_sentinel state_vectorscope_shown d'
    /\ (scope_type d' = DT_LIB_HISTOGRAM_SCOPE_VECTORSCOPE ->
        Some DT_VIEW_DARKROOM <> None ->
        vectorscope_graticule d' 0%nat 0%nat = F32.NAN)
    /\ (scope_type d' <> DT_LIB_HISTOGRAM_SCOPE_VECTORSCOPE
        \/ Some DT_VIEW_DARKROOM = None ->
        graticule_kept state_vectorscope_shown d').
Proof.
  eexists. split; [reflexivity|].
  apply (C9_mode_switch_keeps_buffers SwitchScopeView (Some DT_VIEW_DARKROOM)
           state_vectorscope_shown).
  reflexivity.
Defined.

(** ** Bounds of the waveform bucket *)




(** ** The mode handlers on proper modes *)

(** X1. From proper modes and with a current view, each of the five mode
    switches returns (no [g_assert_not_reached], no null view) and leaves
    proper modes. *)
Theorem mode_switch_keeps_proper (s : mode_switch) (v : dt_view_type_flags_t)
    (d : dt_lib_histogram_t) :
  modes_proper d ->
  exists d', run_mode_switch s (Some v) d = Some d' /\ modes_proper d'.
Proof.
  unfold modes_proper. intros (H1 & H2 & H3 & H4).
  destruct d as [? ? ? ? ? ? ? ? ? ? ? ? dr hl st hs wt vt ? ? ? ?]; cbn in *.
  destruct s, st, hs, wt, vt; try congruence;
    (eexists; split; [reflexivity | cbn; repeat split; discriminate]).
Qed.

Lemma mode_switch_keeps_proper_witness :
  modes_proper (state_gui_init DT_LIB_HISTOGRAM_SCOPE_WAVEFORM)
  /\ exists d', run_mode_switch ShortcutCycleMode (Some DT_VIEW_DARKROOM)
                  (state_gui_init DT_LIB_HISTOGRAM_SCOPE_WAVEFORM) = Some d'
                /\ modes_proper d'.
Proof.
  assert (H : modes_proper (state_gui_init DT_LIB_HISTOGRAM_SCOPE_WAVEFORM))
    by (repeat split; discriminate).
  split; [exact H | exact (mode_switch_keeps_proper _ _ _ H)].
Defined.

(** X2. The scope type button steps through the three scopes and is back at
    the first after three clicks; the three scope types met on the way are
    pairwise different, and no click touches a sub-mode or the pointer
    state. *)
Theorem scope_type_clicked_period (v : dt_view_type_flags_t) (d : dt_lib_histogram_t) :
  modes_proper d ->
  exists d1 d2 d3,
    _scope_type_clicked (Some v) d = Some d1
    /\ _scope_type_clicked (Some v) d1 = Some d2
    /\ _scope_type_clicked (Some v) d2 = Some d3
    /\ scope_type d1 <> scope_type d
    /\ scope_type d2 <> scope_type d1
    /\ scope_type d2 <> scope_type d
    /\ scope_type d3 = scope_type d
    /\ sub_modes d1 = sub_modes d /\ sub_modes d2 = sub_modes d
    /\ sub_modes d3 = sub_modes d
    /\ pointer_state d1 = pointer_state d /\ pointer_state d2 = pointer_state d
    /\ pointer_state d3 = pointer_state d.
Proof.
  unfold modes_proper. intros (H1 & H2 & H3 & H4).
  destruct d as [? ? ? ? ? ? ? ? ? ? ? ? dr hl st hs wt vt ? ? ? ?]; cbn in *.
  destruct st, hs, wt, vt; try congruence;
    (do 3 eexists; split; [reflexivity|]; split; [reflexivity|];
     split; [reflexivity|]; cbn; repeat split; discriminate).
Qed.

Lemma scope_type_clicked_period_witness :
  exists d1 d2 d3,
    _scope_type_clicked (Some DT_VIEW_DARKROOM)
      (state_gui_init DT_LIB_HISTOGRAM_SCOPE_HISTOGRAM) = Some d1
    /\ _scope_type_clicked (Some DT_VIEW_DARKROOM) d1 = Some d2
    /\ _scope_type_clicked (Some DT_VIEW_DARKROOM) d2 = Some d3
    /\ scope_type d1 = DT_LIB_HISTOGRAM_SCOPE_WAVEFORM
    /\ scope_type d2 = DT_LIB_HISTOGRAM_SCOPE_VECTORSCOPE
    /\ scope_type d3 = DT_LIB_HISTOGRAM_SCOPE_HISTOGRAM.
Proof.
  assert (H : modes_proper (state_gui_init DT_LIB_HISTOGRAM_SCOPE_HISTOGRAM))
    by (repeat split; discriminate).
  destruct (scope_type_clicked_period DT_VIEW_DARKROOM _ H)
    as (d1 & d2 & d3 & E1 & E2 & E3 & _).
  exists d1, d2, d3. split; [exact E1|]. split; [exact E2|]. split; [exact E3|].
  cbn in E1. injection E1 as <-. cbn in E2. injection E2 as <-.
  cbn in E3. injection E3 as <-. repeat split.
Defined.

(** X3. The view button never changes the scope type or the pointer state;
    one click changes the view of the scope on display and leaves the views of
    the two other scopes, a second click restores every mode. *)
Theorem scope_view_clicked_involution (v : dt_view_type_flags_t) (d : dt_lib_histogram_t) :
  modes_proper d ->
  exists d1 d2,
    _scope_view_clicked (Some v) d = Some d1
    /\ _scope_view_clicked (Some v) d1 = Some d2
    /\ scope_type d1 = scope_type d
    /\ shown_mode d1 <> shown_mode d
    /\ hidden_modes d1 = hidden_modes d
    /\ pointer_state d1 = pointer_state d
    /\ scope_type d2 = scope_type d
    /\ sub_modes d2 = sub_modes d
    /\ pointer_state d2 = pointer_state d.
Proof.
  unfold modes_proper. intros (H1 & H2 & H3 & H4).
  destruct d as [? ? ? ? ? ? ? ? ? ? ? ? dr hl st hs wt vt ? ? ? ?]; cbn in *.
  destruct st, hs, wt, vt; try congruence;
    (do 2 eexists; split; [reflexivity|]; split; [reflexivity|];
     cbn; repeat split; discriminate).
Qed.

Lemma scope_view_clicked_involution_witness :
  exists d1 d2,
    _scope_view_clicked (Some DT_VIEW_DARKROOM)
      (state_gui_init DT_LIB_HISTOGRAM_SCOPE_WAVEFORM) = Some d1
    /\ _scope_view_clicked (Some DT_VIEW_DARKROOM) d1 = Some d2
    /\ waveform_type d1 = DT_LIB_HISTOGRAM_WAVEFORM_PARADE
    /\ waveform_type d2 = DT_LIB_HISTOGRAM_WAVEFORM_OVERLAID.
Proof.
  assert (H : modes_proper (state_gui_init DT_LIB_HISTOGRAM_SCOPE_WAVEFORM))
    by (repeat split; discriminate).
  destruct (scope_view_clicked_involution DT_VIEW_DARKROOM _ H)
    as (d1 & d2 & E1 & E2 & _).
  exists d1, d2. split; [exact E1|]. split; [exact E2|].
  cbn in E1. injection E1 as <-. cbn in E2. injection E2 as <-. split; reflexivity.
Defined.

(** X4. The cycle shortcut walks the six displays in the order of
    [cycle_order] and wraps around: from the display at position [i] it
    moves to the display at position [(i + 1) mod 6]. Only the scope type and
    the view on display need to be proper for this. *)
Theorem cycle_mode_follows_order (v : dt_view_type_flags_t) (d : dt_lib_histogram_t)
    (i : nat) :
  cycle_order !! i = Some (shown_mode d) ->
  exists d', _lib_histogram_cycle_mode_callback (Some v) d = Some d'
             /\ cycle_order !! ((i + 1) mod 6)%nat = Some (shown_mode d').
Proof.
  intros H.
  destruct d as [? ? ? ? ? ? ? ? ? ? ? ? dr hl st hs wt vt ? ? ? ?].
  unfold shown_mode in H; cbn in H.
  destruct i as [|[|[|[|[|[|i]]]]]]; try discriminate H;
    destruct st; try discriminate H; cbn in H;
    [destruct hs | destruct hs | destruct wt | destruct wt | destruct vt | destruct vt];
    try discriminate H; (eexists; split; reflexivity).
Qed.

Lemma cycle_mode_follows_order_witness :
  exists d', _lib_histogram_cycle_mode_callback (Some DT_VIEW_DARKROOM)
               (state_gui_init DT_LIB_HISTOGRAM_SCOPE_VECTORSCOPE) = Some d'
             /\ cycle_order !! 5%nat = Some (shown_mode d').
Proof.
  exact (cycle_mode_follows_order DT_VIEW_DARKROOM
           (state_gui_init DT_LIB_HISTOGRAM_SCOPE_VECTORSCOPE) 4 eq_refl).
Defined.

(** ** The configuration names and the initial state *)

Lemma gui_init_mode_loop_absent (str : string) (names : list string) (j : nat) (mode : Z) :
  str ∉ names ->
  foldl (fun mode (iname : nat * string) =>
           if String.eqb str iname.2 then Z.of_nat iname.1 else mode)
        mode (imap (fun i name => ((j + i)%nat, name)) names) = mode.
Proof.
  revert j mode. induction names as [|n names IH]; intros j mode Hn; [reflexivity|].
  rewrite imap_cons. cbn [foldl snd fst].
  apply not_elem_of_cons in Hn as [Hne Hn].
  destruct (String.eqb_spec str n) as [->|_]; [congruence|].
  rewrite (imap_ext _ (fun i name => ((S j + i)%nat, name)))
    by (intros; cbn; f_equal; lia).
  apply IH, Hn.
Qed.

Lemma gui_init_mode_loop_found (str : string) (names : list string) (i j : nat) (mode : Z) :
  NoDup names -> names !! i = Some str ->
  foldl (fun mode (iname : nat * string) =>
           if String.eqb str iname.2 then Z.of_nat iname.1 else mode)
        mode (imap (fun i name => ((j + i)%nat, name)) names) = Z.of_nat (j + i).
Proof.
  revert i j mode. induction names as [|n names IH]; intros i j mode Hnd Hi;
    [discriminate|].
  apply NoDup_cons in Hnd as [Hn Hnd].
  rewrite imap_cons. cbn [foldl snd fst].
  rewrite (imap_ext _ (fun i name => ((S j + i)%nat, name)))
    by (intros; cbn; f_equal; lia).
  destruct i as [|i]; cbn in Hi.
  - injection Hi as ->. rewrite String.eqb_refl.
    rewrite gui_init_mode_loop_absent by assumption. reflexivity.
  - rewrite (IH i (S j) _ Hnd Hi). f_equal. lia.
Qed.

Lemma gui_init_mode_loop_range (str : string) (names : list string) (j : nat) (mode : Z) :
  let r := foldl (fun mode (iname : nat * string) =>
                    if String.eqb str iname.2 then Z.of_nat iname.1 else mode)
                 mode (imap (fun i name => ((j + i)%nat, name)) names) in
  r = mode \/ Z.of_nat j <= r < Z.of_nat (j + length names).
Proof.
  revert j mode. induction names as [|n names IH]; intros j mode; [left; reflexivity|].
  cbn zeta. rewrite imap_cons. cbn [foldl snd fst].
  rewrite (imap_ext _ (fun i name => ((S j + i)%nat, name)))
    by (intros; cbn; f_equal; lia).
  match goal with |- context [foldl _ ?m _] => destruct (IH (S j) m) as [E|E] end.
  - rewrite E. destruct (String.eqb str n); [right; cbn [length]; lia | left; reflexivity].
  - right. cbn [length]. lia.
Qed.

(** Reading back a name of a table without repetitions gives its index. *)
Lemma gui_init_mode_of_name (names : list string) (mode : Z) (s : string) :
  NoDup names -> mode_name names mode = Some s -> gui_init_mode names s = mode.
Proof.
  unfold mode_name. intros Hnd H.
  destruct (Z.ltb_spec mode 0); [discriminate|].
  transitivity (Z.of_nat (0 + Z.to_nat mode));
    [exact (gui_init_mode_loop_found s names (Z.to_nat mode) 0 0 Hnd H) | lia].
Qed.

Lemma gui_init_mode_range (names : list string) (str : string) :
  0 <= gui_init_mode names str < Z.max 1 (Z.of_nat (length names)).
Proof.
  pose proof (gui_init_mode_loop_range str names 0 0) as H. cbn zeta in H.
  change (foldl _ _ _) with (gui_init_mode names str) in H. lia.
Qed.

(** X5. Each of the four name tables reads back: the name a handler stores
    for a mode, [names[mode]], makes the loop of [gui_init] assign that
    mode. *)
Theorem mode_names_round_trip (names : list string) (mode : Z) (s : string) :
  names ∈ mode_name_tables ->
  mode_name names mode = Some s ->
  gui_init_mode names s = mode.
Proof.
  intros Hin. apply gui_init_mode_of_name.
  assert (Hnd : Forall (fun names : list string => NoDup names) mode_name_tables).
  { unfold mode_name_tables.
    repeat (apply List.Forall_cons;
            [apply (bool_decide_eq_true_1 (NoDup _)); vm_compute; reflexivity|]).
    apply List.Forall_nil. }
  exact (proj1 (Forall_forall _ _) Hnd names Hin).
Qed.

Lemma mode_names_round_trip_witness :
  gui_init_mode dt_lib_histogram_vectorscope_type_names "AzBz"
  = vectorscope_type_value DT_LIB_HISTOGRAM_VECTORSCOPE_JZAZBZ.
Proof.
  apply (mode_names_round_trip dt_lib_histogram_vectorscope_type_names 1 "AzBz").
  - unfold mode_name_tables. rewrite !elem_of_cons. auto.
  - reflexivity.
Defined.

(** X6. A configuration string that is in no table leaves the field at the
    zero [g_malloc0] put there, and whatever the string, the value the loop
    leaves is an index of the table: never the [_N] count. *)
Theorem gui_init_mode_total (names : list string) (str : string) :
  names <> [] ->
  0 <= gui_init_mode names str < Z.of_nat (length names)
  /\ (str ∉ names -> gui_init_mode names str = 0).
Proof.
  intros Hne. split.
  - pose proof (gui_init_mode_range names str). destruct names; [congruence|].
    cbn [length] in *. lia.
  - intros H. apply (gui_init_mode_loop_absent str names 0 0 H).
Qed.

Lemma gui_init_mode_total_witness :
  0 <= gui_init_mode dt_lib_histogram_scope_type_names "rgb parade"
    < Z.of_nat (length dt_lib_histogram_scope_type_names)
  /\ ("rgb parade" ∉ dt_lib_histogram_scope_type_names ->
      gui_init_mode dt_lib_histogram_scope_type_names "rgb parade" = 0).
Proof.
  apply (gui_init_mode_total dt_lib_histogram_scope_type_names "rgb parade").
  discriminate.
Defined.

Lemma gui_init_modes (conf : gui_conf) :
  scope_type_of (gui_init_mode dt_lib_histogram_scope_type_names (conf_mode conf))
    <> DT_LIB_HISTOGRAM_SCOPE_N
  /\ scale_of (gui_init_mode dt_lib_histogram_histogram_scale_names (conf_histogram conf))
     <> DT_LIB_HISTOGRAM_N
  /\ waveform_type_of (gui_init_mode dt_lib_histogram_waveform_type_names
                                     (conf_waveform conf))
     <> DT_LIB_HISTOGRAM_WAVEFORM_N
  /\ vectorscope_type_of (gui_init_mode dt_lib_histogram_vectorscope_type_names
                                        (conf_vectorscope conf))
     <> DT_LIB_HISTOGRAM_VECTORSCOPE_N.
Proof.
  repeat split;
    match goal with |- ?f (gui_init_mode ?n ?s) <> _ =>
      pose proof (gui_init_mode_range n s) as H;
      vm_compute (Z.max _ _) in H;
      remember (gui_init_mode n s) as g eqn:Eg; clear Eg;
      assert (E : g = 0 \/ g = 1 \/ g = 2) by lia;
      destruct E as [E | [E | E]]; subst g; first [discriminate | lia]
    end.
Qed.

Lemma gui_init_state (conf : gui_conf) (cv : option dt_view_type_flags_t)
    (mipmap_max_width alpha_stride : Z) (wf_linear wf_display : list float)
    (wf_8bit vs_alpha : list Z) :
  exists d,
    gui_init conf cv mipmap_max_width alpha_stride wf_linear wf_display wf_8bit vs_alpha
    = Some d
    /\ modes_proper d /\ pointer_idle d
    /\ histogram_max d = 0 /\ waveform_width d = 0
    /\ F32.isnan (vectorscope_graticule d 0%nat 0%nat) = true.
Proof.
  destruct (gui_init_modes conf) as (H1 & H2 & H3 & H4).
  unfold gui_init, _scope_type_update, _histogram_scale_update, _waveform_view_update,
    _vectorscope_view_update, modes_proper, pointer_idle.
  cbn [scope_type histogram_scale waveform_type vectorscope_type].
  destruct (scope_type_of _); try congruence;
    [ destruct (scale_of _) eqn:E2; try congruence
    | destruct (waveform_type_of _) eqn:E3; try congruence
    | destruct (vectorscope_type_of _) eqn:E4; try congruence; destruct cv ];
    (eexists; split; [reflexivity|]); cbn; rewrite ?E2, ?E3, ?E4;
    repeat split; try discriminate; assumption.
Qed.

(** X7. Whatever the configuration holds and whether or not a view exists
    yet, [gui_init] returns, and the state it leaves satisfies the invariant
    the handlers keep (proper modes, no drag without a target), with an idle
    pointer. *)
Theorem gui_init_establishes (conf : gui_conf) (cv : option dt_view_type_flags_t)
    (mipmap_max_width alpha_stride : Z) (wf_linear wf_display : list float)
    (wf_8bit vs_alpha : list Z) :
  exists d,
    gui_init conf cv mipmap_max_width alpha_stride wf_linear wf_display wf_8bit vs_alpha
    = Some d
    /\ scope_invariant d /\ pointer_idle d.
Proof.
  destruct (gui_init_state conf cv mipmap_max_width alpha_stride wf_linear
              wf_display wf_8bit vs_alpha) as (d & E & Hm & Hp & _).
  exists d. split; [exact E|]. split; [|exact Hp]. split; [exact Hm|].
  intros Hd. destruct Hp as [Hp _]. congruence.
Qed.

(** ** The pointer handlers *)

Lemma motion_drag_has_target cv hooks w h x y (d d' : dt_lib_histogram_t)
    (p : pointer_t) (calls : list dev_call) :
  _drawable_motion_notify_callback cv hooks w h x y d p = Some (d', calls) ->
  drag_has_target d -> drag_has_target d'.
Proof.
  unfold _drawable_motion_notify_callback, drag_has_target.
  destruct (dragging d) eqn:Ed.
  - destruct (highlight d) eqn:Eh; intros H Hd; inversion H; subst;
      intros _; rewrite Eh; auto.
  - destruct cv; [|discriminate]. intros H; inversion H; subst.
    cbn. intros _ Hd. congruence.
Qed.

Lemma handle_event_drag_has_target undef ev (d d' : dt_lib_histogram_t)
    (p p' : pointer_t) (calls : list dev_call) :
  handle_event undef ev (d, p) = Some (d', p', calls) ->
  drag_has_target d -> drag_has_target d'.
Proof.
  destruct ev; cbn [handle_event]; intros H Hd.
  - destruct (_drawable_motion_notify_callback _ _ _ _ _ _ _ _) as [[d1 c1]|] eqn:E;
      [|discriminate]. cbn in H. inversion H; subst.
    eapply motion_drag_has_target; eassumption.
  - unfold _drawable_button_press_callback in H.
    destruct (highlight d) eqn:Eh; [inversion H; subst; exact Hd | |];
      (destruct is_2button; inversion H; subst; [exact Hd|];
       unfold drag_has_target; cbn; rewrite Eh; discriminate).
  - unfold _drawable_button_release_callback in H.
    destruct (_drawable_motion_notify_callback _ _ _ _ _ _ _ _) as [[d1 c1]|] eqn:E;
      [|discriminate]. cbn in H. inversion H; subst.
    eapply motion_drag_has_target; [eassumption|].
    unfold drag_has_target. cbn. discriminate.
  - inversion H; subst. unfold _drawable_leave_notify_callback, drag_has_target in *.
    destruct (dragging d) eqn:Ed; cbn; [rewrite Ed; exact Hd|].
    destruct (highlight d); cbn; rewrite ?Ed; discriminate.
  - inversion H; subst. exact Hd.
  - unfold _eventbox_motion_notify_callback in H.
    destruct (_scope_type_update cv d) as [d1|] eqn:E; [|discriminate].
    cbn in H. inversion H; subst.
    apply scope_type_update_pointer in E. unfold pointer_state in E.
    injection E as E1 E2. unfold drag_has_target in *. rewrite E1, E2. exact Hd.
  - destruct (run_mode_switch s cv d) as [d1|] eqn:E; [|discriminate].
    cbn in H. inversion H; subst.
    unfold drag_has_target in *.
    destruct (run_mode_switch_pointer _ _ _ _ E) as [E1|E1];
      unfold pointer_state in E1; injection E1 as E1 E2; rewrite E1, E2;
      [exact Hd | discriminate].
Qed.

Lemma modes_proper_ext (d d1 : dt_lib_histogram_t) :
  scope_type d1 = scope_type d -> sub_modes d1 = sub_modes d ->
  modes_proper d -> modes_proper d1.
Proof.
  unfold modes_proper, sub_modes. intros E1 E2. injection E2 as E2 E3 E4.
  rewrite E1, E2, E3, E4. auto.
Qed.

Lemma modes_proper_set dr hl st hs wt vt (d : dt_lib_histogram_t) :
  st <> DT_LIB_HISTOGRAM_SCOPE_N -> hs <> DT_LIB_HISTOGRAM_N ->
  wt <> DT_LIB_HISTOGRAM_WAVEFORM_N -> vt <> DT_LIB_HISTOGRAM_VECTORSCOPE_N ->
  modes_proper (set_modes dr hl st hs wt vt d).
Proof. intros. repeat split; assumption. Qed.

Lemma scope_type_update_modes cv (d d' : dt_lib_histogram_t) :
  _scope_type_update cv d = Some d' ->
  scope_type d' = scope_type d /\ sub_modes d' = sub_modes d.
Proof.
  unfold _scope_type_update. destruct (scope_type d) eqn:E; intros H.
  - apply histogram_scale_update_id in H as ->. split; [exact E | reflexivity].
  - apply waveform_view_update_id in H as ->. split; [exact E | reflexivity].
  - unfold _vectorscope_view_update in H.
    destruct (vectorscope_type d) eqn:Ev, cv; inversion H; subst;
      (split; [exact E | unfold sub_modes; cbn; rewrite Ev; reflexivity]).
  - discriminate.
Qed.

Lemma scope_type_clicked_proper cv (d d' : dt_lib_histogram_t) :
  _scope_type_clicked cv d = Some d' -> modes_proper d -> modes_proper d'.
Proof.
  unfold _scope_type_clicked. intros H (H1 & H2 & H3 & H4).
  destruct (_scope_type_update cv _) as [d1|] eqn:E; [|discriminate].
  cbn in H. destruct cv; inversion H; subst.
  apply scope_type_update_modes in E as [E1 E2].
  eapply modes_proper_ext; [exact E1 | exact E2 |].
  apply modes_proper_set; try assumption.
  destruct (scope_type d); cbn; discriminate.
Qed.

Lemma scope_view_clicked_proper cv (d d' : dt_lib_histogram_t) :
  _scope_view_clicked cv d = Some d' -> modes_proper d -> modes_proper d'.
Proof.
  unfold _scope_view_clicked. intros H (H1 & H2 & H3 & H4).
  destruct (scope_type d) eqn:Es.
  - apply histogram_scale_update_id in H as ->.
    apply modes_proper_set; try assumption; [congruence|].
    destruct (histogram_scale d); cbn; discriminate.
  - apply waveform_view_update_id in H as ->.
    apply modes_proper_set; try assumption; [congruence|].
    destruct (waveform_type d); cbn; discriminate.
  - assert (E : _scope_type_update cv
                  (set_vectorscope_type
                     (vectorscope_type_of
                        ((vectorscope_type_value (vectorscope_type d) + 1)
                         mod vectorscope_type_value DT_LIB_HISTOGRAM_VECTORSCOPE_N)) d)
                = Some d').
    { unfold _scope_type_update. cbn [scope_type set_vectorscope_type set_modes].
      rewrite Es. exact H. }
    apply scope_type_update_modes in E as [E1 E2].
    eapply modes_proper_ext; [exact E1 | exact E2 |].
    apply modes_proper_set; try assumption; [congruence|].
    destruct (vectorscope_type d); cbn; discriminate.
  - discriminate.
Qed.

Lemma run_mode_switch_proper s cv (d d' : dt_lib_histogram_t) :
  run_mode_switch s cv d = Some d' -> modes_proper d -> modes_proper d'.
Proof.
  destruct s; cbn [run_mode_switch].
  - apply scope_type_clicked_proper.
  - apply scope_view_clicked_proper.
  - unfold _lib_histogram_cycle_mode_callback.
    destruct (scope_type d) eqn:Es;
      [destruct (histogram_scale d) eqn:E2
      | destruct (waveform_type d) eqn:E2
      | destruct (vectorscope_type d) eqn:E2 | ];
      try apply scope_view_clicked_proper; try discriminate;
      intros H (H1 & H2 & H3 & H4);
      try (destruct (_scope_type_clicked cv _) as [d1|] eqn:E; [|discriminate];
           cbn in H; inversion H; subst;
           apply scope_type_clicked_proper in E;
           [ destruct E as (? & ? & ? & ?); repeat split; assumption
           | apply modes_proper_set; cbn; congruence ]);
      (apply scope_type_clicked_proper in H;
       [exact H | apply modes_proper_set; cbn; congruence]).
  - unfold _lib_histogram_change_mode_callback. intros H Hm.
    apply scope_type_clicked_proper in H; [exact H|].
    destruct Hm as (? & ? & ? & ?). apply modes_proper_set; assumption.
  - apply scope_view_clicked_proper.
Qed.

Lemma handle_event_proper undef ev (d d' : dt_lib_histogram_t)
    (p p' : pointer_t) (calls : list dev_call) :
  handle_event undef ev (d, p) = Some (d', p', calls) ->
  modes_proper d -> modes_proper d'.
Proof.
  pose proof (fun d1 => modes_proper_ext d d1) as K.
  destruct ev; cbn [handle_event]; intros H.
  - unfold _drawable_motion_notify_callback in H.
    destruct (dragging d); [destruct (highlight d) | destruct cv; [|discriminate]];
      cbn in H; inversion H; subst; auto.
  - unfold _drawable_button_press_callback in H.
    destruct (highlight d); [| destruct is_2button | destruct is_2button];
      inversion H; subst; auto.
  - unfold _drawable_button_release_callback, _drawable_motion_notify_callback in H.
    cbn in H. destruct cv; [|discriminate]. cbn in H. inversion H; subst. auto.
  - inversion H; subst. unfold _drawable_leave_notify_callback.
    destruct (negb (dragging d) && _); auto.
  - inversion H; subst. auto.
  - unfold _eventbox_motion_notify_callback in H.
    destruct (_scope_type_update cv d) as [d1|] eqn:E; [|discriminate].
    cbn in H. inversion H; subst.
    apply scope_type_update_modes in E as [E1 E2]. auto.
  - destruct (run_mode_switch s cv d) as [d1|] eqn:E; [|discriminate].
    cbn in H. inversion H; subst. eauto using run_mode_switch_proper.
Qed.

(** X8. The handlers keep the invariant of the scope state: proper modes
    and a target for every drag. If it holds before a sequence of pointer
    events and mode switches, it holds after it, whatever the events carry, the
    views they find and the order they come in. *)
Theorem scope_invariant_kept (undef : float -> Z) (evs : list gui_event)
    (d d' : dt_lib_histogram_t) (p p' : pointer_t) (calls : list dev_call) :
  scope_invariant d ->
  handle_events undef evs (d, p) = Some (d', p', calls) ->
  scope_invariant d'.
Proof.
  revert d p calls. induction evs as [|ev evs IH]; intros d p calls Hd H.
  - cbn in H. inversion H; subst. exact Hd.
  - cbn [handle_events] in H.
    destruct (handle_event undef ev (d, p)) as [[[d1 p1] c1]|] eqn:E; [|discriminate].
    cbn in H.
    destruct (handle_events undef evs (d1, p1)) as [[[d2 p2] c2]|] eqn:E2;
      [|discriminate].
    cbn in H. inversion H; subst.
    eapply IH; [|exact E2]. destruct Hd as [Hm Hd]. split.
    + eapply handle_event_proper; eassumption.
    + eapply handle_event_drag_has_target; eassumption.
Qed.

Lemma handle_event_idle undef ev (d d' : dt_lib_histogram_t)
    (p p' : pointer_t) (calls : list dev_call) :
  event_hooks_available ev = false ->
  pointer_idle d ->
  handle_event undef ev (d, p) = Some (d', p', calls) ->
  pointer_idle d' /\ calls = [].
Proof.
  unfold pointer_idle. intros Hh [Hd Hl] H. destruct ev; cbn [handle_event] in H.
  - unfold _drawable_motion_notify_callback in H. rewrite Hd in H.
    destruct cv as [view|]; [|discriminate]. cbn in H. inversion H; subst. clear H.
    cbn in Hh. destruct view; [rewrite Hh|]; cbn; auto.
  - unfold _drawable_button_press_callback in H. rewrite Hl in H.
    inversion H; subst. auto.
  - unfold _drawable_button_release_callback, _drawable_motion_notify_callback in H.
    cbn in H. destruct cv as [view|]; [|discriminate]. cbn in H.
    inversion H; subst. clear H.
    cbn in Hh. destruct view; [rewrite Hh|]; cbn; auto.
  - unfold _drawable_leave_notify_callback in H. rewrite Hd, Hl in H. cbn in H.
    inversion H; subst. auto.
  - unfold _drawable_scroll_callback in H. rewrite Hl in H.
    inversion H; subst. destruct ctrl, delta_y; auto.
  - unfold _eventbox_motion_notify_callback in H.
    destruct (_scope_type_update cv d) as [d1|] eqn:E; [|discriminate].
    cbn in H. inversion H; subst.
    apply scope_type_update_pointer in E. unfold pointer_state in E.
    injection E as E1 E2. rewrite E1, E2. auto.
  - destruct (run_mode_switch s cv d) as [d1|] eqn:E; [|discriminate].
    cbn in H. inversion H; subst.
    destruct (run_mode_switch_pointer _ _ _ _ E) as [E1|E1];
      unfold pointer_state in E1; injection E1 as E1 E2; rewrite E1, E2; auto.
Qed.

(** X9. Where the exposure hooks are not available (another view than the
    darkroom, or no exposure module), the scope never touches the exposure:
    from an idle pointer, no sequence of motions, presses, releases, scrolls,
    leaves and mode switches makes a single call into the exposure module, and
    the pointer is idle at the end. *)
Theorem no_exposure_call_without_hooks (undef : float -> Z) (evs : list gui_event)
    (d d' : dt_lib_histogram_t) (p p' : pointer_t) (calls : list dev_call) :
  Forall (fun ev => event_hooks_available ev = false) evs ->
  pointer_idle d ->
  handle_events undef evs (d, p) = Some (d', p', calls) ->
  calls = [] /\ pointer_idle d'.
Proof.
  revert d p calls. induction evs as [|ev evs IH]; intros d p calls Hevs Hd H.
  - cbn in H. inversion H; subst. auto.
  - apply Forall_cons in Hevs as [Hev Hevs].
    cbn [handle_events] in H.
    destruct (handle_event undef ev (d, p)) as [[[d1 p1] c1]|] eqn:E; [|discriminate].
    cbn in H.
    destruct (handle_events undef evs (d1, p1)) as [[[d2 p2] c2]|] eqn:E2;
      [|discriminate].
    cbn in H. inversion H; subst.
    destruct (handle_event_idle _ _ _ _ _ _ _ Hev Hd E) as [Hd1 ->].
    destruct (IH _ _ _ Hevs Hd1 E2) as [-> Hd2]. auto.
Qed.


(** X10. The vectorscope is not draggable: a motion over it, outside a drag,
    clears the highlight and makes no call, whatever the view and the hooks;
    after it a button press starts no drag and a scroll changes nothing. *)
Theorem vectorscope_not_draggable (undef : float -> Z) (v : dt_view_type_flags_t)
    (hooks : bool) (w h : Z) (x y : double) (d : dt_lib_histogram_t) (p : pointer_t) :
  scope_type d = DT_LIB_HISTOGRAM_SCOPE_VECTORSCOPE ->
  dragging d = false ->
  exists d1,
    _drawable_motion_notify_callback (Some v) hooks w h x y d p = Some (d1, [])
    /\ pointer_idle d1
    /\ (forall is_2button x' y' exposure black,
          _drawable_button_press_callback undef is_2button x' y' exposure black d1 p
          = (d1, p, []))
    /\ (forall ctrl delta_y exposure black,
          _drawable_scroll_callback ctrl delta_y exposure black d1 = []).
Proof.
  intros Hs Hd. unfold _drawable_motion_notify_callback. rewrite Hd, Hs.
  rewrite orb_true_r. eexists. split; [reflexivity|].
  split; [split; [exact Hd | reflexivity]|]. split.
  - reflexivity.
  - intros ctrl delta_y exposure black. destruct ctrl, delta_y; reflexivity.
Qed.


(** X11. A button release ends the drag and makes no call: the motion
    handler it runs to recompute the highlight finds [dragging] cleared. It
    needs a view for that. *)
Theorem release_ends_drag (cv : option dt_view_type_flags_t) (hooks : bool) (w h : Z)
    (x y : double) (d : dt_lib_histogram_t) (p : pointer_t) :
  match cv with
  | Some _ =>
      exists d', _drawable_button_release_callback cv hooks w h x y d p = Some (d', [])
                 /\ dragging d' = false
  | None => _drawable_button_release_callback cv hooks w h x y d p = None
  end.
Proof.
  unfold _drawable_button_release_callback, _drawable_motion_notify_callback.
  cbn [dragging set_dragging set_modes].
  destruct cv; [|reflexivity]. eexists. split; reflexivity.
Qed.
Lemma scope_invariant_kept_witness :
  exists d' p' calls,
    handle_events undef_zero gesture_drag
      (state_gui_init DT_LIB_HISTOGRAM_SCOPE_HISTOGRAM, pointer_init)
    = Some (d', p', calls)
    /\ dragging d' = true
    /\ scope_invariant d'.
Proof.
  assert (H : option_map (fun r : dt_lib_histogram_t * pointer_t * list dev_call =>
                            dragging r.1.1)
                (handle_events undef_zero gesture_drag
                   (state_gui_init DT_LIB_HISTOGRAM_SCOPE_HISTOGRAM, pointer_init))
              = Some true) by reflexivity.
  destruct (handle_events undef_zero gesture_drag _) as [[[d' p'] calls]|] eqn:E;
    [|discriminate H].
  exists d', p', calls. split; [reflexivity|].
  split; [cbn in H; congruence|].
  apply (scope_invariant_kept undef_zero gesture_drag
           (state_gui_init DT_LIB_HISTOGRAM_SCOPE_HISTOGRAM) d' pointer_init p' calls).
  - split; [repeat split; discriminate | intros Hd; discriminate Hd].
  - exact E.
Defined.

Lemma no_exposure_call_without_hooks_witness :
  exists d' p' calls,
    handle_events undef_zero gesture_no_hooks
      (state_gui_init DT_LIB_HISTOGRAM_SCOPE_HISTOGRAM, pointer_init)
    = Some (d', p', calls)
    /\ calls = [] /\ pointer_idle d'.
Proof.
  assert (H : option_map (fun _ => true)
                (handle_events undef_zero gesture_no_hooks
                   (state_gui_init DT_LIB_HISTOGRAM_SCOPE_HISTOGRAM, pointer_init))
              = Some true) by reflexivity.
  destruct (handle_events undef_zero gesture_no_hooks _) as [[[d' p'] calls]|] eqn:E;
    [|discriminate H].
  exists d', p', calls. split; [reflexivity|].
  apply (no_exposure_call_without_hooks undef_zero gesture_no_hooks
           (state_gui_init DT_LIB_HISTOGRAM_SCOPE_HISTOGRAM) d' pointer_init p' calls).
  - unfold gesture_no_hooks. repeat (apply List.Forall_cons; [reflexivity|]).
    apply List.Forall_nil.
  - split; reflexivity.
  - exact E.
Defined.

Lemma vectorscope_not_draggable_witness :
  exists d1,
    _drawable_motion_notify_callback (Some DT_VIEW_DARKROOM) true 300 175
      (F64.of_Z 150) (F64.of_Z 50)
      (set_highlight DT_LIB_HISTOGRAM_HIGHLIGHT_EXPOSURE
         (state_gui_init DT_LIB_HISTOGRAM_SCOPE_VECTORSCOPE)) pointer_init
    = Some (d1, [])
    /\ pointer_idle d1
    /\ (forall is_2button x' y' exposure black,
          _drawable_button_press_callback undef_zero is_2button x' y' exposure black
            d1 pointer_init = (d1, pointer_init, []))
    /\ (forall ctrl delta_y exposure black,
          _drawable_scroll_callback ctrl delta_y exposure black d1 = []).
Proof.
  apply (vectorscope_not_draggable undef_zero DT_VIEW_DARKROOM true 300 175
           (F64.of_Z 150) (F64.of_Z 50)
           (set_highlight DT_LIB_HISTOGRAM_HIGHLIGHT_EXPOSURE
              (state_gui_init DT_LIB_HISTOGRAM_SCOPE_VECTORSCOPE)) pointer_init);
    reflexivity.
Defined.

(** ** What the draw callback paints *)

(** X12. A mode switch that ends on the vectorscope blanks it: whichever
    button or shortcut was used, in a view, the draw callback paints no
    vectorscope afterwards, until the next process call computes a
    graticule. *)
Theorem draw_after_switch_to_vectorscope (s : mode_switch) (v : dt_view_type_flags_t)
    (tethering image_is_preview : bool) (d d' : dt_lib_histogram_t) :
  run_mode_switch s (Some v) d = Some d' ->
  scope_type d' = DT_LIB_HISTOGRAM_SCOPE_VECTORSCOPE ->
  _drawable_draw_callback (Some tethering) image_is_preview d' = Some PaintNothing.
Proof.
  intros H Hs. pose proof (run_mode_switch_blanks _ _ _ _ H Hs) as Hn.
  unfold _drawable_draw_callback. rewrite Hs, Hn.
  destruct (tethering || image_is_preview); reflexivity.
Qed.

Lemma draw_after_switch_to_vectorscope_witness :
  exists d',
    run_mode_switch ShortcutChangeMode (Some DT_VIEW_DARKROOM)
      (set_scope_type DT_LIB_HISTOGRAM_SCOPE_WAVEFORM state_vectorscope_shown) = Some d'
    /\ _drawable_draw_callback (Some false) true d' = Some PaintNothing.
Proof.
  eexists. split; [reflexivity|].
  apply (draw_after_switch_to_vectorscope ShortcutChangeMode DT_VIEW_DARKROOM false true
           (set_scope_type DT_LIB_HISTOGRAM_SCOPE_WAVEFORM state_vectorscope_shown));
    reflexivity.
Defined.

(** X13. After the clear call ([dt_lib_histogram_process] without input)
    the draw callback paints neither waveform nor vectorscope, whatever the
    buffers still hold. *)
Theorem draw_after_clear (undef : float -> Z) (profile : Type)
    (cm : color_math float profile) (hypotf powf : float -> float -> float)
    (host : host_t profile) (d : dt_lib_histogram_t) (width height : Z)
    (in_profile_is_none tethering image_is_preview : bool) :
  scope_type d = DT_LIB_HISTOGRAM_SCOPE_WAVEFORM
  \/ scope_type d = DT_LIB_HISTOGRAM_SCOPE_VECTORSCOPE ->
  exists d',
    dt_lib_histogram_process undef profile cm hypotf powf host d None width height
      in_profile_is_none = Some d'
    /\ _drawable_draw_callback (Some tethering) image_is_preview d' = Some PaintNothing.
Proof.
  intros Hs. eexists. split; [reflexivity|].
  unfold _drawable_draw_callback, process_clear.
  cbn [scope_type waveform_width vectorscope_graticule set_vectorscope_graticule
       set_waveform_width set_histogram].
  destruct Hs as [-> | ->]; destruct (tethering || image_is_preview); reflexivity.
Qed.

Lemma draw_after_clear_witness :
  exists d',
    dt_lib_histogram_process undef_zero unit cm_identity hypotf_naive powf_id
      (host_plain (Some tt)) state_vectorscope_shown None 4 4 false = Some d'
    /\ _drawable_draw_callback (Some true) false d' = Some PaintNothing.
Proof.
  apply (draw_after_clear undef_zero unit cm_identity hypotf_naive powf_id
           (host_plain (Some tt)) state_vectorscope_shown 4 4 false true false).
  right. reflexivity.
Defined.

(** X14. Straight after [gui_init] the draw callback paints nothing, in
    whichever scope the configuration selected. *)
Theorem draw_after_gui_init (conf : gui_conf) (cv : option dt_view_type_flags_t)
    (mipmap_max_width alpha_stride : Z) (wf_linear wf_display : list float)
    (wf_8bit vs_alpha : list Z) (tethering image_is_preview : bool) :
  exists d,
    gui_init conf cv mipmap_max_width alpha_stride wf_linear wf_display wf_8bit vs_alpha
    = Some d
    /\ _drawable_draw_callback (Some tethering) image_is_preview d = Some PaintNothing.
Proof.
  destruct (gui_init_state conf cv mipmap_max_width alpha_stride wf_linear
              wf_display wf_8bit vs_alpha) as (d & E & (Hs & _) & _ & Hm & Hw & Hn).
  exists d. split; [exact E|].
  unfold _drawable_draw_callback, _lib_histogram_draw_histogram.
  rewrite Hm, Hw, Hn.
  destruct (scope_type d); try congruence;
    destruct (tethering || image_is_preview); reflexivity.
Qed.

(** ** What a process call changes *)

Lemma process_histogram_settings (d : dt_lib_histogram_t) (input : list float)
    (roi : dt_histogram_roi_t) :
  let d' := _lib_histogram_process_histogram d input roi in
  settings_kept d d' /\ waveform_data d' = waveform_data d
  /\ vectorscope_data d' = vectorscope_data d.
Proof. repeat split. Qed.

Lemma process_waveform_settings (undef : float -> Z) (d : dt_lib_histogram_t)
    (input : list float) (roi : dt_histogram_roi_t) :
  let d' := _lib_histogram_process_waveform undef d input roi in
  settings_kept d d' /\ histogram_data d' = histogram_data d
  /\ vectorscope_data d' = vectorscope_data d.
Proof. repeat split. Qed.

Lemma process_vectorscope_settings (undef : float -> Z) (profile : Type)
    (cm : color_math float profile) (hypotf powf : float -> float -> float)
    (prof : option profile) (d : dt_lib_histogram_t) (input : list float)
    (width height : Z) :
  let d' := _lib_histogram_process_vectorscope undef profile cm hypotf powf prof d input
              width height in
  settings_kept d d' /\ histogram_data d' = histogram_data d
  /\ waveform_data d' = waveform_data d.
Proof.
  unfold _lib_histogram_process_vectorscope. destruct prof as [prof|].
  - destruct (vectorscope_graticule_pass _ _ _ _ _) as [max_diam g]. repeat split.
  - repeat split.
Qed.

Lemma settings_kept_refl (d : dt_lib_histogram_t) : settings_kept d d.
Proof. repeat split. Qed.

Lemma process_dispatch_frame (undef : float -> Z) (profile : Type)
    (cm : color_math float profile) (hypotf powf : float -> float -> float)
    (host : host_t profile) (d d' : dt_lib_histogram_t) (buf : list float)
    (roi : dt_histogram_roi_t) (width height : Z) :
  process_dispatch undef profile cm hypotf powf host d buf roi width height = Some d' ->
  settings_kept d d'
  /\ (scope_type d <> DT_LIB_HISTOGRAM_SCOPE_HISTOGRAM ->
      histogram_data d' = histogram_data d)
  /\ (scope_type d <> DT_LIB_HISTOGRAM_SCOPE_WAVEFORM ->
      waveform_data d' = waveform_data d)
  /\ (scope_type d <> DT_LIB_HISTOGRAM_SCOPE_VECTORSCOPE ->
      vectorscope_data d' = vectorscope_data d).
Proof.
  unfold process_dispatch. destruct (scope_type d) eqn:E; intros H; inversion H; subst.
  - destruct (process_histogram_settings d buf roi) as (H1 & H2 & H3).
    split; [exact H1|]. split; [congruence|]. split; intros _; assumption.
  - destruct (process_waveform_settings undef d buf roi) as (H1 & H2 & H3).
    split; [exact H1|]. split; [intros _; assumption|].
    split; [congruence | intros _; assumption].
  - destruct (process_vectorscope_settings undef profile cm hypotf powf
                (dt_ioppr_get_histogram_profile_info host) d buf width height)
      as (H1 & H2 & H3).
    split; [exact H1|]. split; [intros _; assumption|].
    split; [intros _; assumption | congruence].
Qed.

(** X15. A process call with image data writes the data of the scope on
    display and nothing else: settings (pointer state, modes, toggles, buffer
    geometry) are kept, and so are the data of the two scopes not shown. It
    returns whenever the scope type is proper. *)
Theorem process_frame (undef : float -> Z) (profile : Type)
    (cm : color_math float profile) (hypotf powf : float -> float -> float)
    (host : host_t profile) (d : dt_lib_histogram_t) (input : list float)
    (width height : Z) (in_profile_is_none : bool) :
  scope_type d <> DT_LIB_HISTOGRAM_SCOPE_N ->
  exists d',
    dt_lib_histogram_process undef profile cm hypotf powf host d (Some input)
      width height in_profile_is_none = Some d'
    /\ settings_kept d d'
    /\ (scope_type d <> DT_LIB_HISTOGRAM_SCOPE_HISTOGRAM ->
        histogram_data d' = histogram_data d)
    /\ (scope_type d <> DT_LIB_HISTOGRAM_SCOPE_WAVEFORM ->
        waveform_data d' = waveform_data d)
    /\ (scope_type d <> DT_LIB_HISTOGRAM_SCOPE_VECTORSCOPE ->
        vectorscope_data d' = vectorscope_data d).
Proof.
  intros Hs.
  assert (Hd : forall buf roi, exists d',
             process_dispatch undef profile cm hypotf powf host d buf roi width height
             = Some d').
  { intros buf roi. unfold process_dispatch.
    destruct (scope_type d); try congruence; eexists; reflexivity. }
  unfold dt_lib_histogram_process.
  destruct (negb in_profile_is_none && negb (out_profile_is_none host)).
  - destruct (img_display_alloc_fails host).
    + exists d. split; [reflexivity|]. split; [apply settings_kept_refl|].
      repeat split.
    + destruct (Hd (dt_ioppr_transform_image_colorspace_rgb host input width height)
                  (process_roi undef profile host width height)) as [d' E].
      exists d'. split; [exact E|]. eapply process_dispatch_frame; exact E.
  - destruct (Hd input (process_roi undef profile host width height)) as [d' E].
    exists d'. split; [exact E|]. eapply process_dispatch_frame; exact E.
Qed.

Lemma process_frame_witness :
  exists d',
    dt_lib_histogram_process undef_zero unit cm_identity hypotf_naive powf_id
      (host_plain (Some tt)) (state_gui_init DT_LIB_HISTOGRAM_SCOPE_HISTOGRAM)
      (Some image_red_4x4) 4 4 true = Some d'
    /\ settings_kept (state_gui_init DT_LIB_HISTOGRAM_SCOPE_HISTOGRAM) d'
    /\ waveform_data d' = waveform_data (state_gui_init DT_LIB_HISTOGRAM_SCOPE_HISTOGRAM)
    /\ vectorscope_data d'
       = vectorscope_data (state_gui_init DT_LIB_HISTOGRAM_SCOPE_HISTOGRAM).
Proof.
  destruct (process_frame undef_zero unit cm_identity hypotf_naive powf_id
              (host_plain (Some tt)) (state_gui_init DT_LIB_HISTOGRAM_SCOPE_HISTOGRAM)
              image_red_4x4 4 4 true) as (d' & E & H1 & _ & H3 & H4).
  - discriminate.
  - exists d'. split; [exact E|]. split; [exact H1|].
    split; [apply H3 | apply H4]; discriminate.
Defined.

(** X16. When the display buffer cannot be allocated the process call gives
    up without a trace: the state is what it was, in every mode, the [_N]
    count included. *)
Theorem process_alloc_failure (undef : float -> Z) (profile : Type)
    (cm : color_math float profile) (hypotf powf : float -> float -> float)
    (host : host_t profile) (d : dt_lib_histogram_t) (input : list float)
    (width height : Z) :
  out_profile_is_none host = false ->
  img_display_alloc_fails host = true ->
  dt_lib_histogram_process undef profile cm hypotf powf host d (Some input)
    width height false = Some d.
Proof.
  intros H1 H2. unfold dt_lib_histogram_process. rewrite H1, H2. reflexivity.
Qed.

Lemma process_alloc_failure_witness :
  dt_lib_histogram_process undef_zero unit cm_identity hypotf_naive powf_id
    host_alloc_fails state_after_red (Some image_red_4x4) 4 4 false
  = Some state_after_red.
Proof.
  apply (process_alloc_failure undef_zero unit cm_identity hypotf_naive powf_id
           host_alloc_fails state_after_red image_red_4x4 4 4); reflexivity.
Defined.

(** ** The waveform columns *)

Lemma waveform_cell_inj (wf_width rows : Z) (x y k x' y' k' : Z) :
  4 * wf_width * rows <= SIZE_MAX1 ->
  0 <= x < wf_width -> 0 <= x' < wf_width ->
  0 <= y < rows -> 0 <= y' < rows ->
  0 <= k < 4 -> 0 <= k' < 4 ->
  waveform_cell wf_width x y k = waveform_cell wf_width x' y' k' ->
  x = x' /\ y = y' /\ k = k'.
Proof.
  intros Hw Hx Hx' Hy Hy' Hk Hk'. unfold waveform_cell.
  assert (B : forall a b c, 0 <= a < wf_width -> 0 <= b < rows -> 0 <= c < 4 ->
              0 <= wf_width * b /\ wf_width * b + a < wf_width * rows
              /\ 4 * (wf_width * b + a) + c < 4 * wf_width * rows).
  { intros a b c Ha Hb Hc.
    assert (wf_width * b <= wf_width * (rows - 1)) by (apply Z.mul_le_mono_nonneg_l; lia).
    assert (0 <= wf_width * b) by (apply Z.mul_nonneg_nonneg; lia).
    lia. }
  assert (Hr : 0 <= wf_width * rows) by (apply Z.mul_nonneg_nonneg; lia).
  destruct (B x y k Hx Hy Hk) as (B1 & B2 & B3).
  destruct (B x' y' k' Hx' Hy' Hk') as (B1' & B2' & B3').
  rewrite (to_size_t_small (wf_width * y)), (to_size_t_small (wf_width * y')) by lia.
  rewrite (to_size_t_small (wf_width * y + x)),
          (to_size_t_small (wf_width * y' + x')) by lia.
  rewrite !to_size_t_small by lia.
  intros E.
  assert (E1 : wf_width * y + x = wf_width * y' + x' /\ k = k') by lia.
  destruct E1 as [E1 ->].
  assert (E2 : y = y').
  { destruct (Z.lt_trichotomy y y') as [L | [L | L]]; [exfalso | exact L | exfalso].
    - assert (wf_width * (y + 1) <= wf_width * y') by (apply Z.mul_le_mono_nonneg_l; lia).
      lia.
    - assert (wf_width * (y' + 1) <= wf_width * y) by (apply Z.mul_le_mono_nonneg_l; lia).
      lia. }
  subst y'. repeat split; lia.
Qed.

(** X17. The cells of the waveform buffer are addressed one to one: inside
    a buffer of [wf_width] columns and [rows] rows that the index arithmetic
    does not wrap on, writes from different columns, rows or channels go to
    different floats. The iterations of the parallel loop over [out_x]
    therefore write disjoint cells. *)
Theorem waveform_cells_disjoint (wf_width rows : Z) (x y k x' y' k' : Z) :
  4 * wf_width * rows <= SIZE_MAX1 ->
  0 <= x < wf_width -> 0 <= x' < wf_width ->
  0 <= y < rows -> 0 <= y' < rows ->
  0 <= k < 4 -> 0 <= k' < 4 ->
  (x, y, k) <> (x', y', k') ->
  waveform_cell wf_width x y k <> waveform_cell wf_width x' y' k'.
Proof.
  intros Hw Hx Hx' Hy Hy' Hk Hk' Hne E. apply Hne.
  destruct (waveform_cell_inj wf_width rows x y k x' y' k' Hw Hx Hx' Hy Hy' Hk Hk' E)
    as (-> & -> & ->).
  reflexivity.
Qed.

Lemma waveform_cells_disjoint_witness :
  waveform_cell 360 358 174 2 <> waveform_cell 360 359 0 0.
Proof.
  apply (waveform_cells_disjoint 360 175 358 174 2 359 0 0);
    unfold SIZE_MAX1; try lia.
  intros H. discriminate H.
Defined.

Lemma seqZ_nil_le (m n : Z) : n <= 0 -> seqZ m n = [].
Proof. intros H. apply seqZ_nil. exact H. Qed.

(** X18. A region of interest without a column (the right crop meets the
    left one, as for a point sample on a pixel boundary) still gets a waveform
    of width 1, but no pixel is read: the buffer is only cleared. *)
Theorem waveform_empty_region (undef : float -> Z) (d : dt_lib_histogram_t)
    (input : list float) (roi : dt_histogram_roi_t) :
  1 <= waveform_max_width d < 2 ^ 24 ->
  0 <= crop_x roi < INT_MAX1 ->
  0 <= width roi - crop_width roi <= crop_x roi ->
  let d' := _lib_histogram_process_waveform undef d input roi in
  waveform_width d' = 1
  /\ waveform_linear d'
     = dt_iop_image_fill (waveform_linear d) F32.zero 1 (to_size_t (waveform_height d)) 4.
Proof.
  intros Hmw Hcx Hw.
  assert (Hs : waveform_sample_width roi = 1).
  { unfold waveform_sample_width. rewrite MAX_spec. lia. }
  assert (Hb : waveform_bin_width undef d roi = 1).
  { unfold waveform_bin_width. rewrite Hs, ceilf_div_exact by lia.
    replace (1 + waveform_max_width d - 1) with (waveform_max_width d) by lia.
    apply Z.div_same. lia. }
  assert (Hwf : waveform_wf_width undef d roi = 1).
  { unfold waveform_wf_width. rewrite Hs, Hb, ceilf_div_exact by lia. reflexivity. }
  cbn zeta. unfold _lib_histogram_process_waveform.
  cbn [waveform_width waveform_linear set_waveform_width set_waveform_linear].
  rewrite Hwf, Hb. split; [reflexivity|].
  change (seqZ 0 1) with [0]. cbn [foldl].
  assert (Hx : to_size_t (0 * 1 + to_size_t (crop_x roi)) = crop_x roi).
  { unfold INT_MAX1 in Hcx. unfold to_size_t, SIZE_MAX1.
    rewrite (Z.mod_small (crop_x roi)) by lia. rewrite Z.mod_small by lia. lia. }
  rewrite Hx.
  rewrite (seqZ_nil_le (crop_x roi)); [reflexivity|].
  rewrite (to_size_t_small (width roi - crop_width roi))
    by (unfold SIZE_MAX1, INT_MAX1 in *; lia).
  pose proof (MIN_le_r (to_size_t (crop_x roi + 1)) (width roi - crop_width roi)).
  lia.
Qed.

Lemma waveform_empty_region_witness :
  let d := state_gui_init DT_LIB_HISTOGRAM_SCOPE_WAVEFORM in
  let roi := process_roi undef_zero unit (host_point_centre None) 4 4 in
  let d' := _lib_histogram_process_waveform undef_zero d image_red_4x4 roi in
  width roi - crop_width roi - crop_x roi = 0
  /\ waveform_width d' = 1
  /\ waveform_linear d'
     = dt_iop_image_fill (waveform_linear d) F32.zero 1 (to_size_t (waveform_height d)) 4.
Proof.
  intros d roi d'.
  assert (E : roi = {| width := 4; height := 4; crop_x := 2; crop_y := 2;
                       crop_width := 2; crop_height := 2 |})
    by (vm_compute; reflexivity).
  split; [rewrite E; reflexivity|].
  apply (waveform_empty_region undef_zero d image_red_4x4 roi).
  - cbn. lia.
  - rewrite E. cbn. unfold INT_MAX1. lia.
  - rewrite E. cbn. lia.
Defined.

(** ** The vectorscope bins *)

Lemma vectorscope_in_grid_index (vs_diameter out_x out_y : Z) :
  vectorscope_in_grid vs_diameter out_x out_y = true ->
  0 <= out_x < vs_diameter - 1 /\ 0 <= out_y < vs_diameter
  /\ 0 <= out_y * vs_diameter + out_x < vs_diameter * vs_diameter.
Proof.
  unfold vectorscope_in_grid. rewrite !andb_true_iff.
  rewrite !Z.leb_le, !Z.ltb_lt. intros [[[H1 H2] H3] H4].
  assert (out_y * vs_diameter <= (vs_diameter - 1) * vs_diameter)
    by (apply Z.mul_le_mono_nonneg_r; lia).
  assert (0 <= out_y * vs_diameter) by (apply Z.mul_nonneg_nonneg; lia).
  lia.
Qed.

(** X19. One pixel of the vectorscope count either is dropped or adds the
    scale to exactly one bin of the [vs_diameter x vs_diameter] grid, in
    columns [0 .. vs_diameter - 2]: whatever the pixel holds (NaN and
    infinities included) and whatever an undefined conversion yields, no
    write leaves the grid. *)
Theorem vectorscope_count_in_grid (undef : float -> Z) (profile : Type)
    (cm : color_math float profile) (prof : profile)
    (vs_type : dt_lib_histogram_vectorscope_type_t) (vs_diameter : Z)
    (max_diam scale : float) (input binned : list float) (k : Z) :
  length binned = Z.to_nat (vs_diameter * vs_diameter) ->
  let binned' := vectorscope_count_pixel undef profile cm prof vs_type vs_diameter
                   max_diam scale input binned k in
  binned' = binned
  \/ exists out_x out_y old,
       0 <= out_x < vs_diameter - 1 /\ 0 <= out_y < vs_diameter
       /\ binned !! Z.to_nat (out_y * vs_diameter + out_x) = Some old
       /\ binned' = <[Z.to_nat (out_y * vs_diameter + out_x) := F32.add old scale]> binned.
Proof.
  intros Hlen. cbn zeta. unfold vectorscope_count_pixel.
  destruct (vectorscope_in_grid _ _ _) eqn:E; [|left; reflexivity].
  apply vectorscope_in_grid_index in E as (Hx & Hy & Hi).
  right.
  match goal with |- context [buf_add _ (?y * _ + ?x) _] =>
    set (out_x := x) in *; set (out_y := y) in * end.
  destruct (lookup_lt_is_Some_2 binned (Z.to_nat (out_y * vs_diameter + out_x)))
    as [old Ho]; [rewrite Hlen; lia|].
  exists out_x, out_y, old. split; [exact Hx|]. split; [exact Hy|].
  split; [exact Ho|]. unfold buf_add.
  destruct (Z.ltb_spec (out_y * vs_diameter + out_x) 0); [lia|].
  rewrite Ho. reflexivity.
Qed.

Lemma vectorscope_count_in_grid_witness :
  let binned := replicate (Z.to_nat (256 * 256)) F32.zero in
  let binned' := vectorscope_count_pixel undef_zero unit cm_identity tt
                   DT_LIB_HISTOGRAM_VECTORSCOPE_CIELUV 256 F32.one F32.one
                   [F32.zero; F32.zero; F32.zero; F32.one] binned 0 in
  binned' = binned
  \/ exists out_x out_y old,
       0 <= out_x < 256 - 1 /\ 0 <= out_y < 256
       /\ binned !! Z.to_nat (out_y * 256 + out_x) = Some old
       /\ binned' = <[Z.to_nat (out_y * 256 + out_x) := F32.add old F32.one]> binned.
Proof.
  apply (vectorscope_count_in_grid undef_zero unit cm_identity tt
           DT_LIB_HISTOGRAM_VECTORSCOPE_CIELUV 256 F32.one F32.one
           [F32.zero; F32.zero; F32.zero; F32.one]
           (replicate (Z.to_nat (256 * 256)) F32.zero) 0).
  apply length_replicate.
Defined.

(** ** Drawing what was processed *)

Lemma process_waveform_width_range (undef : float -> Z) (d : dt_lib_histogram_t)
    (input : list float) (roi : dt_histogram_roi_t) :
  1 <= waveform_max_width d < 2 ^ 24 ->
  width roi - crop_width roi - crop_x roi < 2 ^ 24 ->
  1 <= waveform_width (_lib_histogram_process_waveform undef d input roi)
    <= waveform_max_width d.
Proof.
  intros Hmw Hsw.
  set (sample_width := waveform_sample_width roi).
  assert (Hs1 : 1 <= sample_width < 2 ^ 24).
  { unfold sample_width, waveform_sample_width. rewrite MAX_spec. lia. }
  assert (Hb : waveform_bin_width undef d roi
               = ceil_div sample_width (waveform_max_width d)).
  { apply ceilf_div_exact; assumption. }
  pose proof (ceil_div_pos sample_width (waveform_max_width d) ltac:(lia) ltac:(lia))
    as Hb1. rewrite <- Hb in Hb1.
  assert (Hw : waveform_wf_width undef d roi
               = ceil_div sample_width (waveform_bin_width undef d roi)).
  { apply ceilf_div_exact; [assumption | lia]. }
  pose proof (ceil_div_pos sample_width (waveform_bin_width undef d roi)
                ltac:(lia) ltac:(lia)) as Hw1.
  change (waveform_width (_lib_histogram_process_waveform undef d input roi))
    with (to_int (waveform_wf_width undef d roi)).
  rewrite Hw, to_int_small by (unfold INT_MIN, INT_MAX1; lia).
  split; [lia|]. rewrite Hb. apply ceil_div_ceil_div_le; lia.
Qed.

(** X20. What the waveform binner leaves is drawn: after a process call in
    waveform mode, on a region whose width binary32 holds exactly, the draw
    callback passes the [waveform_width] gate (so the scale factors it
    divides by [waveform_width] exist) and paints the overlaid channels the
    toggles select, or the parade of all three whatever the toggles say. *)
Theorem draw_after_waveform_process (undef : float -> Z) (d : dt_lib_histogram_t)
    (input : list float) (roi : dt_histogram_roi_t) (tethering image_is_preview : bool) :
  scope_type d = DT_LIB_HISTOGRAM_SCOPE_WAVEFORM ->
  1 <= waveform_max_width d < 2 ^ 24 ->
  width roi - crop_width roi - crop_x roi < 2 ^ 24 ->
  tethering || image_is_preview = true ->
  let d' := _lib_histogram_process_waveform undef d input roi in
  waveform_width d' <> 0
  /\ _drawable_draw_callback (Some tethering) image_is_preview d'
     = Some match waveform_type d with
            | DT_LIB_HISTOGRAM_WAVEFORM_OVERLAID =>
                _lib_histogram_draw_waveform [red d; green d; blue d]
            | _ => _lib_histogram_draw_rgb_parade
            end.
Proof.
  intros Hs Hmw Hsw Ht d'.
  pose proof (process_waveform_width_range undef d input roi Hmw Hsw) as Hw.
  fold d' in Hw. split; [lia|].
  unfold _drawable_draw_callback.
  change (scope_type d') with (scope_type d).
  change (waveform_type d') with (waveform_type d).
  change (red d') with (red d). change (green d') with (green d).
  change (blue d') with (blue d).
  rewrite Hs, Ht.
  destruct (Z.eqb_spec (waveform_width d') 0) as [E|_]; [lia|].
  destruct (waveform_type d); reflexivity.
Qed.

Lemma draw_after_waveform_process_witness :
  let d := state_gui_init DT_LIB_HISTOGRAM_SCOPE_WAVEFORM in
  let roi := {| width := 1440; height := 900; crop_x := 0; crop_y := 0;
                crop_width := 0; crop_height := 0 |} in
  let d' := _lib_histogram_process_waveform undef_zero d [] roi in
  waveform_width d' <> 0
  /\ _drawable_draw_callback (Some false) true d'
     = Some (PaintWaveformChannels [0; 1; 2]).
Proof.
  apply (draw_after_waveform_process undef_zero
           (state_gui_init DT_LIB_HISTOGRAM_SCOPE_WAVEFORM) []
           {| width := 1440; height := 900; crop_x := 0; crop_y := 0;
              crop_width := 0; crop_height := 0 |} false true);
    first [reflexivity | cbn; lia].
Defined.

(** X21. A pointer motion over the panel runs [_scope_type_update]: with
    the histogram or the waveform on display that changes nothing, but with
    the vectorscope on display, in a view, it marks the graticule empty, and
    the draw callback paints no vectorscope until the next process call. *)
Theorem eventbox_motion_blanks_vectorscope (v : dt_view_type_flags_t)
    (tethering image_is_preview : bool) (d : dt_lib_histogram_t) :
  modes_proper d ->
  exists d',
    _eventbox_motion_notify_callback (Some v) d = Some d'
    /\ (scope_type d <> DT_LIB_HISTOGRAM_SCOPE_VECTORSCOPE -> d' = d)
    /\ (scope_type d = DT_LIB_HISTOGRAM_SCOPE_VECTORSCOPE ->
        _drawable_draw_callback (Some tethering) image_is_preview d'
        = Some PaintNothing).
Proof.
  unfold modes_proper, _eventbox_motion_notify_callback. intros (H1 & H2 & H3 & H4).
  destruct (_scope_type_update (Some v) d) as [d'|] eqn:E.
  - exists d'. split; [reflexivity|].
    pose proof (scope_type_update_blanks v d d' E) as [Es Hn]. split.
    + intros Hs. unfold _scope_type_update in E. destruct (scope_type d); try congruence.
      * apply histogram_scale_update_id in E. exact E.
      * apply waveform_view_update_id in E. exact E.
    + intros Hs. unfold _drawable_draw_callback. rewrite Es, Hs, (Hn Hs).
      destruct (tethering || image_is_preview); reflexivity.
  - exfalso. unfold _scope_type_update, _histogram_scale_update, _waveform_view_update,
      _vectorscope_view_update in E.
    destruct (scope_type d); try congruence;
      [destruct (histogram_scale d) | destruct (waveform_type d)
       | destruct (vectorscope_type d)]; congruence.
Qed.

Lemma eventbox_motion_blanks_vectorscope_witness :
  _drawable_draw_callback (Some false) true state_vectorscope_shown
  = Some PaintVectorscope
  /\ exists d',
       _eventbox_motion_notify_callback (Some DT_VIEW_DARKROOM) state_vectorscope_shown
       = Some d'
       /\ _drawable_draw_callback (Some false) true d' = Some PaintNothing.
Proof.
  split; [reflexivity|].
  destruct (eventbox_motion_blanks_vectorscope DT_VIEW_DARKROOM false true
              state_vectorscope_shown) as (d' & E & _ & H).
  - repeat split; discriminate.
  - exists d'. split; [exact E | apply H; reflexivity].
Defined.

(** ** Clamped conversions *)

(** A binary32 mantissa has at most 24 digits. *)
Lemma bounded_mantissa (m : positive) (e : Z) :
  bounded F32.prec F32.emax m e = true -> Zpos m < 2 ^ 24.
Proof.
  unfold bounded, canonical_mantissa, fexp, emin, F32.prec, F32.emax.
  rewrite andb_true_iff, Z.eqb_eq. intros [H _].
  pose proof (digits2_pos_bounds m) as [_ Hm].
  assert (Hd : Zpos (digits2_pos m) <= 24) by lia.
  eapply Z.lt_le_trans; [exact Hm|]. apply Z.pow_le_mono_r; lia.
Qed.

(** A positive binary32 number that is not above the integer [n] has an
    integral part in [0, n]. *)
Lemma trunc_not_above (n : Z) (m : positive) (e : Z) :
  1 <= n < 2 ^ 24 ->
  bounded F32.prec F32.emax m e = true ->
  SFltb (F32.of_Z n) (S754_finite false m e) = false ->
  0 <= Z.shiftl (Zpos m) e <= n.
Proof.
  intros Hn Hb Hlt. split; [apply Z.shiftl_nonneg; lia|].
  pose proof (bounded_mantissa m e Hb) as Hm.
  destruct (of_Z_normal n Hn) as (mn & en & E & Hen & Hmn & Bmn).
  rewrite E in Hlt. unfold SFltb, SFcompare in Hlt.
  destruct (Z.compare_spec en e) as [Ee | Ee | Ee]; [| discriminate |].
  - subst e. change (PosDef.Pos.compare_cont Eq mn m) with (Pos.compare mn m) in Hlt.
    destruct (Pos.compare_spec mn m) as [Em | Em | Em]; [| discriminate |].
    + subst m. rewrite Z.shiftl_div_pow2 by lia. rewrite Hmn.
      rewrite Z.div_mul by (apply Z.pow_nonzero; lia). lia.
    + rewrite Z.shiftl_div_pow2 by lia.
      assert (Hp : 0 < 2 ^ (- en)) by (apply Z.pow_pos_nonneg; lia).
      apply Z.div_le_upper_bound; [exact Hp|].
      rewrite Z.mul_comm, <- Hmn. lia.
  - rewrite Z.shiftl_div_pow2 by lia.
    assert (Hp : 0 < 2 ^ (- en)) by (apply Z.pow_pos_nonneg; lia).
    assert (Hq : 2 <= 2 ^ (en - e)).
    { change 2 with (2 ^ 1) at 1. apply Z.pow_le_mono_r; lia. }
    assert (Hs : 2 ^ (- e) = 2 ^ (- en) * 2 ^ (en - e)).
    { rewrite <- Z.pow_add_r by lia. f_equal. lia. }
    assert (Hk : 0 < 2 ^ (- e)) by (apply Z.pow_pos_nonneg; lia).
    apply Z.lt_le_incl. apply Z.div_lt_upper_bound; [exact Hk|].
    replace (2 ^ (- e) * n) with (Zpos mn * 2 ^ (en - e)) by (rewrite Hs, Hmn; ring).
    assert (Zpos mn * 2 <= Zpos mn * 2 ^ (en - e))
      by (apply Z.mul_le_mono_nonneg_l; lia).
    change (2 ^ 24) with 16777216 in *. change (2 ^ 23) with 8388608 in *. lia.
Qed.

(** The [CLAMP] of line 397 and the conversion to [uint8_t]: for every
    binary32 number other than NaN the result is the integral part of the
    clamped value, in [0, 255], whatever an undefined conversion yields. *)
Lemma clamp_byte_defined (undef : float -> Z) (x : float) :
  is_number x ->
  exists z,
    0 <= z <= 255
    /\ F32.trunc (CLAMPf x (F32.of_Z 0) (F32.of_Z 255)) = Some z
    /\ float_to_uint8 undef (CLAMPf x (F32.of_Z 0) (F32.of_Z 255)) = z.
Proof.
  intros [Hv Hn].
  assert (K : forall y z, F32.trunc y = Some z -> 0 <= z <= 255 ->
              exists z, 0 <= z <= 255 /\ F32.trunc y = Some z
                        /\ float_to_uint8 undef y = z).
  { intros y z Hy Hz. exists z. split; [exact Hz|]. split; [exact Hy|].
    unfold float_to_uint8. rewrite Hy.
    destruct (Z.leb_spec 0 z), (Z.ltb_spec z 256); cbn; lia. }
  unfold CLAMPf, F32.gt, F32.lt.
  destruct x as [s | s | | s m e]; try discriminate Hn.
  - destruct s; apply (K _ 0); cbn; (reflexivity || lia).
  - destruct s; [apply (K _ 0) | apply (K _ 255)]; first [reflexivity | cbn; lia].
  - destruct s.
    + apply (K _ 0); [reflexivity | lia].
    + destruct (SFltb (F32.of_Z 255) (S754_finite false m e)) eqn:E.
      * apply (K _ 255); [reflexivity | lia].
      * change (SFltb (S754_finite false m e) (F32.of_Z 0)) with false. cbv iota.
        apply (K _ (Z.shiftl (Zpos m) e)); [reflexivity|].
        apply trunc_not_above; [lia | exact Hv | exact E].
Qed.

Lemma foldl_invariant {A B : Type} (P : A -> Prop) (f : A -> B -> A) (l : list B) (a : A) :
  (forall a x, x ∈ l -> P a -> P (f a x)) -> P a -> P (foldl f a l).
Proof.
  revert a. induction l as [|x l IH]; intros a Hf Ha; [exact Ha|].
  cbn. apply IH.
  - intros a' y Hy. apply Hf. apply list_elem_of_further, Hy.
  - apply Hf; [apply list_elem_of_here | exact Ha].
Qed.

Lemma foldl_ext_in {A B : Type} (f g : A -> B -> A) (l : list B) (a : A) :
  (forall a x, x ∈ l -> f a x = g a x) -> foldl f a l = foldl g a l.
Proof.
  revert a. induction l as [|x l IH]; intros a Hf; [reflexivity|].
  cbn. rewrite (Hf a x) by apply list_elem_of_here.
  apply IH. intros a' y Hy. apply Hf. apply list_elem_of_further, Hy.
Qed.

(** The density bin the quantization reads for a cell of the grid. *)
Lemma quantize_reads_bin (vs_diameter : Z) (binned : list float) (out_x out_y : Z) :
  0 <= vs_diameter < INT_MAX1 ->
  length binned = Z.to_nat (vs_diameter * vs_diameter) ->
  0 <= out_x < vs_diameter -> 0 <= out_y < vs_diameter ->
  buf_read binned (to_size_t (out_y * vs_diameter + out_x)) ∈ binned.
Proof.
  intros Hd Hlen Hx Hy. unfold INT_MAX1 in Hd.
  assert (H1 : out_y * vs_diameter <= (vs_diameter - 1) * vs_diameter)
    by (apply Z.mul_le_mono_nonneg_r; lia).
  assert (H2 : 0 <= out_y * vs_diameter) by (apply Z.mul_nonneg_nonneg; lia).
  assert (H3 : vs_diameter * vs_diameter <= 2 ^ 31 * 2 ^ 31)
    by (apply Z.mul_le_mono_nonneg; lia).
  rewrite to_size_t_small by (unfold SIZE_MAX1; lia).
  unfold buf_read. destruct (Z.ltb_spec (out_y * vs_diameter + out_x) 0); [lia|].
  destruct (lookup_lt_is_Some_2 binned (Z.to_nat (out_y * vs_diameter + out_x)))
    as [b Hb]; [rewrite Hlen; lia|].
  rewrite Hb. cbn. eapply list_elem_of_lookup_2. exact Hb.
Qed.

(** X22. The bytes of the vectorscope alpha buffer are defined: if [powf]
    of every density bin, times [255.0f], is a binary32 number other than NaN
    (negative values, values above 255 and infinities included), the
    quantization loop reaches no undefined conversion (its result is the same
    whatever such a conversion yields) and leaves every byte in [0, 255]. *)
Theorem vectorscope_alpha_defined (undef undef' : float -> Z)
    (powf : float -> float -> float) (vs_diameter vs_alpha_stride : Z)
    (binned : list float) (vs_alpha : list Z) :
  0 <= vs_diameter < INT_MAX1 ->
  length binned = Z.to_nat (vs_diameter * vs_diameter) ->
  Forall (fun b => is_number
                     (F32.mul (powf b (F32.div F32.one (F32.div (F32.of_Z 3) (F32.of_Z 2))))
                              (F32.of_Z 255))) binned ->
  Forall (fun a => 0 <= a <= 255) vs_alpha ->
  Forall (fun a => 0 <= a <= 255)
         (vectorscope_quantize undef powf vs_diameter vs_alpha_stride binned vs_alpha)
  /\ vectorscope_quantize undef powf vs_diameter vs_alpha_stride binned vs_alpha
     = vectorscope_quantize undef' powf vs_diameter vs_alpha_stride binned vs_alpha.
Proof.
  intros Hd Hlen Hb Ha.
  assert (Hs : to_size_t vs_diameter = vs_diameter)
    by (apply to_size_t_small; unfold SIZE_MAX1, INT_MAX1 in *; lia).
  assert (Hbin : forall out_x out_y, out_x ∈ seqZ 0 vs_diameter ->
                   out_y ∈ seqZ 0 vs_diameter ->
                   is_number
                     (F32.mul
                        (powf (buf_read binned (to_size_t (out_y * vs_diameter + out_x)))
                              (F32.div F32.one (F32.div (F32.of_Z 3) (F32.of_Z 2))))
                        (F32.of_Z 255))).
  { intros out_x out_y Hx Hy. apply elem_of_seqZ in Hx, Hy.
    apply (proj1 (Forall_forall _ _) Hb).
    apply quantize_reads_bin; [exact Hd | exact Hlen | lia | lia]. }
  unfold vectorscope_quantize. rewrite Hs. split.
  - apply foldl_invariant; [|exact Ha]. intros alpha out_y Hy Halpha.
    apply foldl_invariant; [|exact Halpha]. intros alpha1 out_x Hx Halpha1.
    apply Forall_insert; [exact Halpha1|].
    destruct (clamp_byte_defined undef _ (Hbin out_x out_y Hx Hy)) as (z & Hz & _ & ->).
    exact Hz.
  - apply foldl_ext_in. intros alpha out_y Hy.
    apply foldl_ext_in. intros alpha1 out_x Hx. f_equal.
    destruct (clamp_byte_defined undef _ (Hbin out_x out_y Hx Hy)) as (z & _ & Ht & ->).
    destruct (clamp_byte_defined undef' _ (Hbin out_x out_y Hx Hy)) as (z' & _ & Ht' & ->).
    congruence.
Qed.

Lemma vectorscope_alpha_defined_witness :
  let binned := replicate (Z.to_nat (256 * 256)) (F32.of_Z 2) in
  let vs_alpha := replicate (Z.to_nat (256 * 256)) 0 in
  Forall (fun a => 0 <= a <= 255)
         (vectorscope_quantize undef_zero powf_id 256 256 binned vs_alpha)
  /\ vectorscope_quantize undef_zero powf_id 256 256 binned vs_alpha
     = vectorscope_quantize (fun _ => 77) powf_id 256 256 binned vs_alpha.
Proof.
  apply (vectorscope_alpha_defined undef_zero (fun _ => 77) powf_id 256 256
           (replicate (Z.to_nat (256 * 256)) (F32.of_Z 2))
           (replicate (Z.to_nat (256 * 256)) 0)).
  - unfold INT_MAX1. lia.
  - apply length_replicate.
  - apply Forall_replicate. split; reflexivity.
  - apply Forall_replicate. lia.
Defined.

Lemma trunc_of_Z (n : Z) : 0 <= n < 2 ^ 24 -> F32.trunc (F32.of_Z n) = Some n.
Proof.
  intros Hn. destruct (Z.eq_dec n 0) as [->|Hne]; [reflexivity|].
  destruct (of_Z_normal n ltac:(lia)) as (m & e & -> & He & Hm & Hb).
  unfold F32.trunc. cbn [cond_Zopp].
  rewrite Z.shiftl_div_pow2 by lia. rewrite Hm.
  rewrite Z.div_mul by (apply Z.pow_nonzero; lia). reflexivity.
Qed.

Lemma of_Z_positive (n : Z) :
  1 <= n < 2 ^ 24 -> exists m e, F32.of_Z n = S754_finite false m e.
Proof.
  intros Hn. destruct (of_Z_normal n Hn) as (m & e & E & _). eauto.
Qed.

(** The clamp [MIN(extent, MAX(0, t))] of a number, converted to [int]. *)
Lemma picker_clamp_range (undef : float -> Z) (p : float) (extent : Z) :
  1 <= extent < 2 ^ 24 ->
  is_number (F32.mul p (F32.of_Z extent)) ->
  exists z, 0 <= z <= extent
            /\ F32.trunc (picker_clamp p extent) = Some z
            /\ float_to_int undef (picker_clamp p extent) = z.
Proof.
  intros He [Hv Hn].
  assert (K : forall y z, F32.trunc y = Some z -> 0 <= z <= extent ->
              exists z, 0 <= z <= extent /\ F32.trunc y = Some z
                        /\ float_to_int undef y = z).
  { intros y z Hy Hz. exists z. split; [exact Hz|]. split; [exact Hy|].
    unfold float_to_int. rewrite Hy. unfold INT_MIN, INT_MAX1.
    destruct (Z.leb_spec (- 2 ^ 31) z), (Z.ltb_spec z (2 ^ 31)); cbn; lia. }
  destruct (of_Z_positive extent He) as (me & ee & Ee).
  pose proof (trunc_of_Z extent ltac:(lia)) as Te.
  unfold picker_clamp, MINf, MAXf, F32.gt, F32.lt.
  change (F32.of_Z 0) with (S754_zero false).
  destruct (F32.mul p (F32.of_Z extent)) as [s | s | | s m e] eqn:Et;
    try discriminate Hn.
  - rewrite Ee. cbn [SFltb SFcompare].
    destruct s; apply (K _ 0); first [reflexivity | lia].
  - destruct s; cbn [SFltb SFcompare].
    + rewrite Ee. cbn [SFltb SFcompare]. apply (K _ 0); [reflexivity | lia].
    + rewrite Ee. cbn [SFltb SFcompare]. rewrite <- Ee.
      apply (K _ extent); [exact Te | lia].
  - destruct s; cbn [SFltb SFcompare].
    + rewrite Ee. cbn [SFltb SFcompare]. apply (K _ 0); [reflexivity | lia].
    + destruct (SFltb (F32.of_Z extent) (S754_finite false m e)) eqn:E.
      * apply (K _ extent); [exact Te | lia].
      * apply (K _ (Z.shiftl (Zpos m) e)); [reflexivity|].
        apply trunc_not_above; [lia | exact Hv | exact E].
Qed.

(** X23. The corner of the region of interest lies in the image: whenever
    the two picker coordinates times the image size are numbers (no NaN; any
    sign and size, infinities included), [0 <= crop_x <= width] and
    [0 <= crop_y <= height], by defined conversions only. Without picker
    restriction both are 0. *)
Theorem picker_origin_in_image (undef : float -> Z) (profile : Type)
    (host : host_t profile) (width height : Z) :
  1 <= width < 2 ^ 24 -> 1 <= height < 2 ^ 24 ->
  is_number (F32.mul (picker_origin host).1 (F32.of_Z width)) ->
  is_number (F32.mul (picker_origin host).2 (F32.of_Z height)) ->
  let roi := process_roi undef profile host width height in
  0 <= crop_x roi <= width /\ 0 <= crop_y roi <= height.
Proof.
  intros Hw Hh Hx Hy. cbn zeta. unfold process_roi, picker_origin in *.
  destruct (colorpicker_restricts host); [|cbn; lia].
  destruct (colorpicker_is_box host).
  - destruct (color_picker_box host) as [[[b0 b1] b2] b3]. cbn in Hx, Hy |- *.
    destruct (picker_clamp_range undef b0 width Hw Hx) as (zx & Hzx & _ & ->).
    destruct (picker_clamp_range undef b1 height Hh Hy) as (zy & Hzy & _ & ->).
    lia.
  - destruct (color_picker_point host) as [p0 p1]. cbn in Hx, Hy |- *.
    destruct (picker_clamp_range undef p0 width Hw Hx) as (zx & Hzx & _ & ->).
    destruct (picker_clamp_range undef p1 height Hh Hy) as (zy & Hzy & _ & ->).
    lia.
Qed.

Lemma picker_origin_in_image_witness :
  let roi := process_roi undef_zero unit (host_right_half None) 1440 900 in
  0 <= crop_x roi <= 1440 /\ 0 <= crop_y roi <= 900.
Proof.
  apply (picker_origin_in_image undef_zero unit (host_right_half None) 1440 900);
    first [lia | split; reflexivity].
Defined.
